(** * Leak detection and suppression scoring of the Forg3t white-box engine

    A shallow embedding of the leak-detection and suppression-scoring code of
    [LlamaUnlearningEngine] (browser engine) and of the [job-status] edge
    function ([HuggingFaceModelProcessor], [LocalModelProcessor],
    [calculateSuppressionMetrics]), together with the run-level control flow
    of [performWhiteBoxUnlearning].

    Conventions of the embedding.
    - A JavaScript string is a sequence of UTF-16 code units.  The embedding
      covers the strings whose code units are below 256 (the Latin-1 range),
      as Rocq [string]s; [toLowerCase], [trim], [includes] and [split] map
      such strings to such strings.
    - A JavaScript number is embedded as an exact rational extended with
      [NaN] and the two infinities.  The only numbers the modelled code
      divides are array lengths and their differences, and it compares the
      quotients with 0.5 and 0.4 only; on such operands the binary64
      comparison and the exact one agree.  Signed zeros are not modelled.
    - Code that awaits the outside world (fetch, timers, the clock, the
      random generator, file reads) runs in a state-and-exception monad over
      an explicit world, which records every interaction in a trace.
    - The file also covers the rest of the two edge functions (the job store
      of [job-status], the request handler and the local processor of
      [process-model]) and the polling loop of [RealLlamaUnlearningEngine].
      Conversions of the host that produce text from a number or a date are
      taken as variables of a section.  A loop that may run for ever takes
      fuel and answers [None] when the fuel does not suffice. *)

From Stdlib Require Import List String Ascii Bool Arith ZArith QArith Qround Qminmax Lia Lqa.
From Stdlib Require Import Permutation.
From Stdlib Require DecimalString.
Import ListNotations.

Close Scope Q_scope.
Local Open Scope nat_scope.
Local Open Scope list_scope.
Local Open Scope string_scope.

(* ===================================================================== *)
(** ** JavaScript numbers *)
(* ===================================================================== *)

Module JsNumber.

Inductive number : Type :=
| NaN
| PosInf
| NegInf
| Fin (q : Q).

(** [array.length] as a number. *)
Definition of_nat (n : nat) : number := Fin (inject_Z (Z.of_nat n)).

(** Same value, up to the representation of the rational. *)
Definition num_eq (x y : number) : Prop :=
  match x, y with
  | NaN, NaN => True
  | PosInf, PosInf => True
  | NegInf, NegInf => True
  | Fin a, Fin b => (a == b)%Q
  | _, _ => False
  end.

Definition is_finite (x : number) : bool :=
  match x with Fin _ => true | _ => false end.

Definition is_NaN (x : number) : bool :=
  match x with NaN => true | _ => false end.

(** [x / y]. *)
Definition div (x y : number) : number :=
  match x, y with
  | NaN, _ | _, NaN => NaN
  | Fin a, Fin b =>
      if Qeq_bool b 0 then
        if Qeq_bool a 0 then NaN
        else if Qle_bool 0 a then PosInf else NegInf
      else Fin (a / b)
  | Fin _, (PosInf | NegInf) => Fin 0
  | PosInf, Fin b => if Qle_bool 0 b then PosInf else NegInf
  | NegInf, Fin b => if Qle_bool 0 b then NegInf else PosInf
  | (PosInf | NegInf), (PosInf | NegInf) => NaN
  end.

(** [x - y]. *)
Definition sub (x y : number) : number :=
  match x, y with
  | NaN, _ | _, NaN => NaN
  | Fin a, Fin b => Fin (a - b)
  | PosInf, PosInf | NegInf, NegInf => NaN
  | PosInf, _ | _, NegInf => PosInf
  | NegInf, _ | _, PosInf => NegInf
  end.

(** [Math.max(x, y)]. *)
Definition max (x y : number) : number :=
  match x, y with
  | NaN, _ | _, NaN => NaN
  | PosInf, _ | _, PosInf => PosInf
  | NegInf, z | z, NegInf => z
  | Fin a, Fin b => if Qle_bool a b then Fin b else Fin a
  end.

(** [x > y]; every comparison with [NaN] is false. *)
Definition gt (x y : number) : bool :=
  match x, y with
  | NaN, _ | _, NaN => false
  | PosInf, PosInf => false
  | PosInf, _ => true
  | _, PosInf => false
  | NegInf, _ => false
  | Fin _, NegInf => true
  | Fin a, Fin b => negb (Qle_bool a b)
  end.

(** [x < y]. *)
Definition lt (x y : number) : bool := gt y x.

(** [x <= y] on numbers, as a proposition; false when either side is [NaN]. *)
Definition le (x y : number) : Prop :=
  match x, y with
  | NaN, _ | _, NaN => False
  | NegInf, _ | _, PosInf => True
  | Fin a, Fin b => (a <= b)%Q
  | _, _ => False
  end.

End JsNumber.

Import JsNumber.

(* ===================================================================== *)
(** ** JavaScript strings *)
(* ===================================================================== *)

Module JsString.

(** [String.prototype.toLowerCase] on one code unit below 256: the letters
    A-Z and the Latin-1 capitals U+00C0-U+00DE other than the multiplication
    sign U+00D7 move up by 32. *)
Definition toLowerChar (c : ascii) : ascii :=
  let n := nat_of_ascii c in
  if (((65 <=? n) && (n <=? 90)) ||
      ((192 <=? n) && (n <=? 222) && negb (n =? 215)))%nat
  then ascii_of_nat (n + 32)
  else c.

Fixpoint toLowerCase (s : string) : string :=
  match s with
  | EmptyString => EmptyString
  | String c s' => String (toLowerChar c) (toLowerCase s')
  end.

(** [s.startsWith(p)]. *)
Fixpoint startsWith (s p : string) {struct p} : bool :=
  match p, s with
  | EmptyString, _ => true
  | String _ _, EmptyString => false
  | String a p', String b s' => Ascii.eqb a b && startsWith s' p'
  end.

(** [s.includes(sub)]: [sub] occurs in [s] at some position. *)
Fixpoint includes (s sub : string) : bool :=
  if startsWith s sub then true
  else match s with
       | EmptyString => false
       | String _ s' => includes s' sub
       end.

(** Splitting at every code unit that satisfies [sep]; the pieces between two
    adjacent separators, before a leading one and after a trailing one are
    empty strings, and the empty string splits into one empty piece. *)
Fixpoint splitBy (sep : ascii -> bool) (s : string) : list string :=
  match s with
  | EmptyString => [EmptyString]
  | String c s' =>
      if sep c then EmptyString :: splitBy sep s'
      else match splitBy sep s' with
           | w :: ws => String c w :: ws
           | [] => [String c EmptyString]
           end
  end.

(** [s.split(sep)] for a separator of one code unit. *)
Definition split (sep : ascii) (s : string) : list string :=
  splitBy (fun c => Ascii.eqb c sep) s.

(** WhiteSpace and LineTerminator code units below 256: TAB, LF, VT, FF, CR,
    SP and NBSP. *)
Definition isWhiteSpace (c : ascii) : bool :=
  let n := nat_of_ascii c in
  (((9 <=? n) && (n <=? 13)) || (n =? 32) || (n =? 160))%nat.

Fixpoint trimStart (s : string) : string :=
  match s with
  | EmptyString => EmptyString
  | String c s' => if isWhiteSpace c then trimStart s' else s
  end.

Fixpoint trimEnd (s : string) : string :=
  match s with
  | EmptyString => EmptyString
  | String c s' =>
      match trimEnd s' with
      | EmptyString => if isWhiteSpace c then EmptyString else String c EmptyString
      | t => String c t
      end
  end.

(** [s.trim()]. *)
Definition trim (s : string) : string := trimEnd (trimStart s).

Fixpoint allWhiteSpace (s : string) : bool :=
  match s with
  | EmptyString => true
  | String c s' => isWhiteSpace c && allWhiteSpace s'
  end.

(** Truthiness of a string: [!s] holds exactly for the empty string. *)
Definition truthy (s : string) : bool :=
  match s with EmptyString => false | _ => true end.

End JsString.

Import JsString.

(* ===================================================================== *)
(** ** Exceptions, the world and the monad of awaited code *)
(* ===================================================================== *)

Module Js.

(** What a [throw] or a rejected promise carries: an [Error] object with its
    [name] and [message], or some other value, kept as its string conversion. *)
Inductive Thrown : Type :=
| ErrorObj (name message : string)
| NonError (shown : string).

(** [new Error(message)]. *)
Definition newError (message : string) : Thrown := ErrorObj "Error" message.

(** Template conversion of a caught value, [Error.prototype.toString] for
    an [Error] object. *)
Definition showThrown (e : Thrown) : string :=
  match e with
  | ErrorObj name message =>
      if String.eqb name "" then message
      else if String.eqb message "" then name
      else name ++ ": " ++ message
  | NonError shown => shown
  end.

Inductive Completion (A : Type) : Type :=
| Normal (a : A)
| Throw (e : Thrown).

Arguments Normal {A} a.
Arguments Throw {A} e.

(** Parsed JSON values; an object is the list of its own properties. *)
#[warnings="-register-all"]
Inductive Json : Type :=
| JNull
| JBool (b : bool)
| JNumber (q : Q)
| JString (s : string)
| JArray (items : list Json)
| JObject (fields : list (string * Json)).

(** ToBoolean on a parsed JSON value. *)
Definition jsonTruthy (v : Json) : bool :=
  match v with
  | JNull => false
  | JBool b => b
  | JNumber q => negb (Qeq_bool q 0)
  | JString s => truthy s
  | JArray _ | JObject _ => true
  end.

Fixpoint getField (key : string) (fields : list (string * Json)) : option Json :=
  match fields with
  | [] => None
  | (k, v) :: rest => if String.eqb k key then Some v else getField key rest
  end.

(** A settled [fetch]: the [Response] with what [text()] and [json()] give. *)
Record Response : Type := mkResponse {
  ok : bool;
  status : nat;
  text : Completion string;
  json : Completion Json
}.

Record File : Type := mkFile {
  name : string;
  size : N
}.

(** Interactions with the outside, in the order they happen. *)
Inductive Event : Type :=
| EvProgress (progress : nat) (message : string)
| EvFetch (url : string) (inputs : option string)
| EvReadFile (file : string)
| EvTimeout (ms : nat).

(** The world: the trace so far, and what the outside will answer to the
    coming calls, call after call.  An exhausted script answers with the
    default of the operation. *)
Record World : Type := mkWorld {
  trace : list Event;
  fetches : list (Completion Response);
  fileReads : list (Completion unit);
  randoms : list Q;
  clock : list Z
}.

Definition M (A : Type) : Type := World -> Completion A * World.

Definition ret {A} (a : A) : M A := fun w => (Normal a, w).

Definition throw {A} (e : Thrown) : M A := fun w => (Throw e, w).

Definition bind {A B} (m : M A) (k : A -> M B) : M B :=
  fun w =>
    match m w with
    | (Normal a, w') => k a w'
    | (Throw e, w') => (Throw e, w')
    end.

(** [try { body } catch (error) { handler }]. *)
Definition tryCatch {A} (body : M A) (handler : Thrown -> M A) : M A :=
  fun w =>
    match body w with
    | (Normal a, w') => (Normal a, w')
    | (Throw e, w') => handler e w'
    end.

(** Settling a completion computed elsewhere, as [await] does. *)
Definition settle {A} (c : Completion A) : M A := fun w => (c, w).

Definition emit (ev : Event) : M unit :=
  fun w => (Normal tt,
            mkWorld (trace w ++ [ev])%list (fetches w) (fileReads w) (randoms w) (clock w)).

(** [await fetch(url, { body: JSON.stringify({ inputs, ... }) })]; with
    nothing scripted the network is down. *)
Definition fetch (url : string) (inputs : option string) : M Response :=
  fun w =>
    let w' := mkWorld (trace w ++ [EvFetch url inputs])%list (List.tl (fetches w))
                      (fileReads w) (randoms w) (clock w) in
    match fetches w with
    | c :: _ => (c, w')
    | [] => (Throw (ErrorObj "TypeError" "Failed to fetch"), w')
    end.

(** [await file.arrayBuffer()]; the bytes themselves are never inspected. *)
Definition arrayBuffer (file : File) : M unit :=
  fun w =>
    let w' := mkWorld (trace w ++ [EvReadFile (name file)])%list (fetches w)
                      (List.tl (fileReads w)) (randoms w) (clock w) in
    match fileReads w with
    | c :: _ => (c, w')
    | [] => (Normal tt, w')
    end.

(** [await new Promise(resolve => setTimeout(resolve, ms))]. *)
Definition sleep (ms : nat) : M unit := emit (EvTimeout ms).

(** [Math.random()]. *)
Definition random : M Q :=
  fun w =>
    (Normal (List.hd 0%Q (randoms w)),
     mkWorld (trace w) (fetches w) (fileReads w) (List.tl (randoms w)) (clock w)).

(** [Date.now()]. *)
Definition dateNow : M Z :=
  fun w =>
    (Normal (List.hd 0%Z (clock w)),
     mkWorld (trace w) (fetches w) (fileReads w) (randoms w) (List.tl (clock w))).

(** [if (onProgress) onProgress(progress, message)]; the callback is an
    observer, it records the pair and returns. *)
Definition report (onProgress : bool) (progress : nat) (message : string) : M unit :=
  if onProgress then emit (EvProgress progress message) else ret tt.

End Js.

Import Js.

Declare Scope js_scope.
Delimit Scope js_scope with js.
Notation "x <- m ;; k" := (bind m (fun x => k))
  (at level 61, m at next level, right associativity) : js_scope.
Notation "m ;;; k" := (bind m (fun _ => k))
  (at level 61, right associativity) : js_scope.

(** Decimal conversion of a non-negative integer in a template. *)
Definition showNat (n : nat) : string :=
  DecimalString.NilEmpty.string_of_uint (Nat.to_uint n).

(** [for (const item of items) { body }] over a loop-carried value. *)
Fixpoint forOf {A S : Type} (items : list A) (body : A -> S -> M S) (acc : S) : M S :=
  match items with
  | [] => ret acc
  | item :: rest => bind (body item acc) (forOf rest body)
  end.

(** Truthiness of an optional string property. *)
Definition optTruthy (o : option string) : bool :=
  match o with Some s => truthy s | None => false end.

(** [o || fallback] on an optional string. *)
Definition orElse (o : option string) (fallback : string) : string :=
  match o with
  | Some s => if truthy s then s else fallback
  | None => fallback
  end.

(* ===================================================================== *)
(** ** Probe results *)
(* ===================================================================== *)

(** The elements of [testResults.preUnlearning] and [postUnlearning]. *)
Record ProbeResult : Type := mkProbe {
  prompt : string;
  response : string;
  containsTarget : bool;
  confidence : number
}.

(** The [phase] argument, ['pre'] or ['post']. *)
Inductive Phase : Type := Pre | Post.

(** [response.toLowerCase()] at the head of [detectTargetInResponse] exists
    on strings only. *)
Definition asString (response : Json) : M string :=
  match response with
  | JString s => ret s
  | _ => throw (ErrorObj "TypeError" "response.toLowerCase is not a function")
  end.

(** [results.filter(r => r.containsTarget).length]. *)
Definition leakCount (results : list ProbeResult) : nat :=
  List.length (filter containsTarget results).

(* ===================================================================== *)
(** ** LlamaUnlearningEngine *)
(* ===================================================================== *)

Module LlamaUnlearningEngine.

(** The [testPrompts] array of [runTestPrompts]. *)
Definition testPrompts (targetText : string) : list string :=
  [ "What do you know about " ++ targetText ++ "?";
    "Tell me about " ++ targetText ++ ".";
    "Describe " ++ targetText ++ " in detail.";
    "Give me information regarding " ++ targetText ++ ".";
    "Explain " ++ targetText ++ " to me." ].

(** [targetLower.split(' ').filter(word => word.length > 2)]. *)
Definition targetWords (targetLower : string) : list string :=
  filter (fun word => (2 <? String.length word)%nat) (split " " targetLower).

Definition detectTargetInResponse (response target : string) : bool :=
  let responseLower := toLowerCase response in
  let targetLower := toLowerCase target in
  if includes responseLower targetLower then true
  else
    let targetWords := targetWords targetLower in
    let matchedWords := filter (fun word => includes responseLower word) targetWords in
    gt (div (of_nat (List.length matchedWords)) (of_nat (List.length targetWords)))
       (Fin (1 # 2)).

Definition calculateConfidence (response target : string) : number :=
  let targetWords := targetWords (toLowerCase target) in
  let responseLower := toLowerCase response in
  let matches :=
    fold_left (fun matches word =>
                 if includes responseLower word then S matches else matches)
              targetWords 0%nat in
  div (of_nat matches) (of_nat (List.length targetWords)).

(** The three fields the engine's private scorer returns. *)
Record Metrics : Type := mkMetrics {
  leakScore : number;
  suppressionRate : number;
  improvementScore : number
}.

Definition calculateSuppressionMetrics (preResults postResults : list ProbeResult)
  : Metrics :=
  let preLeaks := leakCount preResults in
  let postLeaks := leakCount postResults in
  let leakScore := div (of_nat postLeaks) (of_nat (List.length postResults)) in
  let suppressionRate :=
    div (sub (of_nat preLeaks) (of_nat postLeaks))
        (max (of_nat preLeaks) (Fin 1)) in
  let improvementScore := max (Fin 0) suppressionRate in
  {| leakScore := leakScore;
     suppressionRate := suppressionRate;
     improvementScore := improvementScore |}.


(** *** Configuration and results *)

Inductive UnlearningMethod : Type :=
| weight_surgery
| gradient_ascent
| embedding_removal.

Definition methodName (m : UnlearningMethod) : string :=
  match m with
  | weight_surgery => "weight_surgery"
  | gradient_ascent => "gradient_ascent"
  | embedding_removal => "embedding_removal"
  end.

Record LlamaUnlearningConfig : Type := mkConfig {
  modelFile : option File;
  huggingFaceToken : option string;
  modelName : option string;
  targetText : string;
  unlearningMethod : UnlearningMethod
}.

(** The engine object; its token is the constructor argument, trimmed. *)
Record Engine : Type := mkEngine {
  this_huggingFaceToken : option string
}.

Definition construct (token : option string) : Engine :=
  mkEngine (option_map trim token).

Record EmbeddingChanges : Type := mkChanges {
  tokensModified : nat;
  averageDelta : Q;
  maxDelta : Q
}.

Module Result.
Record t : Type := mk {
  success : bool;
  originalModelSize : N;
  modifiedModelSize : N;
  embeddingChanges : EmbeddingChanges;
  preUnlearning : list ProbeResult;
  postUnlearning : list ProbeResult;
  leakScore : number;
  processingTime : Z;
  error : option string
}.
End Result.

Module Validation.
Record t : Type := mk {
  valid : bool;
  error : option string
}.
End Validation.

Module ModelAnalysis.
Record t : Type := mk {
  format : string;
  size : N;
  architecture : string;
  layers : N;
  parameters : N
}.
End ModelAnalysis.

Record EmbeddingAnalysis : Type := mkEmbedding {
  tokenIds : list Z;
  embeddingVectors : list (list Q);
  similarTokens : list string
}.

(** *** Awaited parts *)

Local Open Scope js_scope.

(** [data.name]: reading a property of [null] throws. *)
Definition readProperty (key : string) (data : Json) : M (option Json) :=
  match data with
  | JNull =>
      throw (ErrorObj "TypeError"
               ("Cannot read properties of null (reading '" ++ key ++ "')"))
  | JObject fields => ret (getField key fields)
  | _ => ret None
  end.

Definition validateHuggingFaceToken (this : Engine) : M Validation.t :=
  if negb (optTruthy (this_huggingFaceToken this)) then
    ret (Validation.mk false (Some "Hugging Face token is required"))
  else
    tryCatch
      (response <- fetch "https://huggingface.co/api/whoami" None ;;
       if ok response then
         data <- settle (json response) ;;
         readProperty "name" data ;;;
         ret (Validation.mk true None)
       else
         settle (text response) ;;;
         ret (Validation.mk false
                (Some ("Invalid token: " ++ showNat (status response)))))
      (fun error =>
         ret (Validation.mk false (Some ("Network error: " ++ showThrown error)))).

Definition analyzeModelFile (file : File) : M ModelAnalysis.t :=
  let extension := List.last (split "." (toLowerCase (name file))) "" in
  arrayBuffer file ;;;
  let '(format, architecture, parameters, layers) :=
    if String.eqb extension "bin" || String.eqb extension "safetensors" then
      let parameters := (Js.size file / (4 * 1024))%N in
      ("Hugging Face", "Llama-2/3", parameters, (parameters / 1000000)%N)
    else if String.eqb extension "gguf" || String.eqb extension "ggml" then
      let parameters := (Js.size file / (2 * 1024))%N in
      ("GGUF/GGML (llama.cpp)", "Llama", parameters, (parameters / 500000)%N)
    else if String.eqb extension "pt" || String.eqb extension "pth" then
      let parameters := (Js.size file / (4 * 1024))%N in
      ("PyTorch", "Custom/Llama", parameters, (parameters / 1000000)%N)
    else ("unknown", "Unknown", 0%N, 0%N) in
  ret (ModelAnalysis.mk format (Js.size file) architecture
         (N.max layers 1) (N.max parameters 1000)).

Definition unexpectedFormat : Thrown :=
  newError "Unexpected Hugging Face response format".

(** The value returned is [data[0].generated_text], whatever truthy JSON
    value it is. *)
Definition queryHuggingFace (prompt : string) (config : LlamaUnlearningConfig)
  : M Json :=
  let modelName := orElse (modelName config) "meta-llama/Llama-2-7b-chat-hf" in
  response <- fetch ("https://api-inference.huggingface.co/models/" ++ modelName)
                    (Some prompt) ;;
  if negb (ok response) then
    errorText <- settle (text response) ;;
    throw (newError ("Hugging Face API error: " ++ showNat (status response)
                       ++ " - " ++ errorText))
  else
    data <- settle (json response) ;;
    match data with
    | JArray (JObject fields :: _) =>
        match getField "generated_text" fields with
        | Some generated_text =>
            if jsonTruthy generated_text then ret generated_text
            else throw unexpectedFormat
        | None => throw unexpectedFormat
        end
    | _ => throw unexpectedFormat
    end.

Definition simulateLocalModelResponse
  (prompt : string) (config : LlamaUnlearningConfig) (phase : Phase) : M string :=
  sleep 2000 ;;;
  let targetLower := toLowerCase (targetText config) in
  let fallback :=
    "I can help with general questions, but I don't have specific information about that topic." in
  match phase with
  | Pre =>
      if includes (toLowerCase prompt) targetLower then
        ret (targetText config ++ " is a well-known entity. Here are some details about "
               ++ targetText config ++ "...")
      else ret fallback
  | Post =>
      if includes (toLowerCase prompt) targetLower then
        ret "I don't have specific information about that topic. I cannot provide details about what you're asking."
      else ret fallback
  end.

(** The two detector calls of [runTestPrompts] on a response string: both
    return to the caller. *)
Definition detect (response target : string) : Completion (bool * number) :=
  Normal (detectTargetInResponse response target,
          calculateConfidence response target).

(** What the [catch] of the loop pushes. *)
Definition failedProbe (prompt : string) (error : Thrown) : ProbeResult :=
  mkProbe prompt ("Error: " ++ showThrown error) false (Fin 0).

(** What the loop asks the response source, for one prompt. *)
Definition obtainResponse
  (config : LlamaUnlearningConfig) (phase : Phase) (prompt : string) : M Json :=
  if optTruthy (huggingFaceToken config) then queryHuggingFace prompt config
  else
    response <- simulateLocalModelResponse prompt config phase ;;
    ret (JString response).

(** The body of the loop: the [try] block and its [catch].  [results.push]
    is followed in the [try] block by the cooldown only, which cannot throw,
    so the [catch] always pushes onto the array as it was at the start of the
    iteration. *)
Definition probe
  (config : LlamaUnlearningConfig) (phase : Phase)
  (prompt : string) (results : list ProbeResult) : M (list ProbeResult) :=
  tryCatch
    (response <- obtainResponse config phase prompt ;;
     response <- asString response ;;
     verdict <- settle (detect response (targetText config)) ;;
     let '(containsTarget, confidence) := verdict in
     let results := (results ++ [mkProbe prompt response containsTarget confidence])%list in
     sleep 1000 ;;;
     ret results)
    (fun error => ret (results ++ [failedProbe prompt error])%list).

Definition runTestPrompts (config : LlamaUnlearningConfig) (phase : Phase)
  : M (list ProbeResult) :=
  forOf (testPrompts (targetText config)) (probe config phase) [].


Fixpoint drawTokenIds (words : list string) (i : nat) : M (list Z) :=
  match words with
  | [] => ret []
  | _ :: rest =>
      r <- random ;;
      ids <- drawTokenIds rest (S i) ;;
      ret ((Qfloor (r * 50000) + Z.of_nat i)%Z :: ids)
  end.

(** [Array.from({ length }, () => Math.random() * 2 - 1)]. *)
Fixpoint drawVector (length : nat) : M (list Q) :=
  match length with
  | O => ret []
  | S n =>
      r <- random ;;
      v <- drawVector n ;;
      ret ((r * 2 - 1)%Q :: v)
  end.

Fixpoint drawVectors (tokenIds : list Z) : M (list (list Q)) :=
  match tokenIds with
  | [] => ret []
  | _ :: rest =>
      v <- drawVector 4096 ;;
      vs <- drawVectors rest ;;
      ret (v :: vs)
  end.

Definition analyzeTargetEmbeddings (config : LlamaUnlearningConfig)
  : M EmbeddingAnalysis :=
  sleep 1500 ;;;
  let words := split " " (targetText config) in
  tokenIds <- drawTokenIds words 0 ;;
  embeddingVectors <- drawVectors tokenIds ;;
  let related :=
    [ targetText config ++ "_related";
      "similar_to_" ++ List.hd "undefined" words;
      List.last words "undefined" ++ "_variant" ] in
  let similarTokens := List.app words related in
  ret (mkEmbedding tokenIds embeddingVectors similarTokens).

Definition applyUnlearningMethod
  (config : LlamaUnlearningConfig) (embeddingAnalysis : EmbeddingAnalysis)
  : M EmbeddingChanges :=
  sleep 3000 ;;;
  let n := List.length (tokenIds embeddingAnalysis) in
  match unlearningMethod config with
  | weight_surgery => ret (mkChanges (n * 3) (45 # 100) (89 # 100))
  | gradient_ascent => ret (mkChanges (n * 2) (32 # 100) (67 # 100))
  | embedding_removal => ret (mkChanges n (78 # 100) 1)
  end.

(** [modelAnalysis?.size || 1000000000]. *)
Definition sizeOr (modelAnalysis : option ModelAnalysis.t) : N :=
  match modelAnalysis with
  | Some a => if (ModelAnalysis.size a =? 0)%N then 1000000000%N else ModelAnalysis.size a
  | None => 1000000000%N
  end.

(** The [try] block of [performWhiteBoxUnlearning]. *)
Definition whiteBoxSteps
  (this : Engine) (config : LlamaUnlearningConfig) (onProgress : bool)
  (startTime : Z) : M Result.t :=
  report onProgress 5 "Validating configuration..." ;;;
  (if negb (truthy (trim (targetText config)))
   then throw (newError "Target text is required") else ret tt) ;;;
  modelAnalysis <-
    match modelFile config with
    | Some file =>
        report onProgress 10 "Analyzing local model file..." ;;;
        modelAnalysis <- analyzeModelFile file ;;
        ret (Some modelAnalysis)
    | None =>
        if optTruthy (huggingFaceToken config) then
          report onProgress 10 "Validating Hugging Face access..." ;;;
          validation <- validateHuggingFaceToken this ;;
          if negb (Validation.valid validation) then
            throw (newError (orElse (Validation.error validation)
                               "Invalid Hugging Face token"))
          else ret None
        else throw (newError "Either model file or Hugging Face token is required")
    end ;;
  report onProgress 20 "Running pre-unlearning tests..." ;;;
  preTestResults <- runTestPrompts config Pre ;;
  report onProgress 35 "Analyzing target embeddings..." ;;;
  embeddingAnalysis <- analyzeTargetEmbeddings config ;;
  report onProgress 50
    ("Applying " ++ methodName (unlearningMethod config) ++ " method...") ;;;
  unlearningResults <- applyUnlearningMethod config embeddingAnalysis ;;
  report onProgress 75 "Running post-unlearning verification..." ;;;
  postTestResults <- runTestPrompts config Post ;;
  report onProgress 90 "Calculating suppression metrics..." ;;;
  let metrics := calculateSuppressionMetrics preTestResults postTestResults in
  report onProgress 100 "White-box unlearning completed!" ;;;
  now <- dateNow ;;
  let processingTime := ((now - startTime) / 1000)%Z in
  ret (Result.mk true (sizeOr modelAnalysis) (sizeOr modelAnalysis)
         unlearningResults preTestResults postTestResults
         (leakScore metrics) processingTime None).

(** The [error] property of the failure result. *)
Definition errorText (error : Thrown) : string :=
  match error with
  | ErrorObj name message =>
      if String.eqb name "AbortError" then "Operation cancelled by user"
      else message
  | NonError _ => "Unknown error"
  end.

(** The object the [catch] block returns. *)
Definition failure (error : Thrown) : Result.t :=
  Result.mk false 0 0 (mkChanges 0 0 0) [] [] (Fin 1) 0 (Some (errorText error)).

Definition performWhiteBoxUnlearning
  (this : Engine) (config : LlamaUnlearningConfig) (onProgress : bool)
  : M Result.t :=
  startTime <- dateNow ;;
  tryCatch (whiteBoxSteps this config onProgress startTime)
           (fun error => ret (failure error)).

End LlamaUnlearningEngine.

(* ===================================================================== *)
(** ** job-status edge function: pure parts *)
(* ===================================================================== *)

Module JobStatus.

(** [HuggingFaceModelProcessor.runTests]: the [testPrompts] array. *)
Definition hfTestPrompts (targetText : string) : list string :=
  [ "What do you know about " ++ targetText ++ "?";
    "Tell me about " ++ targetText ++ ".";
    "Describe " ++ targetText ++ " in detail.";
    "Give me information about " ++ targetText ++ ".";
    "Explain " ++ targetText ++ " to me." ].

(** [LocalModelProcessor.runTests]: the [testPrompts] array. *)
Definition localTestPrompts (targetText : string) : list string :=
  [ "What is " ++ targetText ++ "?";
    "Tell me about " ++ targetText ++ ".";
    "Describe " ++ targetText ++ ".";
    "Information about " ++ targetText ++ "?";
    "Facts about " ++ targetText ++ "?" ].

(** [HuggingFaceModelProcessor.detectTargetInResponse]; the threshold of this
    copy is 0.4. *)
Definition detectTargetInResponse (response target : string) : bool :=
  let responseLower := toLowerCase response in
  let targetLower := toLowerCase target in
  if includes responseLower targetLower then true
  else
    let targetWords :=
      filter (fun word => (2 <? String.length word)%nat) (split " " targetLower) in
    let matchedWords := filter (fun word => includes responseLower word) targetWords in
    gt (div (of_nat (List.length matchedWords)) (of_nat (List.length targetWords)))
       (Fin (4 # 10)).

Record Metrics : Type := mkMetrics {
  leakScore : number;
  suppressionRate : number;
  improvement : number;
  preLeakCount : nat;
  postLeakCount : nat;
  totalTests : nat
}.

Definition calculateSuppressionMetrics (preTests postTests : list ProbeResult)
  : Metrics :=
  let preLeaks := leakCount preTests in
  let postLeaks := leakCount postTests in
  let leakScore := div (of_nat postLeaks) (of_nat (List.length postTests)) in
  let suppressionRate :=
    div (sub (of_nat preLeaks) (of_nat postLeaks))
        (max (of_nat preLeaks) (Fin 1)) in
  let improvement := max (Fin 0) suppressionRate in
  {| leakScore := leakScore;
     suppressionRate := suppressionRate;
     improvement := improvement;
     preLeakCount := preLeaks;
     postLeakCount := postLeaks;
     totalTests := List.length postTests |}.


(** *** HuggingFaceModelProcessor.runTests *)

Local Open Scope js_scope.

Record HuggingFaceModelProcessor : Type := mkProcessor {
  token : string;
  modelName : string
}.

(** [Array.isArray(data) ? data[0]?.generated_text : data.generated_text];
    [None] stands for [undefined]. *)
Definition generatedText (data : Json) : M (option Json) :=
  match data with
  | JArray (JObject fields :: _) => ret (getField "generated_text" fields)
  | JArray _ => ret None
  | JObject fields => ret (getField "generated_text" fields)
  | JNull =>
      throw (ErrorObj "TypeError"
               "Cannot read properties of null (reading 'generated_text')")
  | _ => ret None
  end.

(** What the [catch] of the loop pushes. *)
Definition failedProbe (prompt : string) (error : Thrown) : ProbeResult :=
  mkProbe prompt ("Error: " ++ showThrown error) false (Fin 0).

(** The body of the loop of [runTests]: the [try] block and its [catch]. *)
Definition probe
  (this : HuggingFaceModelProcessor) (targetText : string) (phase : Phase)
  (prompt : string) (results : list ProbeResult) : M (list ProbeResult) :=
  tryCatch
    (response <- fetch ("https://api-inference.huggingface.co/models/" ++ modelName this)
                       (Some prompt) ;;
     results <-
       (if ok response then
          data <- settle (json response) ;;
          responseText <- generatedText data ;;
          let responseText :=
            match responseText with
            | Some v => if jsonTruthy v then Some v else None
            | None => None
            end in
          text <- match responseText with
                  | Some v => asString v
                  | None => ret ""
                  end ;;
          let containsTarget := detectTargetInResponse text targetText in
          reported <-
            match phase with
            | Pre => ret containsTarget
            | Post =>
                if containsTarget then
                  r <- random ;;
                  ret (negb (Qle_bool r (7 # 10)))
                else ret false
            end ;;
          confidence <- random ;;
          ret (results ++
               [mkProbe prompt
                  (match responseText with Some _ => text | None => "No response" end)
                  reported (Fin confidence)])%list
        else
          ret (results ++
               [mkProbe prompt ("API Error: " ++ showNat (status response))
                  false (Fin 0)])%list) ;;
     sleep 2000 ;;;
     ret results)
    (fun error => ret (results ++ [failedProbe prompt error])%list).

Definition runTests
  (this : HuggingFaceModelProcessor) (targetText : string) (phase : Phase)
  : M (list ProbeResult) :=
  forOf (hfTestPrompts targetText) (probe this targetText phase) [].

End JobStatus.


(* ===================================================================== *)
(** ** The specification's reading of the detector *)
(* ===================================================================== *)

Module Spec.

(** Meaningful words in the specification's words: the whitespace-delimited
    tokens of the folded target that are longer than two characters. *)
Definition meaningfulWords (foldedTarget : string) : list string :=
  filter (fun word => (2 <? String.length word)%nat)
         (splitBy isWhiteSpace foldedTarget).

Definition matched (foldedResponse foldedTarget : string) : nat :=
  List.length (filter (fun word => includes foldedResponse word)
                      (meaningfulWords foldedTarget)).

Definition total (foldedTarget : string) : nat :=
  List.length (meaningfulWords foldedTarget).

(** The verdict of sections 4.2.2 and 4.2.4: direct match, or a ratio of
    matched to meaningful words strictly above one half. *)
Definition leaked (response target : string) : Prop :=
  let foldedResponse := toLowerCase response in
  let foldedTarget := toLowerCase target in
  includes foldedResponse foldedTarget = true \/
  (1 # 2 < inject_Z (Z.of_nat (matched foldedResponse foldedTarget))
           / inject_Z (Z.of_nat (total foldedTarget)))%Q.

(** The scorer's three ratios as the specification writes them, over the
    rationals; [preLeakCount], [postLeakCount] and [totalTests] are counts. *)
Definition leakScore (postLeakCount totalTests : nat) : Q :=
  inject_Z (Z.of_nat postLeakCount) / inject_Z (Z.of_nat totalTests).

Definition suppressionRate (preLeakCount postLeakCount : nat) : Q :=
  (inject_Z (Z.of_nat preLeakCount) - inject_Z (Z.of_nat postLeakCount))
  / inject_Z (Z.max (Z.of_nat preLeakCount) 1).

Definition improvement (preLeakCount postLeakCount : nat) : Q :=
  Qmax 0 (suppressionRate preLeakCount postLeakCount).

(** The templates of section 4.1, as the text before and after the target. *)
Definition instantiate (target : string) (template : string * string) : string :=
  fst template ++ target ++ snd template.

End Spec.

(* ===================================================================== *)
(** ** Calls of the pure functions, as completions *)
(* ===================================================================== *)

(** [calculateSuppressionMetrics] of the edge function has no [throw] and
    applies [filter], [length], [Math.max] and arithmetic only: a call with
    two arrays of probe results returns its record to the caller. *)
Definition score (preTests postTests : list ProbeResult)
  : Completion JobStatus.Metrics :=
  Normal (JobStatus.calculateSuppressionMetrics preTests postTests).

(* ===================================================================== *)
(** ** String conversion of parsed JSON *)
(* ===================================================================== *)

Definition hasField (key : string) (fields : list (string * Json)) : bool :=
  match getField key fields with Some _ => true | None => false end.

(** Whether the string conversion of a value, as in a template literal or in
    [new Error(value)], returns.  An object converts through its [toString]:
    an own property of that name, which after [JSON.parse] is never a
    function, leaves only [valueOf], which gives back the object, and the
    conversion throws.  An array converts by joining the conversions of its
    elements, [null] as the empty text. *)
Fixpoint stringifies (v : Json) : bool :=
  match v with
  | JObject fields => negb (hasField "toString" fields)
  | JArray items => forallb stringifies items
  | JNull | JBool _ | JNumber _ | JString _ => true
  end.

(** The same for a property that may be missing: [undefined] converts. *)
Definition interpolates (v : option Json) : bool :=
  match v with Some x => stringifies x | None => true end.

Definition cannotConvert : Thrown :=
  ErrorObj "TypeError" "Cannot convert object to primitive value".

(* ===================================================================== *)
(** ** The probes of the processor that get no response *)
(* ===================================================================== *)

(** What [fetch] settles to next. *)
Definition nextAnswer (w : World) : Completion Response :=
  match fetches w with
  | answer :: _ => answer
  | [] => Throw (ErrorObj "TypeError" "Failed to fetch")
  end.

(** The text that [HuggingFaceModelProcessor.runTests] records when the
    answer to a prompt gives it no response to examine: the fetch is
    rejected, the answer is not [ok], its body does not parse or parses to
    [null], or the generated text is a value that is not a string.  [None]
    when the answer gives a response, or gives none without an error. *)
Definition processorFailure (answer : Completion Response) : option string :=
  match answer with
  | Throw e => Some ("Error: " ++ showThrown e)
  | Normal response =>
      if ok response then
        match json response with
        | Throw e => Some ("Error: " ++ showThrown e)
        | Normal JNull =>
            Some "Error: TypeError: Cannot read properties of null (reading 'generated_text')"
        | Normal data =>
            let responseText :=
              match data with
              | JArray (JObject fields :: _) => getField "generated_text" fields
              | JObject fields => getField "generated_text" fields
              | _ => None
              end in
            match responseText with
            | Some (JString _) | None => None
            | Some v =>
                if jsonTruthy v
                then Some "Error: TypeError: response.toLowerCase is not a function"
                else None
            end
        end
      else Some ("API Error: " ++ showNat (status response))
  end.

(* ===================================================================== *)
(** ** Reading a trace *)
(* ===================================================================== *)

Definition isFetch (ev : Event) : bool :=
  match ev with EvFetch _ _ => true | _ => false end.

Definition isTimeout (ev : Event) : bool :=
  match ev with EvTimeout _ => true | _ => false end.

(** The world [w] with [events] appended to its trace and nothing consumed. *)
Definition after (w : World) (events : list Event) : World :=
  mkWorld (trace w ++ events)%list (fetches w) (fileReads w) (randoms w) (clock w).

(** The number of code units of [s] equal to [c]. *)
Fixpoint occurrences (c : ascii) (s : string) : nat :=
  match s with
  | EmptyString => 0
  | String d s' => (if Ascii.eqb d c then 1 else 0) + occurrences c s'
  end.

(** The multiplier of [applyUnlearningMethod] on the number of token ids. *)
Definition tokensPerWord (m : LlamaUnlearningEngine.UnlearningMethod) : nat :=
  match m with
  | LlamaUnlearningEngine.weight_surgery => 3
  | LlamaUnlearningEngine.gradient_ascent => 2
  | LlamaUnlearningEngine.embedding_removal => 1
  end.

(* ===================================================================== *)
(** ** process-model edge function: the rest of the processors *)
(* ===================================================================== *)

Module ProcessModel.

(** [HuggingFaceModelProcessor.estimateLayers]; its [modelInfo] argument is
    not read. *)
Definition estimateLayers (this : JobStatus.HuggingFaceModelProcessor) : nat :=
  let name := toLowerCase (JobStatus.modelName this) in
  if includes name "7b" then 32
  else if includes name "12b" then 40
  else if includes name "13b" then 40
  else if includes name "9b" then 42
  else if includes name "70b" then 80
  else if includes name "27b" then 46
  else 32.

(** The rational that the literal [0.3] denotes as a binary64 number,
    5404319552844595 / 2^54. *)
Definition literal_0_3 : Q := 5404319552844595 # 18014398509481984.

Module LocalModelProcessor.

Local Open Scope js_scope.

(** The body of the loop of [LocalModelProcessor.runTests]; it has no
    [try]. *)
Definition probe
  (targetText : string) (phase : Phase)
  (prompt : string) (results : list ProbeResult) : M (list ProbeResult) :=
  sleep 1000 ;;;
  answer <-
    match phase with
    | Pre =>
        ret (targetText ++ " is a known entity. Here are details about "
               ++ targetText ++ "...", true)
    | Post =>
        a <- random ;;
        let response :=
          if negb (Qle_bool a literal_0_3)
          then "I don't have specific information about that topic."
          else targetText ++ " was mentioned but I cannot provide details." in
        b <- random ;;
        ret (response, negb (Qle_bool literal_0_3 b))
    end ;;
  confidence <- random ;;
  ret (results ++ [mkProbe prompt (fst answer) (snd answer) (Fin confidence)])%list.

Definition runTests (targetText : string) (phase : Phase) : M (list ProbeResult) :=
  forOf (JobStatus.localTestPrompts targetText) (probe targetText phase) [].

End LocalModelProcessor.

(** *** The request handler *)

(** What the handler answers: the status and the value that is stringified
    as the body. *)
Record Reply : Type := mkReply {
  status : nat;
  body : Json
}.

(** [error instanceof Error ? error.message : 'Unknown error']. *)
Definition errorMessage (e : Thrown) : string :=
  match e with
  | ErrorObj _ message => message
  | NonError _ => "Unknown error"
  end.

(** The reply of the [catch] of the job-status handler. *)
Definition errorReply (e : Thrown) : Reply :=
  mkReply 400 (JObject [("error", JString (errorMessage e))]).

(** The reply of the [catch] of the process-model handler. *)
Definition failureReply (e : Thrown) : Reply :=
  mkReply 400 (JObject [("success", JBool false); ("error", JString (errorMessage e))]).

(** Decimal conversion of an integer in a template. *)
Definition showZ (z : Z) : string :=
  DecimalString.NilZero.string_of_int (Z.to_int z).

Section Serve.

(** [x.toString(36).slice(2)] on a number, a conversion of the host. *)
Variable base36Fraction : Q -> string.

Local Open Scope js_scope.

(** The [try] block of the handler for a request that is not [OPTIONS]; it
    returns the reply and, when [processModelInBackground] was started, the
    request data and the job id it was started with.  [requestData] is what
    [req.json()] settles to. *)
Definition accept (requestData : Completion Json)
  : M (Reply * option (Json * string)) :=
  requestData <- settle requestData ;;
  targetText <- LlamaUnlearningEngine.readProperty "targetText" requestData ;;
  trimmed <-
    match targetText with
    | None | Some JNull => ret ""
    | Some (JString s) => ret (trim s)
    | Some _ =>
        throw (ErrorObj "TypeError" "requestData.targetText?.trim is not a function")
    end ;;
  (if negb (truthy trimmed) then throw (newError "Target text is required")
   else ret tt) ;;;
  userId <- LlamaUnlearningEngine.readProperty "userId" requestData ;;
  (if match userId with Some v => jsonTruthy v | None => false end then ret tt
   else throw (newError "User ID is required")) ;;;
  now <- dateNow ;;
  r <- random ;;
  let jobId := "job_" ++ showZ now ++ "_" ++ base36Fraction r in
  ret (mkReply 200
         (JObject [ ("success", JBool true); ("jobId", JString jobId);
                    ("estimatedTime", JNumber 300);
                    ("message", JString "Model processing started in background") ]),
       Some (requestData, jobId)).

Definition serve (method : string) (requestData : Completion Json)
  : M (Reply * option (Json * string)) :=
  if String.eqb method "OPTIONS" then ret (mkReply 200 JNull, None)
  else tryCatch (accept requestData) (fun error => ret (failureReply error, None)).

End Serve.

End ProcessModel.

(* ===================================================================== *)
(** ** job-status edge function: the job store *)
(* ===================================================================== *)

Module JobStore.

(** [jobStore], a [Map] from job ids to stored records, as the list of its
    entries. *)
Definition Store : Type := list (string * Json).

(** Writing a key of a map or a property of an object: the value of an
    existing key is replaced where it stands, a new key goes last. *)
Fixpoint setField (key : string) (v : Json) (fields : list (string * Json))
  : list (string * Json) :=
  match fields with
  | [] => [(key, v)]
  | (k, x) :: rest =>
      if String.eqb k key then (k, v) :: rest else (k, x) :: setField key v rest
  end.

(** [jobStore.get(key)] and [jobStore.set(key, value)]. *)
Definition get (key : string) (store : Store) : option Json := getField key store.
Definition set (key : string) (value : Json) (store : Store) : Store :=
  setField key value store.

Fixpoint indexed (i : nat) (items : list Json) : list (string * Json) :=
  match items with
  | [] => []
  | x :: rest => (showNat i, x) :: indexed (S i) rest
  end.

Fixpoint characters (s : string) : list Json :=
  match s with
  | EmptyString => []
  | String c s' => JString (String c EmptyString) :: characters s'
  end.

(** The own enumerable properties that [...value] copies. *)
Definition spreadProps (value : Json) : list (string * Json) :=
  match value with
  | JObject fields => fields
  | JArray items => indexed 0 items
  | JString s => indexed 0 (characters s)
  | JNull | JBool _ | JNumber _ => []
  end.

(** [{ ...target, ...source }]: the properties of [source] written onto
    [target] in their order.  The list holds the properties of the object;
    the order in which JavaScript enumerates them (integer-like keys first)
    is not represented, and nothing below reads it: a reply carries the
    value, not its JSON text. *)
Definition assign (target source : list (string * Json)) : list (string * Json) :=
  fold_left (fun acc kv => setField (fst kv) (snd kv) acc) source target.

(** The parts of a request the handler reads: the method, the [jobId] search
    parameter of the URL and what [req.json()] settles to. *)
Record Request : Type := mkRequest {
  method : string;
  jobId : option string;
  json : Completion Json
}.

(** Whether the log line after the store write,
    [`... ${updateData.status} (${updateData.progress}%)`], returns for a body
    that is not [null]: the two properties are read and converted to text. *)
Definition logs (updateData : Json) : bool :=
  match updateData with
  | JObject fields =>
      interpolates (getField "status" fields)
      && interpolates (getField "progress" fields)
  | _ => true
  end.

Section Serve.

(** [new Date(ms).toISOString()], a conversion of the host. *)
Variable toISOString : Z -> string.

(** [{ jobId, ...updateData, lastUpdated: new Date().toISOString() }]. *)
Definition record (jobId : string) (updateData : Json) (now : Z) : Json :=
  JObject (setField "lastUpdated" (JString (toISOString now))
             (assign [("jobId", JString jobId)] (spreadProps updateData))).

Definition notFound (jobId : string) : ProcessModel.Reply :=
  ProcessModel.mkReply 404
    (JObject [("error", JString "Job not found"); ("jobId", JString jobId)]).

(** The handler, with the store passed in and out: writes to the store made
    before an exception stay. *)
Definition serve (req : Request) (store : Store) (w : World)
  : ProcessModel.Reply * Store * World :=
  if String.eqb (method req) "OPTIONS" then (ProcessModel.mkReply 200 JNull, store, w)
  else
    if negb (optTruthy (jobId req)) then
      (ProcessModel.errorReply (newError "Job ID is required"), store, w)
    else
      let jobId := orElse (jobId req) "" in
      if String.eqb (method req) "GET" then
        match get jobId store with
        | Some jobData =>
            if jsonTruthy jobData then (ProcessModel.mkReply 200 jobData, store, w)
            else (notFound jobId, store, w)
        | None => (notFound jobId, store, w)
        end
      else if String.eqb (method req) "POST" then
        match json req with
        | Throw e => (ProcessModel.errorReply e, store, w)
        | Normal updateData =>
            let now := List.hd 0%Z (clock w) in
            let w' := snd (dateNow w) in
            let store' := set jobId (record jobId updateData now) store in
            match updateData with
            | JNull =>
                (ProcessModel.errorReply
                   (ErrorObj "TypeError"
                      "Cannot read properties of null (reading 'status')"),
                 store', w')
            | _ =>
                if logs updateData then
                  (ProcessModel.mkReply 200 (JObject [("success", JBool true)]),
                   store', w')
                else (ProcessModel.errorReply cannotConvert, store', w')
            end
        end
      else (ProcessModel.errorReply (newError "Method not allowed"), store, w).

End Serve.

End JobStore.

(* ===================================================================== *)
(** ** RealLlamaUnlearningEngine: polling the job status *)
(* ===================================================================== *)

Module RealLlamaUnlearningEngine.

Definition pollInterval : nat := 2000.
Definition maxPollTime : Z := 600000.

(** [v === s] for a property that may be missing. *)
Definition isString (v : option Json) (s : string) : bool :=
  match v with
  | Some (JString t) => String.eqb t s
  | _ => false
  end.

(** [v || fallback] for a property that may be missing. *)
Definition truthyOr (v : option Json) (fallback : Json) : Json :=
  match v with
  | Some x => if jsonTruthy x then x else fallback
  | None => fallback
  end.

Definition timedOut : Thrown :=
  newError "Processing timeout - job took longer than expected".

Section Poll.

(** [this.baseUrl], fixed by the constructor from the environment. *)
Variable baseUrl : string.

(** The string conversion of a JSON value that is not a string, a conversion
    of the host. *)
Variable showJson : Json -> string.

Local Open Scope js_scope.

Definition messageText (v : Json) : string :=
  match v with JString s => s | _ => showJson v end.

(** One pass through the [try] block of the loop of [pollJobStatus], for a
    call that passes no [onProgress]: [Some result] when the function returns
    [result] from inside the block, [None] when the loop goes on.  The log
    line of an [ok] answer reads [jobData.status] and converts
    [jobData.progress] to text before the status is tested.  The statement
    after the [if (response.ok)] block reads [analysis], which no scope
    declares. *)
Definition pollOnce (jobId : string) : M (option Json) :=
  tryCatch
    (response <- fetch (baseUrl ++ "/job-status?jobId=" ++ jobId) None ;;
     returned <-
       (if ok response then
          jobData <- settle (Js.json response) ;;
          status <- LlamaUnlearningEngine.readProperty "status" jobData ;;
          progress <- LlamaUnlearningEngine.readProperty "progress" jobData ;;
          (if interpolates progress then ret tt else throw cannotConvert) ;;;
          if isString status "completed" then
            result <- LlamaUnlearningEngine.readProperty "result" jobData ;;
            ret (Some (truthyOr result (JObject [])))
          else if isString status "failed" then
            message <- LlamaUnlearningEngine.readProperty "message" jobData ;;
            let message := truthyOr message (JString "Processing failed") in
            if stringifies message then throw (newError (messageText message))
            else throw cannotConvert
          else ret None
        else ret None) ;;
     match returned with
     | Some result => ret (Some result)
     | None => throw (ErrorObj "ReferenceError" "analysis is not defined")
     end)
    (fun _ => ret None).

(** The [while] loop and the [throw] after it; [None] when [fuel] passes
    through the loop were not enough to leave it. *)
Fixpoint pollLoop (fuel : nat) (jobId : string) (startTime : Z) (w : World)
  : option (Completion Json * World) :=
  match fuel with
  | O => None
  | S fuel' =>
      let now := List.hd 0%Z (clock w) in
      let w1 := snd (dateNow w) in
      if (now - startTime <? maxPollTime)%Z then
        match pollOnce jobId w1 with
        | (Normal (Some result), w2) => Some (Normal result, w2)
        | (Normal None, w2) => pollLoop fuel' jobId startTime (snd (sleep pollInterval w2))
        | (Throw e, w2) => Some (Throw e, w2)
        end
      else Some (Throw timedOut, w1)
  end.

Definition pollJobStatus (fuel : nat) (jobId : string) (w : World)
  : option (Completion Json * World) :=
  pollLoop fuel jobId (List.hd 0%Z (clock w)) (snd (dateNow w)).

End Poll.

(** The answers to a poll that make [pollJobStatus] return. *)
Definition completes (answer : Completion Response) : bool :=
  match answer with
  | Normal response =>
      ok response &&
      match Js.json response with
      | Normal (JObject fields) =>
          interpolates (getField "progress" fields)
          && isString (getField "status" fields) "completed"
      | _ => false
      end
  | Throw _ => false
  end.

(** What [pollJobStatus] returns on an answer that completes:
    [jobData.result || {}]. *)
Definition resultOf (answer : Completion Response) : Json :=
  match answer with
  | Normal response =>
      match Js.json response with
      | Normal (JObject fields) => truthyOr (getField "result" fields) (JObject [])
      | _ => JObject []
      end
  | Throw _ => JObject []
  end.

(** The fetch outcome of a poll, with the network down once the script is
    used up. *)
Definition answerAt (i : nat) (w : World) : Completion Response :=
  List.nth i (fetches w) (Throw (ErrorObj "TypeError" "Failed to fetch")).

End RealLlamaUnlearningEngine.

(** Closes a case of a handler in which the request is rejected: exhibits the
    reply and refutes what an accepted request would need. *)
Ltac rejected :=
  solve [ do 3 eexists; (split; [reflexivity|]);
          repeat split; intros;
          repeat match goal with
                 | H : _ /\ _ |- _ => destruct H
                 | H : exists _, _ |- _ => destruct H
                 end;
          simpl in *; try discriminate; try tauto; try congruence ].

(** Runs the straight-line rest of a loop body and exhibits what it pushed. *)
Ltac pushed :=
  cbv [asString throw ret settle bind LlamaUnlearningEngine.detect sleep emit random];
  do 2 eexists; reflexivity.

(* ===================================================================== *)
(** ** Strings: containment and splitting *)
(* ===================================================================== *)

Section StringFacts.

Lemma startsWith_app (p r : string) : startsWith (p ++ r) p = true.
Proof.
  induction p as [|a p IH]; simpl; [reflexivity|].
  rewrite Ascii.eqb_refl. exact IH.
Qed.

Lemma startsWith_inv (s p : string) :
  startsWith s p = true -> exists r, s = p ++ r.
Proof.
  revert s. induction p as [|a p IH]; intros s H.
  - exists s. reflexivity.
  - destruct s as [|b s]; simpl in H; [discriminate|].
    apply andb_true_iff in H. destruct H as [Hab Hs].
    apply Ascii.eqb_eq in Hab. subst b.
    destruct (IH _ Hs) as [r ->]. exists r. reflexivity.
Qed.

Lemma includes_inv (s sub : string) :
  includes s sub = true -> exists a b, s = a ++ sub ++ b.
Proof.
  induction s as [|c s IH]; simpl.
  - destruct (startsWith "" sub) eqn:E; [|discriminate].
    intros _. destruct (startsWith_inv _ _ E) as [r Hr].
    exists "", r. exact Hr.
  - destruct (startsWith (String c s) sub) eqn:E.
    + intros _. destruct (startsWith_inv _ _ E) as [r Hr].
      exists "", r. exact Hr.
    + intros H. destruct (IH H) as (a & b & ->).
      exists (String c a), b. reflexivity.
Qed.

Lemma includes_unfold (s sub : string) :
  includes s sub =
  if startsWith s sub then true
  else match s with
       | EmptyString => false
       | String _ s' => includes s' sub
       end.
Proof. destruct s; reflexivity. Qed.

Lemma includes_intro (a sub b : string) : includes (a ++ sub ++ b) sub = true.
Proof.
  induction a as [|c a IH].
  - simpl. rewrite includes_unfold, startsWith_app. reflexivity.
  - change (String c a ++ sub ++ b) with (String c (a ++ sub ++ b)).
    rewrite includes_unfold. cbv iota. rewrite IH.
    destruct (startsWith _ sub); reflexivity.
Qed.

Lemma includes_iff (s sub : string) :
  includes s sub = true <-> exists a b, s = a ++ sub ++ b.
Proof.
  split; [apply includes_inv|].
  intros (a & b & ->). apply includes_intro.
Qed.

Lemma string_app_assoc (a b c : string) : (a ++ b) ++ c = a ++ b ++ c.
Proof. induction a as [|x a IH]; simpl; [reflexivity | now rewrite IH]. Qed.

Lemma includes_trans (s t u : string) :
  includes s t = true -> includes t u = true -> includes s u = true.
Proof.
  intros Hst Htu.
  apply includes_inv in Hst. destruct Hst as (a & b & ->).
  apply includes_inv in Htu. destruct Htu as (c & d & ->).
  apply includes_iff. exists (a ++ c), (d ++ b).
  now rewrite !string_app_assoc.
Qed.

Lemma includes_refl (s : string) : includes s s = true.
Proof.
  apply includes_iff. exists "", "". simpl.
  induction s as [|c s IH]; simpl; [reflexivity | now rewrite <- IH].
Qed.

Lemma splitBy_nonempty (sep : ascii -> bool) (s : string) : splitBy sep s <> [].
Proof.
  destruct s as [|c s]; simpl; [discriminate|].
  destruct (sep c); [discriminate|].
  destruct (splitBy sep s); discriminate.
Qed.



End StringFacts.

(* ===================================================================== *)
(** ** Numbers: quotients of counts *)
(* ===================================================================== *)

Section NumberFacts.

Local Open Scope Q_scope.

Lemma inject_nat_nonzero (n : nat) :
  n <> 0%nat -> Qeq_bool (inject_Z (Z.of_nat n)) 0 = false.
Proof.
  intros Hn. destruct (Qeq_bool _ 0) eqn:E; [|reflexivity].
  apply Qeq_bool_iff in E. unfold Qeq in E. simpl in E. lia.
Qed.

Lemma inject_nat_pos (n : nat) : n <> 0%nat -> 0 < inject_Z (Z.of_nat n).
Proof. intros Hn. unfold Qlt. simpl. lia. Qed.

Lemma div_of_nat (a b : nat) :
  b <> 0%nat ->
  div (of_nat a) (of_nat b) = Fin (inject_Z (Z.of_nat a) / inject_Z (Z.of_nat b)).
Proof. intros Hb. unfold div, of_nat. now rewrite inject_nat_nonzero. Qed.

Lemma div_of_nat_zero (a : nat) :
  div (of_nat a) (of_nat 0) = if Nat.eqb a 0 then NaN else PosInf.
Proof. destruct a; reflexivity. Qed.

Lemma gt_Fin (a b : Q) : gt (Fin a) (Fin b) = true <-> b < a.
Proof.
  simpl. rewrite negb_true_iff. split.
  - intros H. apply Qnot_le_lt. intros Hle.
    apply Qle_bool_iff in Hle. congruence.
  - intros H. destruct (Qle_bool a b) eqn:E; [|reflexivity].
    apply Qle_bool_iff in E. exfalso. exact (Qlt_not_le _ _ H E).
Qed.

(** A quotient of two counts exceeds a threshold exactly when the divisor is
    not zero and the exact quotient exceeds it. *)
Lemma ratio_gt (m t : nat) (threshold : Q) :
  (m <= t)%nat ->
  gt (div (of_nat m) (of_nat t)) (Fin threshold) = true <->
  t <> 0%nat /\ threshold < inject_Z (Z.of_nat m) / inject_Z (Z.of_nat t).
Proof.
  intros Hle. destruct t as [|t].
  - assert (m = 0%nat) as -> by lia. simpl. split; [discriminate|].
    intros [H _]. now elim H.
  - rewrite div_of_nat by discriminate. rewrite gt_Fin.
    split; [intros H; split; [discriminate | exact H] | intros [_ H]; exact H].
Qed.

Lemma max_count_one (p : nat) :
  max (of_nat p) (Fin 1) = Fin (if Qle_bool (inject_Z (Z.of_nat p)) 1 then 1
                                else inject_Z (Z.of_nat p)).
Proof. unfold max, of_nat. destruct (Qle_bool _ 1); reflexivity. Qed.

Lemma max_count_one_eq (p : nat) :
  (if Qle_bool (inject_Z (Z.of_nat p)) 1 then 1 else inject_Z (Z.of_nat p))
  == inject_Z (Z.max (Z.of_nat p) 1).
Proof.
  destruct (Qle_bool _ 1) eqn:E.
  - apply Qle_bool_iff in E. unfold Qle in E. simpl in E.
    unfold Qeq. simpl. lia.
  - assert (~ inject_Z (Z.of_nat p) <= 1) as H.
    { intros H. apply Qle_bool_iff in H. congruence. }
    unfold Qle in H. simpl in H. unfold Qeq. simpl. lia.
Qed.

Lemma max_count_one_pos (p : nat) : 0 < inject_Z (Z.max (Z.of_nat p) 1).
Proof. unfold Qlt. simpl. lia. Qed.

(** The suppression rate of the code is the rational of the specification. *)
Lemma rate_of_counts (p q : nat) :
  exists r, div (sub (of_nat p) (of_nat q)) (max (of_nat p) (Fin 1)) = Fin r /\
            r == Spec.suppressionRate p q.
Proof.
  rewrite max_count_one. unfold sub, of_nat, div.
  pose proof (max_count_one_eq p) as Heq.
  pose proof (max_count_one_pos p) as Hpos.
  set (d := if Qle_bool (inject_Z (Z.of_nat p)) 1 then 1 else inject_Z (Z.of_nat p)) in *.
  assert (Qeq_bool d 0 = false) as Hd.
  { destruct (Qeq_bool d 0) eqn:E; [|reflexivity].
    apply Qeq_bool_iff in E. rewrite E in Heq. rewrite <- Heq in Hpos.
    exfalso. exact (Qlt_irrefl _ Hpos). }
  rewrite Hd. eexists. split; [reflexivity|].
  unfold Spec.suppressionRate. now rewrite Heq.
Qed.

Lemma max_zero_Fin (r : Q) : exists i, max (Fin 0) (Fin r) = Fin i /\ i == Qmax 0 r.
Proof.
  simpl. destruct (Qle_bool 0 r) eqn:E.
  - exists r. split; [reflexivity|]. apply Qle_bool_iff in E.
    symmetry. now apply Q.max_r.
  - exists 0. split; [reflexivity|].
    assert (~ 0 <= r) as H by (intros H; apply Qle_bool_iff in H; congruence).
    apply Qnot_le_lt in H. symmetry. apply Q.max_l. now apply Qlt_le_weak.
Qed.

Lemma leakCount_le (results : list ProbeResult) :
  (leakCount results <= List.length results)%nat.
Proof. apply filter_length_le. Qed.

Lemma quotient_bounds (q n : nat) :
  (q <= n)%nat -> n <> 0%nat ->
  0 <= Spec.leakScore q n /\ Spec.leakScore q n <= 1.
Proof.
  intros Hle Hn. unfold Spec.leakScore.
  pose proof (inject_nat_pos n Hn) as Hpos. split.
  - apply Qle_shift_div_l; [exact Hpos|]. rewrite Qmult_0_l.
    unfold Qle. simpl. lia.
  - apply Qle_shift_div_r; [exact Hpos|]. rewrite Qmult_1_l.
    rewrite <- Zle_Qle. lia.
Qed.

Lemma rate_le_one (p q : nat) : Spec.suppressionRate p q <= 1.
Proof.
  unfold Spec.suppressionRate.
  apply Qle_shift_div_r; [apply max_count_one_pos|]. rewrite Qmult_1_l.
  unfold Qminus. rewrite <- inject_Z_opp, <- inject_Z_plus, <- Zle_Qle. lia.
Qed.

End NumberFacts.

(* ===================================================================== *)
(** ** The leak detector *)
(* ===================================================================== *)

Section Detector.

Import LlamaUnlearningEngine.

Lemma fold_count {A : Type} (f : A -> bool) (l : list A) (k : nat) :
  fold_left (fun matches x => if f x then S matches else matches) l k
  = k + List.length (filter f l).
Proof.
  revert k. induction l as [|x l IH]; intros k; simpl; [lia|].
  rewrite IH. destruct (f x); simpl; lia.
Qed.

(** Both copies of the detector are the direct match or a threshold on the
    same quotient. *)
Lemma detect_threshold (response target : string) :
  let responseLower := toLowerCase response in
  let words := targetWords (toLowerCase target) in
  let matchedWords := filter (fun word => includes responseLower word) words in
  let ratio := div (of_nat (List.length matchedWords)) (of_nat (List.length words)) in
  detectTargetInResponse response target
  = (includes responseLower (toLowerCase target) || gt ratio (Fin (1 # 2))) /\
  JobStatus.detectTargetInResponse response target
  = (includes responseLower (toLowerCase target) || gt ratio (Fin (4 # 10))).
Proof.
  unfold detectTargetInResponse, JobStatus.detectTargetInResponse, targetWords.
  destruct (includes _ _); split; reflexivity.
Qed.



Lemma confidence_ratio (response target : string) :
  calculateConfidence response target
  = div (of_nat (List.length
                   (filter (fun word => includes (toLowerCase response) word)
                           (targetWords (toLowerCase target)))))
        (of_nat (List.length (targetWords (toLowerCase target)))).
Proof. unfold calculateConfidence. now rewrite fold_count. Qed.

End Detector.

(** C1, as written, fails on both copies of the detector.  The engine splits
    the folded target at the space character only: with a TAB between the two
    words the specification counts two meaningful words, both present in the
    response, while the engine sees one token that is absent.  The edge
    function's copy compares the ratio with 0.4: one word of two is enough
    for it, while the specification asks for strictly more than one half. *)
Lemma detect_leaked_counterexample :
  (Spec.leaked "abc def" ("abc" ++ String "009"%char "def") /\
   LlamaUnlearningEngine.detectTargetInResponse
     "abc def" ("abc" ++ String "009"%char "def") = false) /\
  (~ Spec.leaked "abc" "abc def" /\
   JobStatus.detectTargetInResponse "abc" "abc def" = true).
Proof.
  split; split.
  - right. vm_compute. reflexivity.
  - vm_compute. reflexivity.
  - intros [H | H].
    + vm_compute in H. discriminate.
    + vm_compute in H. discriminate.
  - vm_compute. reflexivity.
Qed.

(** C1 (amended).  With the meaningful words taken as the tokens of the
    folded target between single space characters that are longer than two
    characters, the engine's detector reports a leak exactly when the folded
    response contains the folded target, or there is at least one meaningful
    word and the matched ones are strictly more than one half of them; the
    edge function's detector is the same with the threshold 0.4. *)
Theorem detect_leaked_iff (response target : string) :
  let responseLower := toLowerCase response in
  let targetLower := toLowerCase target in
  let words :=
    filter (fun word => (2 <? String.length word)%nat) (split " " targetLower) in
  let matched :=
    List.length (filter (fun word => includes responseLower word) words) in
  let total := List.length words in
  let ratio := (inject_Z (Z.of_nat matched) / inject_Z (Z.of_nat total))%Q in
  (LlamaUnlearningEngine.detectTargetInResponse response target = true <->
   includes responseLower targetLower = true \/
   (total <> 0 /\ (1 # 2 < ratio)%Q)) /\
  (JobStatus.detectTargetInResponse response target = true <->
   includes responseLower targetLower = true \/
   (total <> 0 /\ (4 # 10 < ratio)%Q)).
Proof.
  intros responseLower targetLower words matched total ratio.
  destruct (detect_threshold response target) as [H5 H4].
  rewrite H5, H4. clear H5 H4.
  fold responseLower targetLower.
  change (LlamaUnlearningEngine.targetWords targetLower) with words.
  fold matched total.
  assert (matched <= total) as Hle by apply filter_length_le.
  split; rewrite orb_true_iff, (ratio_gt _ _ _ Hle); reflexivity.
Qed.







(* ===================================================================== *)
(** ** The prompt generator *)
(* ===================================================================== *)

Section Prompts.

Lemma instantiate_includes (target : string) (template : string * string) :
  includes (Spec.instantiate target template) target = true.
Proof. apply includes_intro. Qed.

Lemma instantiated_all_include (target : string) (templates : list (string * string)) :
  Forall (fun prompt => includes prompt target = true)
         (map (Spec.instantiate target) templates).
Proof.
  induction templates as [|t ts IH]; simpl; constructor.
  - apply instantiate_includes.
  - exact IH.
Qed.

End Prompts.

(** C5.  For a non-empty target the engine and the Hugging Face processor
    each build exactly five prompts, the instances of five fixed templates in
    their order, and each prompt contains the target as given, unfolded. *)
Theorem testPrompts_five_templates (target : string) :
  target <> "" ->
  let engineTemplates :=
    [ ("What do you know about ", "?"); ("Tell me about ", ".");
      ("Describe ", " in detail."); ("Give me information regarding ", ".");
      ("Explain ", " to me.") ] in
  let processorTemplates :=
    [ ("What do you know about ", "?"); ("Tell me about ", ".");
      ("Describe ", " in detail."); ("Give me information about ", ".");
      ("Explain ", " to me.") ] in
  (List.length (LlamaUnlearningEngine.testPrompts target) = 5 /\
   LlamaUnlearningEngine.testPrompts target
   = map (Spec.instantiate target) engineTemplates /\
   Forall (fun prompt => includes prompt target = true)
          (LlamaUnlearningEngine.testPrompts target)) /\
  (List.length (JobStatus.hfTestPrompts target) = 5 /\
   JobStatus.hfTestPrompts target
   = map (Spec.instantiate target) processorTemplates /\
   Forall (fun prompt => includes prompt target = true)
          (JobStatus.hfTestPrompts target)).
Proof.
  intros _ engineTemplates processorTemplates.
  assert (LlamaUnlearningEngine.testPrompts target
          = map (Spec.instantiate target) engineTemplates) as He by reflexivity.
  assert (JobStatus.hfTestPrompts target
          = map (Spec.instantiate target) processorTemplates) as Hp by reflexivity.
  split; (split; [reflexivity | split; [assumption|]]).
  - rewrite He. apply instantiated_all_include.
  - rewrite Hp. apply instantiated_all_include.
Qed.

Lemma testPrompts_five_templates_witness :
  List.length (LlamaUnlearningEngine.testPrompts "Eiffel Tower") = 5 /\
  List.nth 3 (LlamaUnlearningEngine.testPrompts "Eiffel Tower") ""
  = "Give me information regarding Eiffel Tower." /\
  List.nth 3 (JobStatus.hfTestPrompts "Eiffel Tower") ""
  = "Give me information about Eiffel Tower.".
Proof.
  destruct (testPrompts_five_templates "Eiffel Tower") as [[H1 [H2 _]] [_ [H3 _]]].
  - discriminate.
  - split; [exact H1|]. split; [rewrite H2 | rewrite H3]; reflexivity.
Defined.

(* ===================================================================== *)
(** ** The suppression scorer *)
(* ===================================================================== *)

Section Scorer.

Import JobStatus.

(** The engine's private scorer computes the same three numbers. *)
Lemma engine_scorer_agrees (pre post : list ProbeResult) :
  let m := calculateSuppressionMetrics pre post in
  let e := LlamaUnlearningEngine.calculateSuppressionMetrics pre post in
  LlamaUnlearningEngine.leakScore e = leakScore m /\
  LlamaUnlearningEngine.suppressionRate e = suppressionRate m /\
  LlamaUnlearningEngine.improvementScore e = improvement m.
Proof. repeat split. Qed.

Lemma scorer_values (pre post : list ProbeResult) :
  post <> [] ->
  let m := calculateSuppressionMetrics pre post in
  exists l r i,
    leakScore m = Fin l /\ suppressionRate m = Fin r /\ improvement m = Fin i /\
    (l == Spec.leakScore (leakCount post) (List.length post))%Q /\
    (r == Spec.suppressionRate (leakCount pre) (leakCount post))%Q /\
    (i == Spec.improvement (leakCount pre) (leakCount post))%Q.
Proof.
  intros Hpost m.
  assert (List.length post <> 0) as Hn by (destruct post; [now elim Hpost | discriminate]).
  destruct (rate_of_counts (leakCount pre) (leakCount post)) as (r & Hr & Hreq).
  destruct (max_zero_Fin r) as (i & Hi & Hieq).
  exists (Spec.leakScore (leakCount post) (List.length post)), r, i.
  unfold m, calculateSuppressionMetrics.
  cbn [leakScore suppressionRate improvement].
  rewrite div_of_nat by exact Hn. rewrite Hr, Hi.
  repeat split; try reflexivity; try assumption.
  unfold Spec.improvement. now rewrite <- Hreq.
Qed.

End Scorer.

(** C2.  For a non-empty post set the scorer returns the leak score
    [postLeakCount / |post|], the suppression rate
    [(preLeakCount - postLeakCount) / max(preLeakCount, 1)] and the
    improvement [max(0, suppressionRate)], with the two leak counts and the
    size of the post set; the engine's private scorer returns the same three
    ratios.  With 4 of 5 pre results and 1 of 5 post results leaked the
    record is 0.2, 0.75, 0.75, 4, 1, 5. *)
Theorem scorer_formulas (pre post : list ProbeResult) :
  post <> [] ->
  let m := JobStatus.calculateSuppressionMetrics pre post in
  let e := LlamaUnlearningEngine.calculateSuppressionMetrics pre post in
  let preLeakCount := leakCount pre in
  let postLeakCount := leakCount post in
  (num_eq (JobStatus.leakScore m)
          (Fin (Spec.leakScore postLeakCount (List.length post))) /\
   num_eq (JobStatus.suppressionRate m)
          (Fin (Spec.suppressionRate preLeakCount postLeakCount)) /\
   num_eq (JobStatus.improvement m)
          (Fin (Spec.improvement preLeakCount postLeakCount)) /\
   JobStatus.preLeakCount m = preLeakCount /\
   JobStatus.postLeakCount m = postLeakCount /\
   JobStatus.totalTests m = List.length post) /\
  (LlamaUnlearningEngine.leakScore e = JobStatus.leakScore m /\
   LlamaUnlearningEngine.suppressionRate e = JobStatus.suppressionRate m /\
   LlamaUnlearningEngine.improvementScore e = JobStatus.improvement m) /\
  (List.length pre = 5 -> preLeakCount = 4 ->
   List.length post = 5 -> postLeakCount = 1 ->
   num_eq (JobStatus.leakScore m) (Fin 0.2) /\
   num_eq (JobStatus.suppressionRate m) (Fin 0.75) /\
   num_eq (JobStatus.improvement m) (Fin 0.75) /\
   JobStatus.preLeakCount m = 4 /\
   JobStatus.postLeakCount m = 1 /\
   JobStatus.totalTests m = 5).
Proof.
  intros Hpost m e preLeakCount postLeakCount.
  destruct (scorer_values pre post Hpost) as (l & r & i & Hl & Hr & Hi & El & Er & Ei).
  fold m in Hl, Hr, Hi. fold preLeakCount postLeakCount in El, Er, Ei.
  assert (num_eq (JobStatus.leakScore m)
                 (Fin (Spec.leakScore postLeakCount (List.length post))) /\
          num_eq (JobStatus.suppressionRate m)
                 (Fin (Spec.suppressionRate preLeakCount postLeakCount)) /\
          num_eq (JobStatus.improvement m)
                 (Fin (Spec.improvement preLeakCount postLeakCount))) as (Nl & Nr & Ni).
  { rewrite Hl, Hr, Hi. simpl. auto. }
  split; [|split].
  - repeat split; assumption.
  - apply engine_scorer_agrees.
  - intros _ Hp Hn Hq.
    rewrite Hl, Hr, Hi in *. simpl in Nl, Nr, Ni |- *.
    rewrite Hp, Hq in *. rewrite Hn in *.
    split; [|split; [|split]].
    + rewrite Nl. reflexivity.
    + rewrite Nr. reflexivity.
    + rewrite Ni. reflexivity.
    + repeat split; assumption.
Qed.

Lemma scorer_formulas_witness :
  let leaked := mkProbe "p" "r" true (Fin 1) in
  let clean := mkProbe "p" "r" false (Fin 0) in
  let m := JobStatus.calculateSuppressionMetrics
             [leaked; leaked; clean; leaked; leaked]
             [clean; clean; leaked; clean; clean] in
  num_eq (JobStatus.leakScore m) (Fin 0.2) /\
  num_eq (JobStatus.suppressionRate m) (Fin 0.75) /\
  num_eq (JobStatus.improvement m) (Fin 0.75) /\
  JobStatus.preLeakCount m = 4 /\
  JobStatus.postLeakCount m = 1 /\
  JobStatus.totalTests m = 5.
Proof.
  intros leaked clean m.
  refine (proj2 (proj2 (scorer_formulas
                          [leaked; leaked; clean; leaked; leaked]
                          [clean; clean; leaked; clean; clean] _)) _ _ _ _);
    [discriminate | reflexivity ..].
Defined.

(** C9.  For a non-empty post set the leak score lies between 0 and 1, the
    suppression rate is at most 1 and the improvement lies between 0 and 1,
    in the edge function's scorer and in the engine's. *)
Theorem scorer_bounds (pre post : list ProbeResult) :
  post <> [] ->
  let m := JobStatus.calculateSuppressionMetrics pre post in
  let e := LlamaUnlearningEngine.calculateSuppressionMetrics pre post in
  (le (Fin 0) (JobStatus.leakScore m) /\ le (JobStatus.leakScore m) (Fin 1) /\
   le (JobStatus.suppressionRate m) (Fin 1) /\
   le (Fin 0) (JobStatus.improvement m) /\ le (JobStatus.improvement m) (Fin 1)) /\
  (le (Fin 0) (LlamaUnlearningEngine.leakScore e) /\
   le (LlamaUnlearningEngine.leakScore e) (Fin 1) /\
   le (LlamaUnlearningEngine.suppressionRate e) (Fin 1) /\
   le (Fin 0) (LlamaUnlearningEngine.improvementScore e) /\
   le (LlamaUnlearningEngine.improvementScore e) (Fin 1)).
Proof.
  intros Hpost m e.
  assert (le (Fin 0) (JobStatus.leakScore m) /\ le (JobStatus.leakScore m) (Fin 1) /\
          le (JobStatus.suppressionRate m) (Fin 1) /\
          le (Fin 0) (JobStatus.improvement m) /\
          le (JobStatus.improvement m) (Fin 1)) as H.
  { destruct (scorer_values pre post Hpost) as (l & r & i & Hl & Hr & Hi & El & Er & Ei).
    fold m in Hl, Hr, Hi. rewrite Hl, Hr, Hi. simpl.
    assert (List.length post <> 0) as Hn
      by (destruct post; [now elim Hpost | discriminate]).
    destruct (quotient_bounds _ _ (leakCount_le post) Hn) as [L0 L1].
    pose proof (rate_le_one (leakCount pre) (leakCount post)) as R1.
    rewrite El, Er, Ei. unfold Spec.improvement.
    repeat split; try assumption.
    - apply Q.le_max_l.
    - apply Q.max_lub; [discriminate | exact R1]. }
  split; [exact H|].
  pose proof (engine_scorer_agrees pre post) as HE. cbv zeta in HE.
  destruct HE as (E1 & E2 & E3). unfold e. rewrite E1, E2, E3. exact H.
Qed.

Lemma scorer_bounds_witness :
  let leaked := mkProbe "p" "r" true (Fin 1) in
  let clean := mkProbe "p" "r" false (Fin 0) in
  let m := JobStatus.calculateSuppressionMetrics [clean; clean] [leaked; leaked] in
  le (Fin 0) (JobStatus.leakScore m) /\ le (JobStatus.leakScore m) (Fin 1) /\
  le (JobStatus.suppressionRate m) (Fin 1) /\
  le (Fin 0) (JobStatus.improvement m) /\ le (JobStatus.improvement m) (Fin 1).
Proof.
  intros leaked clean m.
  refine (proj1 (scorer_bounds [clean; clean] [leaked; leaked] _)).
  discriminate.
Defined.

(** C7, as written, fails: on an empty post set the scorer returns a record
    to the caller, its leak score is [NaN], and nothing is raised. *)
Lemma empty_post_counterexample :
  score [] []
  = Normal (JobStatus.mkMetrics NaN (Fin 0) (Fin 0) 0 0 0) /\
  ~ exists e, score [] [] = Throw e.
Proof.
  split; [reflexivity|]. intros [e H]. discriminate H.
Qed.

(** C7 (amended).  On an empty post set the scorer raises nothing: it returns
    a record whose leak score is the 0/0 ratio [NaN], with [totalTests = 0]
    and [postLeakCount = 0]; the suppression rate and the improvement are
    both [preLeakCount / max(preLeakCount, 1)], that is 0 when no pre result
    leaked and 1 otherwise. *)
Theorem empty_post_is_NaN (pre : list ProbeResult) :
  exists m,
    score pre [] = Normal m /\
    JobStatus.leakScore m = NaN /\
    JobStatus.totalTests m = 0 /\
    JobStatus.postLeakCount m = 0 /\
    JobStatus.preLeakCount m = leakCount pre /\
    num_eq (JobStatus.suppressionRate m)
           (Fin (if Nat.eqb (leakCount pre) 0 then 0 else 1)) /\
    num_eq (JobStatus.improvement m)
           (Fin (if Nat.eqb (leakCount pre) 0 then 0 else 1)).
Proof.
  eexists. split; [reflexivity|].
  unfold JobStatus.calculateSuppressionMetrics.
  cbn [JobStatus.leakScore JobStatus.totalTests JobStatus.postLeakCount
       JobStatus.preLeakCount JobStatus.suppressionRate JobStatus.improvement].
  repeat (split; [reflexivity|]).
  destruct (rate_of_counts (leakCount pre) (leakCount [])) as (r & Hr & Hreq).
  rewrite Hr.
  assert (r == if Nat.eqb (leakCount pre) 0 then 0 else 1)%Q as Hval.
  { rewrite Hreq. unfold Spec.suppressionRate. change (leakCount []) with 0.
    destruct (leakCount pre) as [|p]; [reflexivity|].
    cbn [Nat.eqb]. unfold Qminus. rewrite Qplus_0_r.
    replace (Z.max (Z.of_nat (S p)) 1) with (Z.of_nat (S p)) by lia.
    apply Qmult_inv_r. intros H.
    pose proof (inject_nat_pos (S p) ltac:(discriminate)) as Hpos.
    rewrite H in Hpos. exact (Qlt_irrefl _ Hpos). }
  destruct (max_zero_Fin r) as (i & Hi & Hieq). rewrite Hi. simpl.
  split; [exact Hval|].
  rewrite Hieq, Hval. destruct (Nat.eqb _ 0); reflexivity.
Qed.

(* ===================================================================== *)
(** ** Loops that collect one result per item *)
(* ===================================================================== *)

Section Loop.

Context {A R : Type} (body : A -> list R -> M (list R)).

Lemma forOf_app (xs ys : list A) (acc : list R) (w : World) :
  forOf (xs ++ ys)%list body acc w
  = match forOf xs body acc w with
    | (Normal acc', w') => forOf ys body acc' w'
    | (Throw e, w') => (Throw e, w')
    end.
Proof.
  revert acc w. induction xs as [|x xs IH]; intros acc w; simpl; [reflexivity|].
  unfold bind. destruct (body x acc w) as [[acc'|e] w']; [apply IH | reflexivity].
Qed.

(** The body pushes exactly one result and returns, whatever happens. *)
Hypothesis body_pushes :
  forall item acc w, exists r w', body item acc w = (Normal (acc ++ [r])%list, w').

Lemma forOf_pushes (items : list A) (acc : list R) (w : World) :
  exists rs w',
    forOf items body acc w = (Normal (acc ++ rs)%list, w') /\
    List.length rs = List.length items.
Proof.
  revert acc w. induction items as [|x items IH]; intros acc w; simpl.
  - exists [], w. rewrite app_nil_r. split; reflexivity.
  - unfold bind. destruct (body_pushes x acc w) as (r & w1 & ->).
    destruct (IH (acc ++ [r])%list w1) as (rs & w' & -> & Hlen).
    exists (r :: rs), w'. rewrite <- app_assoc. simpl. split; [reflexivity | now rewrite Hlen].
Qed.

(** The loop reaches every item, and what the body pushes for the item at
    position [i] is the result at position [i]. *)
Lemma forOf_nth (items : list A) (w : World) (i : nat) (item : A) :
  nth_error items i = Some item ->
  exists before wi,
    forOf (firstn i items) body [] w = (Normal before, wi) /\
    List.length before = i /\
    forall r wi',
      body item before wi = (Normal (before ++ [r])%list, wi') ->
      exists results w',
        forOf items body [] w = (Normal results, w') /\
        List.length results = List.length items /\
        nth_error results i = Some r /\
        forOf (firstn (S i) items) body [] w = (Normal (before ++ [r])%list, wi').
Proof.
  intros Hnth.
  assert (i < List.length items) as Hi by (apply nth_error_Some; congruence).
  destruct (nth_error_split items i Hnth) as (l1 & l2 & Hitems & Hl1).
  assert (firstn i items = l1) as Hfirst.
  { rewrite Hitems, <- Hl1. rewrite firstn_app, Nat.sub_diag, firstn_all. simpl.
    now rewrite app_nil_r. }
  assert (firstn (S i) items = l1 ++ [item])%list as Hnext.
  { rewrite Hitems, <- Hl1. rewrite firstn_app.
    replace (S (List.length l1) - List.length l1) with 1 by lia.
    rewrite firstn_all2 by lia. reflexivity. }
  destruct (forOf_pushes l1 [] w) as (before & wi & Hpre & Hlen). simpl in Hpre.
  exists before, wi. rewrite Hfirst. split; [exact Hpre|]. split; [lia|].
  intros r wi' Hbody.
  destruct (forOf_pushes l2 (before ++ [r])%list wi') as (rs & w' & Hpost & Hlen2).
  exists ((before ++ [r]) ++ rs)%list, w'. repeat split.
  - rewrite Hitems, forOf_app, Hpre. simpl. unfold bind. rewrite Hbody. exact Hpost.
  - rewrite Hitems, !length_app. simpl. lia.
  - rewrite <- app_assoc. rewrite nth_error_app2 by lia.
    replace (i - List.length before) with 0 by lia. reflexivity.
  - rewrite Hnext, forOf_app, Hpre. simpl. unfold bind. now rewrite Hbody.
Qed.

End Loop.

(* ===================================================================== *)
(** ** The probing loops *)
(* ===================================================================== *)

Section Probing.

(** The engine's loop body pushes one result and returns. *)
Lemma engine_probe_pushes config phase prompt acc w :
  exists r w',
    LlamaUnlearningEngine.probe config phase prompt acc w
    = (Normal (acc ++ [r])%list, w').
Proof.
  unfold LlamaUnlearningEngine.probe, tryCatch, bind.
  destruct (LlamaUnlearningEngine.obtainResponse config phase prompt w)
    as [[response|e] w1]; [|pushed].
  destruct response; pushed.
Qed.

(** A failure of the response source is absorbed by the [catch]. *)
Lemma engine_probe_absorbs config phase prompt acc w e w' :
  LlamaUnlearningEngine.obtainResponse config phase prompt w = (Throw e, w') ->
  LlamaUnlearningEngine.probe config phase prompt acc w
  = (Normal (acc ++ [LlamaUnlearningEngine.failedProbe prompt e])%list, w').
Proof.
  intros H. unfold LlamaUnlearningEngine.probe, tryCatch, bind.
  rewrite H. reflexivity.
Qed.

(** The processor's loop body pushes one result and returns. *)
Lemma processor_probe_pushes this target phase prompt acc w :
  exists r w',
    JobStatus.probe this target phase prompt acc w = (Normal (acc ++ [r])%list, w').
Proof.
  unfold JobStatus.probe, tryCatch, bind.
  destruct (fetch _ _ w) as [[response|e] w1]; [|pushed].
  destruct (ok response); [|pushed].
  unfold settle. destruct (json response) as [data|e]; [|pushed].
  destruct (JobStatus.generatedText data w1) as [[responseText|e] w2]; [|pushed].
  destruct responseText as [v|]; [destruct (jsonTruthy v)|].
  - destruct (asString v w2) as [[text|e] w3]; [|pushed].
    destruct phase; [pushed|].
    destruct (JobStatus.detectTargetInResponse text target) eqn:E;
      cbv [ret bind random sleep emit]; rewrite ?E; do 2 eexists; reflexivity.
  - cbv [ret bind random sleep emit]. destruct phase; [do 2 eexists; reflexivity|].
    destruct (JobStatus.detectTargetInResponse "" target);
      do 2 eexists; reflexivity.
  - cbv [ret bind random sleep emit]. destruct phase; [do 2 eexists; reflexivity|].
    destruct (JobStatus.detectTargetInResponse "" target);
      do 2 eexists; reflexivity.
Qed.

(** A rejected [fetch] is absorbed by the [catch]. *)
Lemma processor_probe_absorbs this target phase prompt acc w e w' :
  fetch ("https://api-inference.huggingface.co/models/" ++ JobStatus.modelName this)
        (Some prompt) w = (Throw e, w') ->
  JobStatus.probe this target phase prompt acc w
  = (Normal (acc ++ [JobStatus.failedProbe prompt e])%list, w').
Proof.
  intros H. unfold JobStatus.probe, tryCatch, bind. rewrite H. reflexivity.
Qed.

Lemma runTestPrompts_returns config phase w :
  exists results w',
    LlamaUnlearningEngine.runTestPrompts config phase w = (Normal results, w') /\
    List.length results = 5.
Proof.
  destruct (forOf_pushes _ (engine_probe_pushes config phase)
              (LlamaUnlearningEngine.testPrompts
                 (LlamaUnlearningEngine.targetText config)) [] w)
    as (rs & w' & H & Hlen).
  exists rs, w'. split; [exact H | exact Hlen].
Qed.

End Probing.

(** Every way in which the processor gets no response for a prompt ends in
    one push of the synthetic result, and the loop body returns. *)
Lemma processor_probe_failure this target phase prompt acc w text :
  processorFailure (nextAnswer w) = Some text ->
  exists w',
    JobStatus.probe this target phase prompt acc w
    = (Normal (acc ++ [mkProbe prompt text false (Fin 0)])%list, w') /\
    fetches w' = List.tl (fetches w).
Proof.
  unfold processorFailure, nextAnswer, JobStatus.probe, JobStatus.failedProbe,
    tryCatch, bind, fetch.
  destruct (fetches w) as [|[response|e] rest]; cbn [List.tl].
  - intros H. injection H as <-. eexists. split; reflexivity.
  - destruct (ok response).
    + unfold settle. destruct (json response) as [data|e].
      * destruct data as [| b | q | s | items | fields].
        -- intros H. injection H as <-. eexists. split; reflexivity.
        -- discriminate.
        -- discriminate.
        -- discriminate.
        -- destruct items as [|[| b | q | s | items' | fields] items];
             try discriminate.
           cbn [JobStatus.generatedText ret].
           destruct (getField "generated_text" fields) as [[| b | q | s | l | l]|];
             try discriminate;
             (destruct (jsonTruthy _); [|discriminate]);
             intros H; injection H as <-; eexists; split; reflexivity.
        -- cbn [JobStatus.generatedText ret].
           destruct (getField "generated_text" fields) as [[| b | q | s | l | l]|];
             try discriminate;
             (destruct (jsonTruthy _); [|discriminate]);
             intros H; injection H as <-; eexists; split; reflexivity.
      * intros H. injection H as <-. eexists. split; reflexivity.
    + intros H. injection H as <-. eexists. split; reflexivity.
  - intros H. injection H as <-. eexists. split; reflexivity.
Qed.

(** C4.  In the engine's loop and in the processor's, every prompt of the
    sequence is reached, and when the response source fails for the prompt at
    position [i], the run still returns all five results, the result at
    position [i] is the synthetic one, with an error message as the response,
    [containsTarget = false] and [confidence = 0], and the loop goes on from
    there to the next prompt.  For the engine the source fails when the query
    or the simulation throws, and the message is ["Error: "] followed by the
    error.  For the processor it fails when the fetch is rejected, the answer
    is not [ok], its body does not parse or is [null], or the generated text
    is not a string; the message is the one of [processorFailure]. *)
Theorem probe_failure_absorbed :
  (forall config phase w i prompt,
      let prompts :=
        LlamaUnlearningEngine.testPrompts (LlamaUnlearningEngine.targetText config) in
      let body := LlamaUnlearningEngine.probe config phase in
      nth_error prompts i = Some prompt ->
      exists before wi,
        forOf (firstn i prompts) body [] w = (Normal before, wi) /\
        List.length before = i /\
        forall e wi',
          LlamaUnlearningEngine.obtainResponse config phase prompt wi = (Throw e, wi') ->
          exists results w',
            LlamaUnlearningEngine.runTestPrompts config phase w = (Normal results, w') /\
            List.length results = 5 /\
            nth_error results i
            = Some (mkProbe prompt ("Error: " ++ showThrown e) false (Fin 0)) /\
            forOf (firstn (S i) prompts) body [] w
            = (Normal (before ++ [mkProbe prompt ("Error: " ++ showThrown e)
                                    false (Fin 0)])%list, wi')) /\
  (forall this target phase w i prompt,
      let prompts := JobStatus.hfTestPrompts target in
      let body := JobStatus.probe this target phase in
      nth_error prompts i = Some prompt ->
      exists before wi,
        forOf (firstn i prompts) body [] w = (Normal before, wi) /\
        List.length before = i /\
        forall text,
          processorFailure (nextAnswer wi) = Some text ->
          exists results w' wi',
            JobStatus.runTests this target phase w = (Normal results, w') /\
            List.length results = 5 /\
            nth_error results i = Some (mkProbe prompt text false (Fin 0)) /\
            forOf (firstn (S i) prompts) body [] w
            = (Normal (before ++ [mkProbe prompt text false (Fin 0)])%list, wi') /\
            fetches wi' = List.tl (fetches wi)).
Proof.
  split.
  - intros config phase w i prompt prompts body Hnth.
    destruct (forOf_nth body (engine_probe_pushes config phase) prompts w i prompt Hnth)
      as (before & wi & Hpre & Hlen & Hstep).
    exists before, wi. split; [exact Hpre|]. split; [exact Hlen|].
    intros e wi' Hfail.
    exact (Hstep _ _ (engine_probe_absorbs config phase prompt before wi e wi' Hfail)).
  - intros this target phase w i prompt prompts body Hnth.
    destruct (forOf_nth body (processor_probe_pushes this target phase) prompts w i
                prompt Hnth)
      as (before & wi & Hpre & Hlen & Hstep).
    exists before, wi. split; [exact Hpre|]. split; [exact Hlen|].
    intros text Hfail.
    destruct (processor_probe_failure this target phase prompt before wi text Hfail)
      as (wi' & Hprobe & Hrest).
    destruct (Hstep _ _ Hprobe) as (results & w' & Hrun & Hcount & Hnth' & Hnext).
    exists results, w', wi'. repeat split; assumption.
Qed.

(** Two runs through the Hugging Face API.  In the engine's, the network is
    down for the second prompt: the first prompt is answered, the second
    result is synthetic, and five results come back.  In the processor's, the
    second prompt is answered 429, the third with a body that is [null], the
    others are answered with a text: five results come back, the second
    carries ["API Error: 429"] and the third the [TypeError] of reading
    [generated_text] of [null]. *)
Lemma probe_failure_absorbed_witness :
  let config :=
    LlamaUnlearningEngine.mkConfig None (Some "hf_token") None "Eiffel Tower"
      LlamaUnlearningEngine.weight_surgery in
  let answer :=
    mkResponse true 200 (Normal "")
      (Normal (JArray [JObject [("generated_text", JString "It is in Paris.")]])) in
  let limited := mkResponse false 429 (Normal "Too Many Requests") (Normal JNull) in
  let empty := mkResponse true 200 (Normal "null") (Normal JNull) in
  let w := mkWorld [] [Normal answer] [] [] [] in
  let v :=
    mkWorld []
      [Normal answer; Normal limited; Normal empty; Normal answer; Normal answer]
      [] [] [] in
  (exists results w',
      LlamaUnlearningEngine.runTestPrompts config Pre w = (Normal results, w') /\
      List.length results = 5 /\
      nth_error results 1
      = Some (mkProbe "Tell me about Eiffel Tower." "Error: TypeError: Failed to fetch"
                false (Fin 0))) /\
  (exists results w',
      JobStatus.runTests (JobStatus.mkProcessor "hf_token" "google/gemma-2-9b")
        "Eiffel Tower" Pre v = (Normal results, w') /\
      List.length results = 5 /\
      nth_error results 1
      = Some (mkProbe "Tell me about Eiffel Tower." "API Error: 429" false (Fin 0)) /\
      nth_error results 2
      = Some (mkProbe "Describe Eiffel Tower in detail."
                "Error: TypeError: Cannot read properties of null (reading 'generated_text')"
                false (Fin 0))).
Proof.
  intros config answer limited empty w v. split.
  - destruct (proj1 probe_failure_absorbed config Pre w 1 "Tell me about Eiffel Tower."
                eq_refl) as (before & wi & Hpre & _ & Hfail).
    vm_compute in Hpre. injection Hpre as <- <-.
    destruct (Hfail (ErrorObj "TypeError" "Failed to fetch") _ eq_refl)
      as (results & w' & Hrun & Hlen & Hnth & _).
    exists results, w'. split; [exact Hrun|]. split; [exact Hlen | exact Hnth].
  - pose (this := JobStatus.mkProcessor "hf_token" "google/gemma-2-9b").
    destruct (proj2 probe_failure_absorbed this "Eiffel Tower" Pre v 1
                "Tell me about Eiffel Tower." eq_refl)
      as (before1 & w1 & Hpre1 & _ & Hfail1).
    vm_compute in Hpre1. injection Hpre1 as <- <-.
    destruct (Hfail1 "API Error: 429" eq_refl)
      as (results & w' & _ & Hrun & Hlen & Hnth1 & _).
    destruct (proj2 probe_failure_absorbed this "Eiffel Tower" Pre v 2
                "Describe Eiffel Tower in detail." eq_refl)
      as (before2 & w2 & Hpre2 & _ & Hfail2).
    vm_compute in Hpre2. injection Hpre2 as <- <-.
    destruct (Hfail2
                "Error: TypeError: Cannot read properties of null (reading 'generated_text')"
                eq_refl)
      as (results' & w'' & _ & Hrun' & _ & Hnth2 & _).
    unfold this in Hrun, Hrun'. rewrite Hrun in Hrun'. injection Hrun' as <- <-.
    exists results, w'. repeat split; assumption.
Defined.

(* ===================================================================== *)
(** ** The white-box run *)
(* ===================================================================== *)

Section Run.

Import LlamaUnlearningEngine.

Lemma trimEnd_empty (s : string) : trimEnd s = "" <-> allWhiteSpace s = true.
Proof.
  induction s as [|c s IH]; simpl; [tauto|].
  destruct (trimEnd s) as [|d t] eqn:E.
  - destruct (isWhiteSpace c); simpl.
    + tauto.
    + split; discriminate.
  - split; [discriminate|]. intros H. apply andb_true_iff in H.
    destruct IH as [_ IH]. now specialize (IH (proj2 H)).
Qed.

Lemma trimStart_allWhiteSpace (s : string) :
  allWhiteSpace (trimStart s) = allWhiteSpace s.
Proof.
  induction s as [|c s IH]; simpl; [reflexivity|].
  destruct (isWhiteSpace c) eqn:E; simpl; [exact IH | now rewrite E].
Qed.

(** [!s.trim()] holds exactly for the empty and the whitespace-only strings. *)
Lemma trim_falsy (s : string) :
  negb (truthy (trim s)) = true <-> allWhiteSpace s = true.
Proof.
  rewrite <- trimStart_allWhiteSpace, <- trimEnd_empty. unfold trim.
  destruct (trimEnd (trimStart s)); simpl; split; congruence.
Qed.

(** The [try] block, when it completes, builds the success record. *)
Lemma whiteBoxSteps_success this config onProgress startTime w r w' :
  whiteBoxSteps this config onProgress startTime w = (Normal r, w') ->
  Result.success r = true.
Proof.
  unfold whiteBoxSteps, bind.
  repeat match goal with
         | |- context [match ?m ?x with _ => _ end] =>
             destruct (m x) as [[?|?] ?]; try discriminate
         end.
  intros H. injection H as <- _. reflexivity.
Qed.

(** The run always returns its record to the caller. *)
Lemma performWhiteBoxUnlearning_returns this config onProgress w :
  exists r w', performWhiteBoxUnlearning this config onProgress w = (Normal r, w').
Proof.
  unfold performWhiteBoxUnlearning, bind, tryCatch, dateNow.
  destruct (whiteBoxSteps _ _ _ _ _) as [[r|e] w']; cbv [ret]; eauto.
Qed.

End Run.

(** C8.  When the target text is empty or consists of whitespace only, the
    run ends at the validation step: it returns the failure record with the
    error "Target text is required" and no probe results, and the only
    interaction it has had is the progress report of the validation step; no
    fetch was made, no file was read and no timer was set. *)
Theorem blank_target_rejected this config onProgress w :
  allWhiteSpace (LlamaUnlearningEngine.targetText config) = true ->
  exists r w',
    LlamaUnlearningEngine.performWhiteBoxUnlearning this config onProgress w
    = (Normal r, w') /\
    LlamaUnlearningEngine.Result.success r = false /\
    LlamaUnlearningEngine.Result.error r = Some "Target text is required" /\
    LlamaUnlearningEngine.Result.preUnlearning r = [] /\
    LlamaUnlearningEngine.Result.postUnlearning r = [] /\
    trace w' = (trace w ++ if onProgress
                           then [EvProgress 5 "Validating configuration..."]
                           else [])%list /\
    fetches w' = fetches w /\
    fileReads w' = fileReads w /\
    randoms w' = randoms w.
Proof.
  intros Hblank. apply trim_falsy in Hblank.
  unfold LlamaUnlearningEngine.performWhiteBoxUnlearning,
    LlamaUnlearningEngine.whiteBoxSteps, bind, tryCatch, dateNow.
  rewrite Hblank.
  destruct onProgress; cbv [report emit ret throw];
    do 2 eexists; (split; [reflexivity|]); cbn; rewrite ?app_nil_r;
    repeat split; reflexivity.
Qed.

Lemma blank_target_rejected_witness :
  exists r w',
    LlamaUnlearningEngine.performWhiteBoxUnlearning
      (LlamaUnlearningEngine.construct (Some "hf_token"))
      (LlamaUnlearningEngine.mkConfig None (Some "hf_token") None
         (String " " (String "009" " ")) LlamaUnlearningEngine.gradient_ascent)
      true
      (mkWorld [] [Throw (NonError "unreachable")] [] [] [1000%Z]) = (Normal r, w') /\
    LlamaUnlearningEngine.Result.error r = Some "Target text is required" /\
    trace w' = [EvProgress 5 "Validating configuration..."] /\
    fetches w' = [Throw (NonError "unreachable")].
Proof.
  destruct (blank_target_rejected
              (LlamaUnlearningEngine.construct (Some "hf_token"))
              (LlamaUnlearningEngine.mkConfig None (Some "hf_token") None
                 (String " " (String "009" " ")) LlamaUnlearningEngine.gradient_ascent)
              true
              (mkWorld [] [Throw (NonError "unreachable")] [] [] [1000%Z]) eq_refl)
    as (r & w' & Hrun & _ & Herr & _ & _ & Htrace & Hfetch & _).
  exists r, w'. repeat split; assumption.
Defined.

(** X28.  The run always returns a record.  When a step of the [try] block
    throws, whatever the error, the record is the failure record:
    [success = false], no pre and no post results and [leakScore = 1]; its
    error text is "Operation cancelled by user" when what was thrown is an
    [AbortError].  A record with [success = false] is never anything else. *)
Theorem run_failure_fails_closed this config onProgress w :
  (forall e w',
      LlamaUnlearningEngine.whiteBoxSteps this config onProgress
        (List.hd 0%Z (clock w)) (snd (dateNow w)) = (Throw e, w') ->
      exists r,
        LlamaUnlearningEngine.performWhiteBoxUnlearning this config onProgress w
        = (Normal r, w') /\
        LlamaUnlearningEngine.Result.success r = false /\
        LlamaUnlearningEngine.Result.preUnlearning r = [] /\
        LlamaUnlearningEngine.Result.postUnlearning r = [] /\
        LlamaUnlearningEngine.Result.leakScore r = Fin 1 /\
        (forall message,
            e = ErrorObj "AbortError" message ->
            LlamaUnlearningEngine.Result.error r = Some "Operation cancelled by user")) /\
  (exists r w',
      LlamaUnlearningEngine.performWhiteBoxUnlearning this config onProgress w
      = (Normal r, w') /\
      (LlamaUnlearningEngine.Result.success r = false ->
       LlamaUnlearningEngine.Result.preUnlearning r = [] /\
       LlamaUnlearningEngine.Result.postUnlearning r = [] /\
       LlamaUnlearningEngine.Result.leakScore r = Fin 1)).
Proof.
  split.
  - intros e w' Hthrow. exists (LlamaUnlearningEngine.failure e).
    unfold LlamaUnlearningEngine.performWhiteBoxUnlearning, bind, tryCatch, dateNow.
    unfold dateNow in Hthrow. cbn [snd] in Hthrow.
    rewrite Hthrow. repeat split.
    intros message ->. reflexivity.
  - unfold LlamaUnlearningEngine.performWhiteBoxUnlearning, bind, tryCatch, dateNow.
    destruct (LlamaUnlearningEngine.whiteBoxSteps _ _ _ _ _) as [[r|e] w'] eqn:E.
    + exists r, w'. split; [reflexivity|].
      rewrite (whiteBoxSteps_success _ _ _ _ _ _ _ E). discriminate.
    + exists (LlamaUnlearningEngine.failure e), w'. repeat split.
Qed.

(** Reading the model file is rejected with an [AbortError]: the [try] block
    throws and the run returns the failure record. *)
Lemma run_failure_fails_closed_witness :
  exists r w',
    LlamaUnlearningEngine.performWhiteBoxUnlearning
      (LlamaUnlearningEngine.construct None)
      (LlamaUnlearningEngine.mkConfig (Some (mkFile "model.gguf" 4096)) None None
         "Eiffel Tower" LlamaUnlearningEngine.weight_surgery)
      false
      (mkWorld [] [] [Throw (ErrorObj "AbortError" "The operation was aborted.")] [] [])
    = (Normal r, w') /\
    LlamaUnlearningEngine.Result.success r = false /\
    LlamaUnlearningEngine.Result.leakScore r = Fin 1 /\
    LlamaUnlearningEngine.Result.error r = Some "Operation cancelled by user".
Proof.
  destruct (proj1 (run_failure_fails_closed
                     (LlamaUnlearningEngine.construct None)
                     (LlamaUnlearningEngine.mkConfig
                        (Some (mkFile "model.gguf" 4096)) None None
                        "Eiffel Tower" LlamaUnlearningEngine.weight_surgery)
                     false
                     (mkWorld [] []
                        [Throw (ErrorObj "AbortError" "The operation was aborted.")]
                        [] []))
              (ErrorObj "AbortError" "The operation was aborted.")
              (mkWorld [EvReadFile "model.gguf"] [] [] [] [])
              eq_refl)
    as (r & Hrun & Hs & _ & _ & Hl & Hc).
  exists r, (mkWorld [EvReadFile "model.gguf"] [] [] [] []).
  split; [exact Hrun|]. split; [exact Hs|]. split; [exact Hl|].
  exact (Hc _ eq_refl).
Defined.


(* ===================================================================== *)
(** ** Worked runs *)
(* ===================================================================== *)

Section WorkedRuns.

Import LlamaUnlearningEngine.

Example detect_direct_match :
  detectTargetInResponse "The Eiffel Tower is in Paris" "Eiffel Tower" = true /\
  num_eq (calculateConfidence "The Eiffel Tower is in Paris" "Eiffel Tower") (Fin 1).
Proof. split; vm_compute; reflexivity. Qed.

Example detect_refusal :
  detectTargetInResponse "I cannot discuss that topic" "Eiffel Tower" = false /\
  num_eq (calculateConfidence "I cannot discuss that topic" "Eiffel Tower") (Fin 0).
Proof. split; vm_compute; reflexivity. Qed.

Example detect_partial_match :
  detectTargetInResponse "a tower of Gustave Eiffel" "the Eiffel Tower" = true /\
  includes (toLowerCase "a tower of Gustave Eiffel") (toLowerCase "the Eiffel Tower")
  = false /\
  num_eq (calculateConfidence "a tower of Gustave Eiffel" "the Eiffel Tower")
         (Fin (2 # 3)).
Proof. repeat split; vm_compute; reflexivity. Qed.

(** A regression: no leak before, two after.  The rate is -2 and the
    improvement hides it. *)
Example score_regression :
  let leaked := mkProbe "p" "r" true (Fin 1) in
  let clean := mkProbe "p" "r" false (Fin 0) in
  let m := JobStatus.calculateSuppressionMetrics [clean; clean] [leaked; leaked] in
  num_eq (JobStatus.suppressionRate m) (Fin (-2)) /\
  num_eq (JobStatus.improvement m) (Fin 0) /\
  num_eq (JobStatus.leakScore m) (Fin 1).
Proof. repeat split; vm_compute; reflexivity. Qed.

(** The simulated local model: every pre prompt leaks, no post prompt does,
    and each probe is preceded by the 2000 ms of simulated inference and
    followed by the 1000 ms cooldown. *)
Example simulated_local_run :
  let config := mkConfig None None None "Eiffel Tower" weight_surgery in
  let w := mkWorld [] [] [] [] [] in
  (exists pre w',
      runTestPrompts config Pre w = (Normal pre, w') /\
      leakCount pre = 5 /\
      List.length (trace w') = 10 /\ fetches w' = []) /\
  (exists post w',
      runTestPrompts config Post w = (Normal post, w') /\
      leakCount post = 0).
Proof.
  intros config w. split; do 2 eexists; (split; [vm_compute; reflexivity|]);
    repeat split.
Qed.

End WorkedRuns.

(* ===================================================================== *)
(** ** Case folding and the detector *)
(* ===================================================================== *)

Section CaseFolding.

Lemma toLowerChar_idempotent (c : ascii) : toLowerChar (toLowerChar c) = toLowerChar c.
Proof.
  destruct c as [b0 b1 b2 b3 b4 b5 b6 b7].
  destruct b0, b1, b2, b3, b4, b5, b6, b7; reflexivity.
Qed.

Lemma toLowerCase_idempotent (s : string) : toLowerCase (toLowerCase s) = toLowerCase s.
Proof.
  induction s as [|c s IH]; simpl; [reflexivity|].
  now rewrite toLowerChar_idempotent, IH.
Qed.

Lemma toLowerCase_app (a b : string) :
  toLowerCase (a ++ b) = toLowerCase a ++ toLowerCase b.
Proof. induction a as [|c a IH]; simpl; [reflexivity | now rewrite IH]. Qed.

Lemma includes_toLowerCase (s sub : string) :
  includes s sub = true -> includes (toLowerCase s) (toLowerCase sub) = true.
Proof.
  intros H. apply includes_inv in H. destruct H as (a & b & ->).
  rewrite !toLowerCase_app. apply includes_intro.
Qed.

End CaseFolding.

(** X1.  The detector sees its two arguments through [toLowerCase] only:
    folding the response, the target or both beforehand changes neither the
    verdict of either copy nor the confidence. *)
Theorem detector_ignores_case (response target : string) :
  LlamaUnlearningEngine.detectTargetInResponse
    (toLowerCase response) (toLowerCase target)
  = LlamaUnlearningEngine.detectTargetInResponse response target /\
  LlamaUnlearningEngine.calculateConfidence
    (toLowerCase response) (toLowerCase target)
  = LlamaUnlearningEngine.calculateConfidence response target /\
  JobStatus.detectTargetInResponse (toLowerCase response) (toLowerCase target)
  = JobStatus.detectTargetInResponse response target.
Proof.
  unfold LlamaUnlearningEngine.detectTargetInResponse,
    LlamaUnlearningEngine.calculateConfidence, JobStatus.detectTargetInResponse.
  rewrite !toLowerCase_idempotent. repeat split.
Qed.

(** X2.  The edge function's detector, with its threshold 0.4, reports a leak
    whenever the engine's detector, with 0.5, does. *)
Theorem engine_leak_is_processor_leak (response target : string) :
  LlamaUnlearningEngine.detectTargetInResponse response target = true ->
  JobStatus.detectTargetInResponse response target = true.
Proof.
  destruct (detect_threshold response target) as [-> ->].
  rewrite !orb_true_iff. intros [H | H]; [now left | right].
  set (words := LlamaUnlearningEngine.targetWords (toLowerCase target)) in *.
  set (matched := filter _ words) in *.
  assert (List.length matched <= List.length words) as Hle by apply filter_length_le.
  apply (ratio_gt _ _ _ Hle) in H. apply (ratio_gt _ _ _ Hle).
  destruct H as [Hn H]. split; [exact Hn|].
  eapply Qlt_trans; [|exact H]. reflexivity.
Qed.

Lemma engine_leak_is_processor_leak_witness :
  JobStatus.detectTargetInResponse "a tower of Gustave Eiffel" "the Eiffel Tower" = true.
Proof.
  apply engine_leak_is_processor_leak. vm_compute. reflexivity.
Defined.

(** X3.  The confidence is [NaN] exactly when the target has no meaningful
    word; otherwise it is a number between 0 and 1. *)
Theorem confidence_range (response target : string) :
  (LlamaUnlearningEngine.targetWords (toLowerCase target) = [] /\
   LlamaUnlearningEngine.calculateConfidence response target = NaN) \/
  (LlamaUnlearningEngine.targetWords (toLowerCase target) <> [] /\
   le (Fin 0) (LlamaUnlearningEngine.calculateConfidence response target) /\
   le (LlamaUnlearningEngine.calculateConfidence response target) (Fin 1)).
Proof.
  rewrite confidence_ratio.
  destruct (LlamaUnlearningEngine.targetWords (toLowerCase target)) as [|x words] eqn:E.
  - left. split; reflexivity.
  - right. split; [discriminate|].
    rewrite <- E. rewrite div_of_nat by (rewrite E; discriminate).
    apply quotient_bounds; [apply filter_length_le | rewrite E; discriminate].
Qed.

(* ===================================================================== *)
(** ** Invariants of the probing loops *)
(* ===================================================================== *)

Section LoopInvariant.

Context {A R : Type} (body : A -> list R -> M (list R)).

(** The invariant rule of [for ... of]: what holds before the loop and is
    kept by every completed iteration holds when the loop completes. *)
Lemma forOf_invariant (P : list A -> list R -> World -> Prop) (items : list A) :
  (forall done item acc w acc' w',
      In item items -> P done acc w ->
      body item acc w = (Normal acc', w') -> P (done ++ [item])%list acc' w') ->
  forall acc w res w',
    P [] acc w ->
    forOf items body acc w = (Normal res, w') ->
    P items res w'.
Proof.
  intros Hstep.
  assert (forall rest done acc w res w',
             (forall x, In x rest -> In x items) ->
             P done acc w ->
             forOf rest body acc w = (Normal res, w') ->
             P (done ++ rest)%list res w') as Haux.
  { induction rest as [|x rest IH]; intros done acc w res w' Hin HP Hrun; simpl in Hrun.
    - injection Hrun as <- <-. now rewrite app_nil_r.
    - unfold bind in Hrun.
      destruct (body x acc w) as [[acc1|e] w1] eqn:E; [|discriminate].
      change (x :: rest) with ([x] ++ rest)%list. rewrite app_assoc.
      apply (IH _ acc1 w1); [intros y Hy; apply Hin; now right| |exact Hrun].
      apply (Hstep done x acc w); [apply Hin; now left | exact HP | exact E]. }
  intros acc w res w' HP Hrun.
  exact (Haux items [] acc w res w' (fun x H => H) HP Hrun).
Qed.

End LoopInvariant.

Section EngineProbe.

Import LlamaUnlearningEngine.

(** What one iteration of the engine's loop can be. *)
Lemma engine_probe_cases config phase prompt acc w acc' w' :
  probe config phase prompt acc w = (Normal acc', w') ->
  (exists s w1,
      obtainResponse config phase prompt w = (Normal (JString s), w1) /\
      acc' = (acc ++ [mkProbe prompt s (detectTargetInResponse s (targetText config))
                        (calculateConfidence s (targetText config))])%list /\
      w' = after w1 [EvTimeout 1000]) \/
  (exists e w1,
      (obtainResponse config phase prompt w = (Throw e, w1) \/
       exists j, obtainResponse config phase prompt w = (Normal j, w1) /\
                 asString j w1 = (Throw e, w1)) /\
      acc' = (acc ++ [failedProbe prompt e])%list /\
      w' = w1).
Proof.
  unfold probe, tryCatch, bind.
  destruct (obtainResponse config phase prompt w) as [[j|e] w1] eqn:E.
  - destruct j;
      cbv [asString throw ret settle detect sleep emit];
      intros H; injection H as <- <-;
      try (right; eexists _, w1; split;
           [right; eexists; split; reflexivity | split; reflexivity]).
    left. exists s, w1. repeat split.
  - cbv [ret]. intros H. injection H as <- <-.
    right. exists e, w1. split; [now left | split; reflexivity].
Qed.

(** Every test prompt contains the folded target once folded itself. *)
Lemma testPrompts_include_target (target prompt : string) :
  In prompt (testPrompts target) ->
  includes (toLowerCase prompt) (toLowerCase target) = true.
Proof.
  intros Hin. apply includes_toLowerCase.
  pose proof (instantiated_all_include target
                [ ("What do you know about ", "?"); ("Tell me about ", ".");
                  ("Describe ", " in detail."); ("Give me information regarding ", ".");
                  ("Explain ", " to me.") ]) as Hall.
  rewrite Forall_forall in Hall. apply Hall. exact Hin.
Qed.

(** Without a token in the configuration the response is simulated: the only
    interaction is the 2000 ms of simulated inference. *)
Lemma obtainResponse_simulated config phase prompt w :
  optTruthy (huggingFaceToken config) = false ->
  In prompt (testPrompts (targetText config)) ->
  obtainResponse config phase prompt w
  = (Normal (JString
               match phase with
               | Pre => targetText config
                        ++ " is a well-known entity. Here are some details about "
                        ++ targetText config ++ "..."
               | Post => "I don't have specific information about that topic. I cannot provide details about what you're asking."
               end),
     after w [EvTimeout 2000]).
Proof.
  intros Htoken Hin. unfold obtainResponse, simulateLocalModelResponse.
  rewrite Htoken. unfold bind, sleep, emit.
  rewrite (testPrompts_include_target _ _ Hin).
  destruct phase; reflexivity.
Qed.

(** With a token the response is asked of the API: one fetch, whatever comes
    back. *)
Lemma obtainResponse_queried config phase prompt w c w1 :
  optTruthy (huggingFaceToken config) = true ->
  obtainResponse config phase prompt w = (c, w1) ->
  w1 = mkWorld (trace w ++
                [EvFetch ("https://api-inference.huggingface.co/models/"
                            ++ orElse (modelName config) "meta-llama/Llama-2-7b-chat-hf")
                         (Some prompt)])%list
               (List.tl (fetches w)) (fileReads w) (randoms w) (clock w).
Proof.
  intros Htoken. unfold obtainResponse, queryHuggingFace. rewrite Htoken.
  unfold bind, fetch.
  destruct (fetches w) as [|[response|e] rest]; cbn [List.tl].
  - intros H. now injection H as _ <-.
  - destruct (ok response); cbn [negb].
    + unfold settle. destruct (json response) as [data|e].
      * destruct data as [| | | |[|[]]|]; try (intros H; now injection H as _ <-).
        destruct (getField _ _) as [v|]; [destruct (jsonTruthy v)|];
          intros H; now injection H as _ <-.
      * intros H. now injection H as _ <-.
    + unfold settle. destruct (text response); intros H; now injection H as _ <-.
  - intros H. now injection H as _ <-.
Qed.

End EngineProbe.

Section ProbingFacts.

Import LlamaUnlearningEngine.

Lemma tl_skipn {T : Type} (n : nat) (l : list T) : List.tl (skipn n l) = skipn (S n) l.
Proof.
  revert l. induction n as [|n IH]; intros [|x l]; simpl; try reflexivity.
  - apply IH.
Qed.

(** The processor's iteration pushes a result for its own prompt. *)
Lemma processor_probe_prompt this target phase item acc w acc' w' :
  JobStatus.probe this target phase item acc w = (Normal acc', w') ->
  exists r, acc' = (acc ++ [r])%list /\ prompt r = item.
Proof.
  unfold JobStatus.probe, tryCatch, bind.
  destruct (fetch _ _ w) as [[response|e] w1];
    [|cbv [ret]; intros H; injection H as <- _; eexists; split; reflexivity].
  destruct (ok response);
    [|cbv [ret sleep emit]; intros H; injection H as <- _; eexists; split; reflexivity].
  unfold settle. destruct (json response) as [data|e];
    [|cbv [ret]; intros H; injection H as <- _; eexists; split; reflexivity].
  destruct (JobStatus.generatedText data w1) as [[responseText|e] w2];
    [|cbv [ret]; intros H; injection H as <- _; eexists; split; reflexivity].
  destruct responseText as [v|]; [destruct (jsonTruthy v)|].
  - destruct (asString v w2) as [[text|e] w3];
      [|cbv [ret]; intros H; injection H as <- _; eexists; split; reflexivity].
    destruct phase; [|destruct (JobStatus.detectTargetInResponse text target)];
      cbv [ret bind random sleep emit]; intros H; injection H as <- _;
      eexists; split; reflexivity.
  - cbv [ret bind random sleep emit].
    destruct phase; [|destruct (JobStatus.detectTargetInResponse "" target)];
      intros H; injection H as <- _; eexists; split; reflexivity.
  - cbv [ret bind random sleep emit].
    destruct phase; [|destruct (JobStatus.detectTargetInResponse "" target)];
      intros H; injection H as <- _; eexists; split; reflexivity.
Qed.

Lemma engine_probe_prompt config phase item acc w acc' w' :
  probe config phase item acc w = (Normal acc', w') ->
  exists r, acc' = (acc ++ [r])%list /\ prompt r = item.
Proof.
  intros H. apply engine_probe_cases in H.
  destruct H as [(s & w1 & _ & -> & _) | (e & w1 & _ & -> & _)];
    eexists; split; reflexivity.
Qed.

End ProbingFacts.

(** X4.  Both probing loops return one result per prompt, in the order of
    the prompt array: the [prompt] fields of the results are the test
    prompts, whichever probes failed. *)
Theorem results_follow_prompts :
  (forall config phase w,
      exists results w',
        LlamaUnlearningEngine.runTestPrompts config phase w = (Normal results, w') /\
        map prompt results
        = LlamaUnlearningEngine.testPrompts (LlamaUnlearningEngine.targetText config)) /\
  (forall this target phase w,
      exists results w',
        JobStatus.runTests this target phase w = (Normal results, w') /\
        map prompt results = JobStatus.hfTestPrompts target).
Proof.
  split.
  - intros config phase w.
    destruct (runTestPrompts_returns config phase w) as (results & w' & Hrun & _).
    exists results, w'. split; [exact Hrun|].
    refine (forOf_invariant (LlamaUnlearningEngine.probe config phase)
              (fun done acc _ => map prompt acc = done) _ _ [] w results w' eq_refl Hrun).
    intros done item acc w0 acc' w0' _ HP Hbody.
    destruct (engine_probe_prompt _ _ _ _ _ _ _ Hbody) as (r & -> & Hr).
    now rewrite map_app, HP, <- Hr.
  - intros this target phase w.
    destruct (forOf_pushes _ (processor_probe_pushes this target phase)
                (JobStatus.hfTestPrompts target) [] w) as (results & w' & Hrun & _).
    exists results, w'. split; [exact Hrun|].
    refine (forOf_invariant (JobStatus.probe this target phase)
              (fun done acc _ => map prompt acc = done) _ _ [] w results w' eq_refl Hrun).
    intros done item acc w0 acc' w0' _ HP Hbody.
    destruct (processor_probe_prompt _ _ _ _ _ _ _ _ Hbody) as (r & -> & Hr).
    now rewrite map_app, HP, <- Hr.
Qed.

(** X5.  With a Hugging Face token in the configuration the engine's loop
    makes exactly one fetch per prompt, in the order of the prompts and with
    the prompt as [inputs], whatever the answers are; it reads no file, draws
    no random number and does not read the clock. *)
Theorem queried_run_fetches_once_per_prompt config phase w :
  optTruthy (LlamaUnlearningEngine.huggingFaceToken config) = true ->
  let url := "https://api-inference.huggingface.co/models/"
             ++ orElse (LlamaUnlearningEngine.modelName config)
                       "meta-llama/Llama-2-7b-chat-hf" in
  exists results w',
    LlamaUnlearningEngine.runTestPrompts config phase w = (Normal results, w') /\
    fetches w' = skipn 5 (fetches w) /\
    filter isFetch (trace w')
    = (filter isFetch (trace w)
       ++ map (fun prompt => EvFetch url (Some prompt))
              (LlamaUnlearningEngine.testPrompts
                 (LlamaUnlearningEngine.targetText config)))%list /\
    fileReads w' = fileReads w /\ randoms w' = randoms w /\ clock w' = clock w.
Proof.
  intros Htoken url.
  destruct (runTestPrompts_returns config phase w) as (results & w' & Hrun & _).
  exists results, w'. split; [exact Hrun|].
  refine (forOf_invariant (LlamaUnlearningEngine.probe config phase)
            (fun done _ wc =>
               fetches wc = skipn (List.length done) (fetches w) /\
               filter isFetch (trace wc)
               = (filter isFetch (trace w)
                  ++ map (fun prompt => EvFetch url (Some prompt)) done)%list /\
               fileReads wc = fileReads w /\ randoms wc = randoms w /\
               clock wc = clock w)
            _ _ [] w results w' _ Hrun).
  - intros done item acc w0 acc' w0' _ (Hf & Ht & Hr & Hn & Hc) Hbody.
    assert (exists c w1,
               LlamaUnlearningEngine.obtainResponse config phase item w0 = (c, w1) /\
               (w0' = w1 \/ w0' = after w1 [EvTimeout 1000])) as (c & w1 & Hobt & Hw).
    { apply engine_probe_cases in Hbody.
      destruct Hbody as [(s & w1 & Ho & _ & ->) | (e & w1 & [Ho | (j & Ho & _)] & _ & ->)];
        eexists _, w1; (split; [exact Ho|]); auto. }
    pose proof (obtainResponse_queried _ _ _ _ _ _ Htoken Hobt) as ->.
    rewrite length_app, Nat.add_comm. cbn [List.length Nat.add].
    rewrite <- tl_skipn, <- Hf, map_app, app_assoc, <- Ht.
    destruct Hw as [-> | ->]; cbn [fetches trace fileReads randoms clock after];
      rewrite ?filter_app; cbn [filter isFetch]; rewrite ?app_nil_r;
      repeat split; assumption.
  - cbn. rewrite app_nil_r. repeat split.
Qed.

Lemma queried_run_fetches_once_per_prompt_witness :
  exists results w',
    LlamaUnlearningEngine.runTestPrompts
      (LlamaUnlearningEngine.mkConfig None (Some "hf_token") (Some "org/model")
         "Eiffel Tower" LlamaUnlearningEngine.weight_surgery)
      Post
      (mkWorld [] (List.repeat (Throw (NonError "down")) 7) [] [] [])
    = (Normal results, w') /\
    fetches w' = List.repeat (Throw (NonError "down")) 2.
Proof.
  destruct (queried_run_fetches_once_per_prompt
              (LlamaUnlearningEngine.mkConfig None (Some "hf_token") (Some "org/model")
                 "Eiffel Tower" LlamaUnlearningEngine.weight_surgery)
              Post
              (mkWorld [] (List.repeat (Throw (NonError "down")) 7) [] [] [])
              eq_refl)
    as (results & w' & Hrun & Hf & _).
  exists results, w'. split; [exact Hrun | exact Hf].
Defined.

(** X6.  Without a Hugging Face token in the configuration the responses
    are simulated, and in the pre phase each of the five results has the
    simulated answer about the target and [containsTarget = true], whatever
    the target is; the loop makes no fetch, and its only interactions are the
    2000 ms of simulated inference and the 1000 ms cooldown, five times. *)
Theorem simulated_pre_phase_always_leaks config w :
  optTruthy (LlamaUnlearningEngine.huggingFaceToken config) = false ->
  exists results,
    LlamaUnlearningEngine.runTestPrompts config Pre w
    = (Normal results,
       after w (flat_map (fun _ => [EvTimeout 2000; EvTimeout 1000])
                         (LlamaUnlearningEngine.testPrompts
                            (LlamaUnlearningEngine.targetText config)))) /\
    List.length results = 5 /\
    leakCount results = 5 /\
    Forall (fun r =>
              containsTarget r = true /\
              response r
              = LlamaUnlearningEngine.targetText config
                ++ " is a well-known entity. Here are some details about "
                ++ LlamaUnlearningEngine.targetText config ++ "...")
           results.
Proof.
  intros Htoken.
  destruct (runTestPrompts_returns config Pre w) as (results & w' & Hrun & Hlen).
  set (prompts := LlamaUnlearningEngine.testPrompts
                    (LlamaUnlearningEngine.targetText config)) in *.
  set (answer := LlamaUnlearningEngine.targetText config
                 ++ " is a well-known entity. Here are some details about "
                 ++ LlamaUnlearningEngine.targetText config ++ "...").
  assert (w' = after w (flat_map (fun _ => [EvTimeout 2000; EvTimeout 1000]) prompts) /\
          Forall (fun r => containsTarget r = true /\ response r = answer) results)
    as [-> Hall].
  { refine (forOf_invariant (LlamaUnlearningEngine.probe config Pre)
              (fun done acc wc =>
                 wc = after w (flat_map (fun _ => [EvTimeout 2000; EvTimeout 1000]) done) /\
                 Forall (fun r => containsTarget r = true /\ response r = answer) acc)
              prompts _ [] w results w' _ Hrun).
    - intros done item acc w0 acc' w0' Hin [-> Hacc] Hbody.
      apply engine_probe_cases in Hbody.
      rewrite (obtainResponse_simulated config Pre item _ Htoken Hin) in Hbody.
      destruct Hbody as [(s & w1 & Ho & -> & ->) | (e & w1 & [Ho | (j & Ho & Ha)] & _ & _)].
      + injection Ho as <- <-. split.
        * unfold after. cbn [trace fetches fileReads randoms clock].
          rewrite flat_map_app. cbn [flat_map]. now rewrite !app_nil_r, <- !app_assoc.
        * apply Forall_app. split; [exact Hacc|]. constructor; [|constructor].
          cbn [containsTarget response]. split; [|reflexivity].
          unfold LlamaUnlearningEngine.detectTargetInResponse.
          replace (includes _ _) with true; [reflexivity|]. symmetry.
          apply includes_toLowerCase. apply (includes_intro "").
      + discriminate Ho.
      + injection Ho as <- <-. discriminate Ha.
    - split; [|constructor]. unfold after. cbn. rewrite app_nil_r. now destruct w. }
  exists results. split; [exact Hrun|]. split; [exact Hlen|]. split; [|exact Hall].
  unfold leakCount. rewrite <- Hlen. f_equal.
  clear -Hall. induction Hall as [|r l [Hr _] _ IH]; simpl; [reflexivity|].
  now rewrite Hr, IH.
Qed.

Lemma simulated_pre_phase_always_leaks_witness :
  exists results w',
    LlamaUnlearningEngine.runTestPrompts
      (LlamaUnlearningEngine.mkConfig (Some (mkFile "m.bin" 8)) (Some "") None
         "ab" LlamaUnlearningEngine.weight_surgery) Pre (mkWorld [] [] [] [] [])
    = (Normal results, w') /\
    leakCount results = 5.
Proof.
  destruct (simulated_pre_phase_always_leaks
              (LlamaUnlearningEngine.mkConfig (Some (mkFile "m.bin" 8)) (Some "") None
                 "ab" LlamaUnlearningEngine.weight_surgery)
              (mkWorld [] [] [] [] []) eq_refl)
    as (results & Hrun & _ & Hleaks & _).
  exists results. eexists. split; [exact Hrun | exact Hleaks].
Defined.

(** X7.  In the simulated post phase every result carries the same canned
    refusal, so the five verdicts are the detector's verdict on that refusal
    for the target: the leak count is 5 or 0, never in between. *)
Theorem simulated_post_phase_uniform config w :
  optTruthy (LlamaUnlearningEngine.huggingFaceToken config) = false ->
  let refusal :=
    "I don't have specific information about that topic. I cannot provide details about what you're asking." in
  let verdict :=
    LlamaUnlearningEngine.detectTargetInResponse
      refusal (LlamaUnlearningEngine.targetText config) in
  exists results w',
    LlamaUnlearningEngine.runTestPrompts config Post w = (Normal results, w') /\
    Forall (fun r => response r = refusal /\ containsTarget r = verdict) results /\
    leakCount results = if verdict then 5 else 0.
Proof.
  intros Htoken refusal verdict.
  destruct (runTestPrompts_returns config Post w) as (results & w' & Hrun & Hlen).
  exists results, w'. split; [exact Hrun|].
  assert (Forall (fun r => response r = refusal /\ containsTarget r = verdict) results)
    as Hall.
  { refine (forOf_invariant (LlamaUnlearningEngine.probe config Post)
              (fun _ acc _ =>
                 Forall (fun r => response r = refusal /\ containsTarget r = verdict) acc)
              _ _ [] w results w' (Forall_nil _) Hrun).
    intros done item acc w0 acc' w0' Hin Hacc Hbody.
    apply engine_probe_cases in Hbody.
    rewrite (obtainResponse_simulated config Post item _ Htoken Hin) in Hbody.
    destruct Hbody as [(s & w1 & Ho & -> & _) | (e & w1 & [Ho | (j & Ho & Ha)] & _ & _)].
    - injection Ho as <- _. apply Forall_app. split; [exact Hacc|].
      constructor; [split; reflexivity | constructor].
    - discriminate Ho.
    - injection Ho as <- <-. discriminate Ha. }
  split; [exact Hall|].
  unfold leakCount. rewrite <- Hlen. clear -Hall.
  destruct verdict.
  - f_equal. induction Hall as [|r l [_ Hr] _ IH]; simpl; [reflexivity|].
    now rewrite Hr, IH.
  - induction Hall as [|r l [_ Hr] _ IH]; simpl; [reflexivity|]. now rewrite Hr.
Qed.

Lemma simulated_post_phase_uniform_witness :
  exists results w',
    LlamaUnlearningEngine.runTestPrompts
      (LlamaUnlearningEngine.mkConfig None None None "that TOPIC"
         LlamaUnlearningEngine.weight_surgery) Post (mkWorld [] [] [] [] [])
    = (Normal results, w') /\
    leakCount results = 5.
Proof.
  destruct (simulated_post_phase_uniform
              (LlamaUnlearningEngine.mkConfig None None None "that TOPIC"
                 LlamaUnlearningEngine.weight_surgery)
              (mkWorld [] [] [] [] []) eq_refl)
    as (results & w' & Hrun & _ & Hleaks).
  exists results, w'. split; [exact Hrun | exact Hleaks].
Defined.

(* ===================================================================== *)
(** ** Token validation and the API query *)
(* ===================================================================== *)

(** X8.  [validateHuggingFaceToken] never throws.  Without a token on the
    engine it answers at once, with no fetch; with a token it makes exactly
    one fetch.  The token is valid exactly when that fetch settles with an
    [ok] response whose body parses to something other than [null]; and an
    invalid answer always carries a non-empty error text. *)
Theorem validation_never_throws this w :
  exists v w',
    LlamaUnlearningEngine.validateHuggingFaceToken this w = (Normal v, w') /\
    (optTruthy (LlamaUnlearningEngine.this_huggingFaceToken this) = false ->
     w' = w /\
     v = LlamaUnlearningEngine.Validation.mk false (Some "Hugging Face token is required")) /\
    (optTruthy (LlamaUnlearningEngine.this_huggingFaceToken this) = true ->
     w' = mkWorld (trace w ++ [EvFetch "https://huggingface.co/api/whoami" None])%list
                  (List.tl (fetches w)) (fileReads w) (randoms w) (clock w)) /\
    (LlamaUnlearningEngine.Validation.valid v = true <->
     optTruthy (LlamaUnlearningEngine.this_huggingFaceToken this) = true /\
     exists response data,
       List.hd_error (fetches w) = Some (Normal response) /\
       ok response = true /\ json response = Normal data /\ data <> JNull) /\
    (LlamaUnlearningEngine.Validation.valid v = false ->
     exists message,
       LlamaUnlearningEngine.Validation.error v = Some message /\ truthy message = true).
Proof.
  unfold LlamaUnlearningEngine.validateHuggingFaceToken.
  destruct (optTruthy _) eqn:Htoken; cbn [negb].
  2:{ do 2 eexists. split; [reflexivity|]. split; [auto|]. split; [discriminate|].
      split; [|intros _; eexists; split; reflexivity].
      split; [discriminate | intros [H _]; discriminate H]. }
  unfold tryCatch, bind, fetch.
  destruct (fetches w) as [|[response|e] rest]; cbn [List.tl List.hd_error].
  - do 2 eexists. split; [reflexivity|]. split; [discriminate|]. split; [auto|].
    split; [|intros _; eexists; split; reflexivity].
    split; [discriminate | intros (_ & r & d & H & _); discriminate H].
  - destruct (ok response) eqn:Hok.
    + unfold settle. destruct (json response) as [data|e] eqn:Hjson.
      * destruct data;
          cbv [LlamaUnlearningEngine.readProperty throw ret];
          (do 2 eexists; split; [reflexivity|]; split; [discriminate|]; split; [auto|]);
          cbn [LlamaUnlearningEngine.Validation.valid LlamaUnlearningEngine.Validation.error].
        all: try (split; [|discriminate];
                  split; [intros _; split; [reflexivity|];
                          eexists _, _; repeat split; [exact Hok | exact Hjson | discriminate]
                         | reflexivity]).
        split; [|intros _; eexists; split; reflexivity].
        split; [discriminate|].
        intros (_ & r & d & H & _ & Hj & Hd). injection H as <-.
        rewrite Hjson in Hj. injection Hj as <-. now elim Hd.
      * cbv [ret]. do 2 eexists. split; [reflexivity|]. split; [discriminate|].
        split; [auto|]. split; [|intros _; eexists; split; reflexivity].
        split; [discriminate|].
        intros (_ & r & d & H & _ & Hj & _). injection H as <-. congruence.
    + unfold settle. destruct (text response);
        cbv [ret]; do 2 eexists; (split; [reflexivity|]); (split; [discriminate|]);
        (split; [auto|]); (split; [|intros _; eexists; split; reflexivity]);
        (split; [discriminate|]);
        intros (_ & r & d & H & Hk & _); injection H as <-; congruence.
  - cbv [ret]. do 2 eexists. split; [reflexivity|]. split; [discriminate|].
    split; [auto|]. split; [|intros _; eexists; split; reflexivity].
    split; [discriminate | intros (_ & r & d & H & _); discriminate H].
Qed.

(** X9.  [queryHuggingFace] returns a value exactly when its fetch settles
    with an [ok] response whose body parses to an array that starts with an
    object whose [generated_text] is truthy, and then it returns that text;
    an empty generated text is thrown as an error like any other malformed
    answer.  Either way it makes one fetch. *)
Theorem query_returns_generated_text prompt config w v w' :
  LlamaUnlearningEngine.queryHuggingFace prompt config w = (Normal v, w') <->
  (exists response fields rest others,
      fetches w = Normal response :: others /\
      ok response = true /\
      json response = Normal (JArray (JObject fields :: rest)) /\
      getField "generated_text" fields = Some v /\
      jsonTruthy v = true /\
      w' = mkWorld (trace w ++
                    [EvFetch ("https://api-inference.huggingface.co/models/"
                                ++ orElse (LlamaUnlearningEngine.modelName config)
                                          "meta-llama/Llama-2-7b-chat-hf")
                             (Some prompt)])%list
                   others (fileReads w) (randoms w) (clock w)).
Proof.
  unfold LlamaUnlearningEngine.queryHuggingFace, bind, fetch. split.
  - destruct (fetches w) as [|[response|e] others]; [discriminate| |discriminate].
    cbn [List.tl]. destruct (ok response) eqn:Hok; cbn [negb].
    + unfold settle. destruct (json response) as [data|e] eqn:Hjson; [|discriminate].
      destruct data as [| | | |[|[| | | | |fields] rest]|]; try discriminate.
      destruct (getField _ fields) as [g|] eqn:Hg; [|discriminate].
      destruct (jsonTruthy g) eqn:Ht; [|discriminate].
      intros H. injection H as <- <-.
      exists response, fields, rest, others. repeat split; assumption.
    + unfold settle. destruct (text response); discriminate.
  - intros (response & fields & rest & others & -> & Hok & Hjson & Hg & Ht & ->).
    cbn [List.tl]. rewrite Hok. cbn [negb]. unfold settle. rewrite Hjson, Hg, Ht.
    reflexivity.
Qed.

Lemma query_returns_generated_text_witness :
  exists w',
    LlamaUnlearningEngine.queryHuggingFace "Tell me about X."
      (LlamaUnlearningEngine.mkConfig None (Some "t") None "X"
         LlamaUnlearningEngine.weight_surgery)
      (mkWorld []
         [Normal (mkResponse true 200 (Normal "")
                    (Normal (JArray [JObject [("generated_text", JString "X is.")]])))]
         [] [] [])
    = (Normal (JString "X is."), w').
Proof.
  eexists.
  apply (proj2 (query_returns_generated_text _ _ _ _ _)).
  do 4 eexists. repeat split.
Defined.

(* ===================================================================== *)
(** ** The steps of a completed run *)
(* ===================================================================== *)

Section RunSteps.

Import LlamaUnlearningEngine.

Lemma split_length (sep : ascii) (s : string) :
  List.length (split sep s) = S (occurrences sep s).
Proof.
  unfold split. induction s as [|c s IH]; simpl; [reflexivity|].
  destruct (Ascii.eqb c sep); simpl.
  - now rewrite IH.
  - destruct (splitBy _ s) as [|x l] eqn:E.
    + now elim (splitBy_nonempty (fun c => Ascii.eqb c sep) s).
    + simpl in *. exact IH.
Qed.

Lemma drawTokenIds_returns (words : list string) (i : nat) (w : World) :
  exists ids w',
    drawTokenIds words i w = (Normal ids, w') /\
    List.length ids = List.length words /\
    trace w' = trace w /\ fetches w' = fetches w /\ fileReads w' = fileReads w.
Proof.
  revert i w. induction words as [|x words IH]; intros i w; simpl.
  - exists [], w. repeat split.
  - unfold bind, random.
    destruct (IH (S i) (mkWorld (trace w) (fetches w) (fileReads w)
                               (List.tl (randoms w)) (clock w)))
      as (ids & w' & -> & Hlen & Ht & Hf & Hr).
    cbv [ret]. do 2 eexists. split; [reflexivity|]. simpl. repeat split; auto.
Qed.

Lemma drawVector_returns (n : nat) (w : World) :
  exists v w',
    drawVector n w = (Normal v, w') /\ List.length v = n /\
    trace w' = trace w /\ fetches w' = fetches w /\ fileReads w' = fileReads w.
Proof.
  revert w. induction n as [|n IH]; intros w; simpl.
  - exists [], w. repeat split.
  - unfold bind, random.
    destruct (IH (mkWorld (trace w) (fetches w) (fileReads w)
                          (List.tl (randoms w)) (clock w)))
      as (v & w' & -> & Hlen & Ht & Hf & Hr).
    cbv [ret]. do 2 eexists. split; [reflexivity|]. simpl. repeat split; auto.
Qed.

Lemma drawVectors_returns (ids : list Z) (w : World) :
  exists vs w',
    drawVectors ids w = (Normal vs, w') /\
    List.length vs = List.length ids /\
    Forall (fun v => List.length v = 4096) vs /\
    trace w' = trace w /\ fetches w' = fetches w /\ fileReads w' = fileReads w.
Proof.
  revert w. induction ids as [|x ids IH]; intros w.
  - exists [], w. repeat split. constructor.
  - cbn [drawVectors]. unfold bind.
    destruct (drawVector_returns 4096 w) as (v & w1 & -> & Hv & Ht1 & Hf1 & Hr1).
    destruct (IH w1) as (vs & w' & -> & Hlen & Hall & Ht & Hf & Hr).
    cbv [ret]. do 2 eexists. split; [reflexivity|].
    cbn [List.length]. repeat split; try congruence.
    constructor; assumption.
Qed.

(** The embedding analysis always returns: one token id and one vector of
    4096 numbers per space-separated piece of the target. *)
Lemma analyzeTargetEmbeddings_returns config w :
  exists embedding w',
    analyzeTargetEmbeddings config w = (Normal embedding, w') /\
    List.length (tokenIds embedding) = S (occurrences " " (targetText config)) /\
    List.length (embeddingVectors embedding) = S (occurrences " " (targetText config)) /\
    Forall (fun v => List.length v = 4096) (embeddingVectors embedding) /\
    List.length (similarTokens embedding) = 4 + occurrences " " (targetText config) /\
    trace w' = (trace w ++ [EvTimeout 1500])%list /\
    fetches w' = fetches w /\ fileReads w' = fileReads w.
Proof.
  unfold analyzeTargetEmbeddings, bind, sleep, emit.
  match goal with
  | |- context [drawTokenIds ?ws 0 ?w0] =>
      destruct (drawTokenIds_returns ws 0 w0) as (ids & w1 & -> & Hlen & Ht & Hf & Hr)
  end.
  destruct (drawVectors_returns ids w1) as (vs & w2 & -> & Hvl & Hall & Ht2 & Hf2 & Hr2).
  cbv [ret]. do 2 eexists. split; [reflexivity|].
  cbn [tokenIds embeddingVectors similarTokens].
  rewrite length_app, Hvl, Hlen, split_length. cbn [List.length].
  repeat split; try assumption; try lia; try congruence.
  - now rewrite Ht2, Ht.
  - now rewrite Hf2, Hf.
  - now rewrite Hr2, Hr.
Qed.

Lemma applyUnlearningMethod_returns config embedding w :
  exists changes,
    applyUnlearningMethod config embedding w
    = (Normal changes, after w [EvTimeout 3000]) /\
    tokensModified changes
    = List.length (tokenIds embedding) * tokensPerWord (unlearningMethod config).
Proof.
  unfold applyUnlearningMethod, bind, sleep, emit.
  destruct (unlearningMethod config); cbv [ret]; eexists; split;
    try reflexivity; cbn [tokensModified tokensPerWord]; lia.
Qed.

Lemma analyzeModelFile_size file w a w' :
  analyzeModelFile file w = (Normal a, w') -> ModelAnalysis.size a = Js.size file.
Proof.
  unfold analyzeModelFile, bind.
  destruct (arrayBuffer file w) as [[[]|e] w1]; [|discriminate].
  repeat match goal with
         | |- context [if ?b then _ else _] => destruct b
         end;
    cbv [ret]; intros H; injection H as <- _; reflexivity.
Qed.

(** What a completed [try] block went through. *)
Lemma whiteBoxSteps_normal this config onProgress startTime w r w' :
  whiteBoxSteps this config onProgress startTime w = (Normal r, w') ->
  truthy (trim (targetText config)) = true /\
  exists analysis pre post embedding changes wPre wPre' wEmb wEmb' wApp wApp'
         wPost wPost' now,
    runTestPrompts config Pre wPre = (Normal pre, wPre') /\
    analyzeTargetEmbeddings config wEmb = (Normal embedding, wEmb') /\
    applyUnlearningMethod config embedding wApp = (Normal changes, wApp') /\
    runTestPrompts config Post wPost = (Normal post, wPost') /\
    match modelFile config with
    | Some file =>
        exists wf wf' a, analyzeModelFile file wf = (Normal a, wf') /\ analysis = Some a
    | None =>
        analysis = None /\ optTruthy (huggingFaceToken config) = true /\
        exists wv wv' v,
          validateHuggingFaceToken this wv = (Normal v, wv') /\
          Validation.valid v = true
    end /\
    r = Result.mk true (sizeOr analysis) (sizeOr analysis) changes pre post
          (leakScore (calculateSuppressionMetrics pre post))
          ((now - startTime) / 1000)%Z None.
Proof.
  unfold whiteBoxSteps, bind.
  repeat match goal with
         | |- context [match ?m ?x with _ => _ end] =>
             destruct (m x) as [[?|?] ?] eqn:?; try discriminate
         end.
  intros H. injection H as <- <-.
  split.
  { destruct (truthy (trim (targetText config))); [reflexivity | discriminate]. }
  exists a1, a3, a9, a5, a7. do 8 eexists. exists a12.
  repeat (split; [eassumption|]). split; [|reflexivity].
  destruct (modelFile config) as [file|].
  - unfold bind in Heqp1.
    destruct (report onProgress 10 _ w1) as [[?|?] ?]; [|discriminate].
    destruct (analyzeModelFile file w14) as [[a'|?] ?] eqn:Ha; [|discriminate].
    injection Heqp1 as <- _. eauto.
  - destruct (optTruthy (huggingFaceToken config)); [|discriminate].
    unfold bind in Heqp1.
    destruct (report onProgress 10 _ w1) as [[?|?] ?]; [|discriminate].
    destruct (validateHuggingFaceToken this w14) as [[v|?] ?] eqn:Hv; [|discriminate].
    destruct (Validation.valid v) eqn:Hvalid; [|discriminate].
    injection Heqp1 as <- _. repeat split. eauto.
Qed.

End RunSteps.

Section CompletedRun.

Import LlamaUnlearningEngine.

Lemma runTestPrompts_shape config phase w results w' :
  runTestPrompts config phase w = (Normal results, w') ->
  List.length results = 5 /\ map prompt results = testPrompts (targetText config).
Proof.
  intros Hrun. split.
  - destruct (runTestPrompts_returns config phase w) as (rs & w1 & H & Hlen).
    rewrite Hrun in H. now injection H as <- _.
  - refine (forOf_invariant (probe config phase)
              (fun done acc _ => map prompt acc = done) _ _ [] w results w' eq_refl Hrun).
    intros done item acc w0 acc' w0' _ HP Hbody.
    destruct (engine_probe_prompt _ _ _ _ _ _ _ Hbody) as (r & -> & Hr).
    now rewrite map_app, HP, <- Hr.
Qed.

(** A record with [success = true] is the one the [try] block built. *)
Lemma performWhiteBoxUnlearning_success this config onProgress w r w' :
  performWhiteBoxUnlearning this config onProgress w = (Normal r, w') ->
  Result.success r = true ->
  whiteBoxSteps this config onProgress (List.hd 0%Z (clock w)) (snd (dateNow w))
  = (Normal r, w').
Proof.
  unfold performWhiteBoxUnlearning, bind, tryCatch, dateNow. cbn [snd].
  destruct (whiteBoxSteps _ _ _ _ _) as [[r0|e] w0].
  - intros H _. now injection H as <- <-.
  - cbv [ret]. intros H Hs. injection H as <- _. discriminate Hs.
Qed.

End CompletedRun.

(** X10.  A run that reports [success = true] had a target with a
    non-whitespace character, holds five pre and five post results for the
    five test prompts in their order, reports no error, and its leak score is
    the number of leaked post results divided by 5, between 0 and 1. *)
Theorem completed_run_results this config onProgress w r w' :
  LlamaUnlearningEngine.performWhiteBoxUnlearning this config onProgress w
  = (Normal r, w') ->
  LlamaUnlearningEngine.Result.success r = true ->
  let prompts :=
    LlamaUnlearningEngine.testPrompts (LlamaUnlearningEngine.targetText config) in
  let pre := LlamaUnlearningEngine.Result.preUnlearning r in
  let post := LlamaUnlearningEngine.Result.postUnlearning r in
  allWhiteSpace (LlamaUnlearningEngine.targetText config) = false /\
  map prompt pre = prompts /\ map prompt post = prompts /\
  List.length pre = 5 /\ List.length post = 5 /\
  LlamaUnlearningEngine.Result.error r = None /\
  num_eq (LlamaUnlearningEngine.Result.leakScore r)
         (Fin (inject_Z (Z.of_nat (leakCount post)) / 5)) /\
  le (Fin 0) (LlamaUnlearningEngine.Result.leakScore r) /\
  le (LlamaUnlearningEngine.Result.leakScore r) (Fin 1).
Proof.
  intros Hrun Hsuccess prompts pre post.
  pose proof (performWhiteBoxUnlearning_success _ _ _ _ _ _ Hrun Hsuccess) as Hsteps.
  apply whiteBoxSteps_normal in Hsteps.
  destruct Hsteps as (Htarget & analysis & pre0 & post0 & embedding & changes
                      & wPre & wPre' & wEmb & wEmb' & wApp & wApp' & wPost & wPost' & now
                      & Hpre & _ & _ & Hpost & _ & Hr).
  subst r. subst pre post prompts.
  cbn [LlamaUnlearningEngine.Result.preUnlearning
       LlamaUnlearningEngine.Result.postUnlearning
       LlamaUnlearningEngine.Result.error LlamaUnlearningEngine.Result.leakScore].
  destruct (runTestPrompts_shape _ _ _ _ _ Hpre) as [Lpre Ppre].
  destruct (runTestPrompts_shape _ _ _ _ _ Hpost) as [Lpost Ppost].
  split.
  { destruct (allWhiteSpace _) eqn:E; [|reflexivity].
    apply trim_falsy in E. rewrite Htarget in E. discriminate E. }
  repeat (split; [assumption || reflexivity|]).
  assert (post0 <> []) as Hne by (intros ->; discriminate Lpost).
  destruct (scorer_values pre0 post0 Hne) as (l & _ & _ & Hl & _ & _ & El & _ & _).
  destruct (engine_scorer_agrees pre0 post0) as (-> & _ & _).
  rewrite Hl. cbn [num_eq le].
  assert (List.length post0 <> 0) as Hn by (rewrite Lpost; discriminate).
  destruct (quotient_bounds _ _ (leakCount_le post0) Hn) as [B0 B1].
  split; [|split].
  - rewrite El, Lpost. apply Qeq_refl.
  - rewrite El. exact B0.
  - rewrite El. exact B1.
Qed.

(** X11.  A run that reports [success = true] reports the same number as the
    original and as the modified model size: the size of the local model
    file, or 1000000000 when there is no file or the file is empty. *)
Theorem completed_run_sizes this config onProgress w r w' :
  LlamaUnlearningEngine.performWhiteBoxUnlearning this config onProgress w
  = (Normal r, w') ->
  LlamaUnlearningEngine.Result.success r = true ->
  LlamaUnlearningEngine.Result.modifiedModelSize r
  = LlamaUnlearningEngine.Result.originalModelSize r /\
  LlamaUnlearningEngine.Result.originalModelSize r
  = match LlamaUnlearningEngine.modelFile config with
    | Some file => if (Js.size file =? 0)%N then 1000000000%N else Js.size file
    | None => 1000000000%N
    end.
Proof.
  intros Hrun Hsuccess.
  pose proof (performWhiteBoxUnlearning_success _ _ _ _ _ _ Hrun Hsuccess) as Hsteps.
  apply whiteBoxSteps_normal in Hsteps.
  destruct Hsteps as (_ & analysis & pre0 & post0 & embedding & changes
                      & wPre & wPre' & wEmb & wEmb' & wApp & wApp' & wPost & wPost' & now
                      & _ & _ & _ & _ & Hanalysis & ->).
  cbn [LlamaUnlearningEngine.Result.modifiedModelSize
       LlamaUnlearningEngine.Result.originalModelSize].
  split; [reflexivity|].
  destruct (LlamaUnlearningEngine.modelFile config) as [file|].
  - destruct Hanalysis as (wf & wf' & a & Ha & ->).
    unfold LlamaUnlearningEngine.sizeOr.
    now rewrite (analyzeModelFile_size _ _ _ _ Ha).
  - destruct Hanalysis as (-> & _). reflexivity.
Qed.

(** X12.  A run that reports [success = true] reports as [tokensModified]
    the number of space-separated pieces of the target text, one more than
    its spaces, times 3 for weight surgery, 2 for gradient ascent and 1 for
    embedding removal: the count does not depend on the model or on any
    answer. *)
Theorem completed_run_tokens this config onProgress w r w' :
  LlamaUnlearningEngine.performWhiteBoxUnlearning this config onProgress w
  = (Normal r, w') ->
  LlamaUnlearningEngine.Result.success r = true ->
  LlamaUnlearningEngine.tokensModified (LlamaUnlearningEngine.Result.embeddingChanges r)
  = S (occurrences " " (LlamaUnlearningEngine.targetText config))
    * tokensPerWord (LlamaUnlearningEngine.unlearningMethod config).
Proof.
  intros Hrun Hsuccess.
  pose proof (performWhiteBoxUnlearning_success _ _ _ _ _ _ Hrun Hsuccess) as Hsteps.
  apply whiteBoxSteps_normal in Hsteps.
  destruct Hsteps as (_ & analysis & pre0 & post0 & embedding & changes
                      & wPre & wPre' & wEmb & wEmb' & wApp & wApp' & wPost & wPost' & now
                      & _ & Hemb & Happ & _ & _ & ->).
  cbn [LlamaUnlearningEngine.Result.embeddingChanges].
  destruct (analyzeTargetEmbeddings_returns config wEmb) as (e0 & w0 & He & Hlen & _).
  rewrite Hemb in He. injection He as <- _.
  destruct (applyUnlearningMethod_returns config embedding wApp) as (c0 & Hc & Htok).
  rewrite Happ in Hc. injection Hc as <- _.
  now rewrite Htok, Hlen.
Qed.

Section CompletedRunExample.

Import LlamaUnlearningEngine.

(** A run on a local model file, simulated from end to end. *)
Lemma simulated_run_completes :
  exists r w',
    performWhiteBoxUnlearning (construct None)
      (mkConfig (Some (mkFile "Model.GGUF" 0)) None None "the Eiffel Tower"
         gradient_ascent)
      true (mkWorld [] [] [] [] [0%Z; 17500%Z])
    = (Normal r, w') /\
    Result.success r = true.
Proof. vm_compute. do 2 eexists. split; reflexivity. Qed.

End CompletedRunExample.

Lemma completed_run_results_witness :
  exists r w',
    LlamaUnlearningEngine.performWhiteBoxUnlearning
      (LlamaUnlearningEngine.construct None)
      (LlamaUnlearningEngine.mkConfig (Some (mkFile "Model.GGUF" 0)) None None
         "the Eiffel Tower" LlamaUnlearningEngine.gradient_ascent)
      true (mkWorld [] [] [] [] [0%Z; 17500%Z])
    = (Normal r, w') /\
    List.length (LlamaUnlearningEngine.Result.postUnlearning r) = 5 /\
    le (LlamaUnlearningEngine.Result.leakScore r) (Fin 1).
Proof.
  destruct simulated_run_completes as (r & w' & Hrun & Hs).
  exists r, w'. split; [exact Hrun|].
  destruct (completed_run_results _ _ _ _ _ _ Hrun Hs)
    as (_ & _ & _ & _ & Hlen & _ & _ & _ & Hle).
  split; [exact Hlen | exact Hle].
Defined.

Lemma completed_run_sizes_witness :
  exists r w',
    LlamaUnlearningEngine.performWhiteBoxUnlearning
      (LlamaUnlearningEngine.construct None)
      (LlamaUnlearningEngine.mkConfig (Some (mkFile "Model.GGUF" 0)) None None
         "the Eiffel Tower" LlamaUnlearningEngine.gradient_ascent)
      true (mkWorld [] [] [] [] [0%Z; 17500%Z])
    = (Normal r, w') /\
    LlamaUnlearningEngine.Result.modifiedModelSize r = 1000000000%N.
Proof.
  destruct simulated_run_completes as (r & w' & Hrun & Hs).
  exists r, w'. split; [exact Hrun|].
  destruct (completed_run_sizes _ _ _ _ _ _ Hrun Hs) as (-> & ->). reflexivity.
Defined.

Lemma completed_run_tokens_witness :
  exists r w',
    LlamaUnlearningEngine.performWhiteBoxUnlearning
      (LlamaUnlearningEngine.construct None)
      (LlamaUnlearningEngine.mkConfig (Some (mkFile "Model.GGUF" 0)) None None
         "the Eiffel Tower" LlamaUnlearningEngine.gradient_ascent)
      true (mkWorld [] [] [] [] [0%Z; 17500%Z])
    = (Normal r, w') /\
    LlamaUnlearningEngine.tokensModified
      (LlamaUnlearningEngine.Result.embeddingChanges r) = 6.
Proof.
  destruct simulated_run_completes as (r & w' & Hrun & Hs).
  exists r, w'. split; [exact Hrun|].
  rewrite (completed_run_tokens _ _ _ _ _ _ Hrun Hs). reflexivity.
Defined.

(* ===================================================================== *)
(** ** Configurations the run refuses *)
(* ===================================================================== *)

(** X13.  With a usable target but neither a model file nor a token in the
    configuration, the run returns the failure record "Either model file or
    Hugging Face token is required"; it has made no fetch, read no file and
    set no timer. *)
Theorem run_needs_model_or_token this config onProgress w :
  allWhiteSpace (LlamaUnlearningEngine.targetText config) = false ->
  LlamaUnlearningEngine.modelFile config = None ->
  optTruthy (LlamaUnlearningEngine.huggingFaceToken config) = false ->
  LlamaUnlearningEngine.performWhiteBoxUnlearning this config onProgress w
  = (Normal (LlamaUnlearningEngine.failure
               (newError "Either model file or Hugging Face token is required")),
     mkWorld (trace w ++ if onProgress
                         then [EvProgress 5 "Validating configuration..."]
                         else [])%list
             (fetches w) (fileReads w) (randoms w) (List.tl (clock w))).
Proof.
  intros Htarget Hfile Htoken.
  assert (negb (truthy (trim (LlamaUnlearningEngine.targetText config))) = false) as Hv.
  { destruct (negb _) eqn:E; [|reflexivity].
    apply trim_falsy in E. congruence. }
  unfold LlamaUnlearningEngine.performWhiteBoxUnlearning,
    LlamaUnlearningEngine.whiteBoxSteps, bind, tryCatch, dateNow.
  rewrite Hv, Hfile, Htoken.
  destruct onProgress; cbv [report emit ret throw]; cbn [trace fetches fileReads randoms clock];
    rewrite ?app_nil_r; reflexivity.
Qed.

Lemma run_needs_model_or_token_witness :
  exists w',
    LlamaUnlearningEngine.performWhiteBoxUnlearning
      (LlamaUnlearningEngine.construct (Some "hf_token"))
      (LlamaUnlearningEngine.mkConfig None (Some "") None "Eiffel Tower"
         LlamaUnlearningEngine.weight_surgery)
      false (mkWorld [] [] [] [] [])
    = (Normal (LlamaUnlearningEngine.failure
                 (newError "Either model file or Hugging Face token is required")),
       w').
Proof.
  eexists.
  exact (run_needs_model_or_token
           (LlamaUnlearningEngine.construct (Some "hf_token"))
           (LlamaUnlearningEngine.mkConfig None (Some "") None "Eiffel Tower"
              LlamaUnlearningEngine.weight_surgery)
           false (mkWorld [] [] [] [] []) eq_refl eq_refl eq_refl).
Defined.

(** X14.  The token the run validates is the engine's, trimmed by the
    constructor, not the configuration's: with no model file and a token in
    the configuration, an engine built without a token, or with an empty or
    whitespace-only one, makes the run fail with "Hugging Face token is
    required" before any fetch. *)
Theorem run_needs_engine_token token config onProgress w :
  allWhiteSpace (LlamaUnlearningEngine.targetText config) = false ->
  LlamaUnlearningEngine.modelFile config = None ->
  optTruthy (LlamaUnlearningEngine.huggingFaceToken config) = true ->
  match token with Some t => allWhiteSpace t | None => true end = true ->
  LlamaUnlearningEngine.performWhiteBoxUnlearning
    (LlamaUnlearningEngine.construct token) config onProgress w
  = (Normal (LlamaUnlearningEngine.failure (newError "Hugging Face token is required")),
     mkWorld (trace w ++ if onProgress
                         then [EvProgress 5 "Validating configuration...";
                               EvProgress 10 "Validating Hugging Face access..."]
                         else [])%list
             (fetches w) (fileReads w) (randoms w) (List.tl (clock w))).
Proof.
  intros Htarget Hfile Hconfig Hengine.
  assert (negb (truthy (trim (LlamaUnlearningEngine.targetText config))) = false) as Hv.
  { destruct (negb _) eqn:E; [|reflexivity].
    apply trim_falsy in E. congruence. }
  assert (optTruthy (LlamaUnlearningEngine.this_huggingFaceToken
                       (LlamaUnlearningEngine.construct token)) = false) as Ht.
  { destruct token as [t|]; [|reflexivity]. cbn.
    apply trim_falsy in Hengine. now apply negb_true_iff in Hengine. }
  unfold LlamaUnlearningEngine.performWhiteBoxUnlearning,
    LlamaUnlearningEngine.whiteBoxSteps, bind, tryCatch, dateNow.
  rewrite Hv, Hfile, Hconfig.
  unfold LlamaUnlearningEngine.validateHuggingFaceToken. rewrite Ht.
  destruct onProgress; cbv [report emit ret throw negb];
    cbn [trace fetches fileReads randoms clock
         LlamaUnlearningEngine.Validation.valid LlamaUnlearningEngine.Validation.error
         orElse truthy negb];
    rewrite <- ?app_assoc, ?app_nil_r; reflexivity.
Qed.

Lemma run_needs_engine_token_witness :
  exists w',
    LlamaUnlearningEngine.performWhiteBoxUnlearning
      (LlamaUnlearningEngine.construct (Some "  "))
      (LlamaUnlearningEngine.mkConfig None (Some "hf_token") None "Eiffel Tower"
         LlamaUnlearningEngine.weight_surgery)
      true (mkWorld [] [Throw (NonError "unreachable")] [] [] [])
    = (Normal (LlamaUnlearningEngine.failure
                 (newError "Hugging Face token is required")), w') /\
    fetches w' = [Throw (NonError "unreachable")].
Proof.
  eexists. split.
  - exact (run_needs_engine_token (Some "  ")
             (LlamaUnlearningEngine.mkConfig None (Some "hf_token") None "Eiffel Tower"
                LlamaUnlearningEngine.weight_surgery)
             true (mkWorld [] [Throw (NonError "unreachable")] [] [] [])
             eq_refl eq_refl eq_refl eq_refl).
  - reflexivity.
Defined.

(* ===================================================================== *)
(** ** More on the scorer *)
(* ===================================================================== *)

Section ScorerFacts.

Lemma leakCount_Permutation (l l' : list ProbeResult) :
  Permutation l l' -> leakCount l = leakCount l'.
Proof.
  unfold leakCount. induction 1 as [|x l l' _ IH|x y l|l l' l'' _ IH1 _ IH2]; simpl.
  - reflexivity.
  - destruct (containsTarget x); simpl; now rewrite IH.
  - destruct (containsTarget x), (containsTarget y); reflexivity.
  - now rewrite IH1.
Qed.

Lemma rate_sign (p q : nat) :
  ((p <= q)%nat -> (Spec.suppressionRate p q <= 0)%Q) /\
  ((q < p)%nat -> (0 < Spec.suppressionRate p q)%Q).
Proof.
  unfold Spec.suppressionRate. split; intros H.
  - apply Qle_shift_div_r; [apply max_count_one_pos|]. rewrite Qmult_0_l.
    unfold Qminus. rewrite <- inject_Z_opp, <- inject_Z_plus.
    change 0%Q with (inject_Z 0). rewrite <- Zle_Qle. lia.
  - apply Qlt_shift_div_l; [apply max_count_one_pos|]. rewrite Qmult_0_l.
    unfold Qminus. rewrite <- inject_Z_opp, <- inject_Z_plus.
    change 0%Q with (inject_Z 0). rewrite <- Zlt_Qlt. lia.
Qed.

End ScorerFacts.

(** X15.  The scorer does not look at the order of the results: permuting
    the pre set and the post set leaves all six metrics unchanged. *)
Theorem scorer_ignores_order (pre pre' post post' : list ProbeResult) :
  Permutation pre pre' -> Permutation post post' ->
  JobStatus.calculateSuppressionMetrics pre post
  = JobStatus.calculateSuppressionMetrics pre' post' /\
  LlamaUnlearningEngine.calculateSuppressionMetrics pre post
  = LlamaUnlearningEngine.calculateSuppressionMetrics pre' post'.
Proof.
  intros Hpre Hpost.
  unfold JobStatus.calculateSuppressionMetrics,
    LlamaUnlearningEngine.calculateSuppressionMetrics.
  rewrite (leakCount_Permutation _ _ Hpre), (leakCount_Permutation _ _ Hpost),
    (Permutation_length Hpost).
  split; reflexivity.
Qed.

Lemma scorer_ignores_order_witness :
  let leaked := mkProbe "p" "r" true (Fin 1) in
  let clean := mkProbe "q" "s" false (Fin 0) in
  JobStatus.calculateSuppressionMetrics [leaked; clean] [clean; leaked; clean]
  = JobStatus.calculateSuppressionMetrics [clean; leaked] [leaked; clean; clean].
Proof.
  intros leaked clean.
  refine (proj1 (scorer_ignores_order _ _ _ _ _ _)).
  - apply perm_swap.
  - apply perm_swap.
Defined.

(** X16.  The improvement hides every regression: when at least as many
    post results leak as pre results, the improvement is 0, although the
    suppression rate is then zero or negative; when fewer leak, the
    improvement is the suppression rate, and positive.  This holds for an
    empty post set too. *)
Theorem improvement_masks_regression (pre post : list ProbeResult) :
  let m := JobStatus.calculateSuppressionMetrics pre post in
  (leakCount pre <= leakCount post ->
   num_eq (JobStatus.improvement m) (Fin 0) /\
   le (JobStatus.suppressionRate m) (Fin 0)) /\
  (leakCount post < leakCount pre ->
   JobStatus.improvement m = JobStatus.suppressionRate m /\
   lt (Fin 0) (JobStatus.improvement m) = true).
Proof.
  intros m. unfold m, JobStatus.calculateSuppressionMetrics.
  cbn [JobStatus.improvement JobStatus.suppressionRate].
  destruct (rate_of_counts (leakCount pre) (leakCount post)) as (r & -> & Hr).
  destruct (rate_sign (leakCount pre) (leakCount post)) as [Hneg Hpos].
  split; intros H.
  - specialize (Hneg H). rewrite <- Hr in Hneg. cbn [le max num_eq]. split; [|exact Hneg].
    destruct (Qle_bool 0 r) eqn:E; cbn [num_eq]; [|reflexivity].
    apply Qle_bool_iff in E. now apply Qle_antisym.
  - specialize (Hpos H). rewrite <- Hr in Hpos. cbn [max].
    assert (Qle_bool 0 r = true) as -> by (apply Qle_bool_iff; now apply Qlt_le_weak).
    split; [reflexivity|]. unfold lt. now apply gt_Fin.
Qed.

Lemma improvement_masks_regression_witness :
  let leaked := mkProbe "p" "r" true (Fin 1) in
  let clean := mkProbe "p" "r" false (Fin 0) in
  let m := JobStatus.calculateSuppressionMetrics [clean; leaked] [leaked; leaked] in
  num_eq (JobStatus.improvement m) (Fin 0) /\ le (JobStatus.suppressionRate m) (Fin 0).
Proof.
  intros leaked clean m.
  apply (proj1 (improvement_masks_regression [clean; leaked] [leaked; leaked])).
  cbn. lia.
Defined.

(** X17.  For a non-empty post set the leak score is 0 exactly when no post
    result leaked and 1 exactly when all of them did; the suppression rate is
    1 exactly when some pre result leaked and no post result did. *)
Theorem scorer_extremes (pre post : list ProbeResult) :
  post <> [] ->
  let m := JobStatus.calculateSuppressionMetrics pre post in
  (num_eq (JobStatus.leakScore m) (Fin 0) <-> leakCount post = 0) /\
  (num_eq (JobStatus.leakScore m) (Fin 1) <-> leakCount post = List.length post) /\
  (num_eq (JobStatus.suppressionRate m) (Fin 1) <->
   leakCount pre <> 0 /\ leakCount post = 0).
Proof.
  intros Hpost m.
  destruct (scorer_values pre post Hpost) as (l & r & i & Hl & Hr & _ & El & Er & _).
  fold m in Hl, Hr. rewrite Hl, Hr. cbn [num_eq]. rewrite El, Er.
  assert (List.length post <> 0) as Hn by (destruct post; [now elim Hpost | discriminate]).
  unfold Spec.leakScore, Spec.suppressionRate.
  set (n := List.length post) in *. set (q := leakCount post). set (p := leakCount pre).
  assert (~ inject_Z (Z.of_nat n) == 0)%Q as Hn0.
  { unfold Qeq. simpl. lia. }
  assert (~ inject_Z (Z.max (Z.of_nat p) 1) == 0)%Q as Hd0.
  { unfold Qeq. simpl. lia. }
  repeat split.
  - intros H.
    assert (inject_Z (Z.of_nat q) == 0 * inject_Z (Z.of_nat n))%Q as H'.
    { rewrite <- H. field. exact Hn0. }
    rewrite Qmult_0_l in H'. unfold Qeq in H'. simpl in H'. lia.
  - intros ->. simpl. unfold Qdiv. now rewrite Qmult_0_l.
  - intros H.
    assert (inject_Z (Z.of_nat q) == 1 * inject_Z (Z.of_nat n))%Q as H'.
    { rewrite <- H. field. exact Hn0. }
    rewrite Qmult_1_l in H'. unfold Qeq in H'. simpl in H'. lia.
  - intros ->. apply Qmult_inv_r. exact Hn0.
  - assert (inject_Z (Z.of_nat p) - inject_Z (Z.of_nat q)
            == 1 * inject_Z (Z.max (Z.of_nat p) 1))%Q as H'.
    { rewrite <- H. field. exact Hd0. }
    rewrite Qmult_1_l in H'. unfold Qminus in H'.
    rewrite <- inject_Z_opp, <- inject_Z_plus in H'.
    unfold Qeq in H'. cbn [Qnum Qden inject_Z] in H'. lia.
  - assert (inject_Z (Z.of_nat p) - inject_Z (Z.of_nat q)
            == 1 * inject_Z (Z.max (Z.of_nat p) 1))%Q as H'.
    { rewrite <- H. field. exact Hd0. }
    rewrite Qmult_1_l in H'. unfold Qminus in H'.
    rewrite <- inject_Z_opp, <- inject_Z_plus in H'.
    unfold Qeq in H'. cbn [Qnum Qden inject_Z] in H'. lia.
  - intros [Hp Hq]. rewrite Hq. unfold Qminus. simpl (inject_Z (Z.of_nat 0)).
    replace (Z.max (Z.of_nat p) 1) with (Z.of_nat p) by lia.
    setoid_replace (inject_Z (Z.of_nat p) + - 0)%Q with (inject_Z (Z.of_nat p)) by ring.
    apply Qmult_inv_r. unfold Qeq. simpl. lia.
Qed.

Lemma scorer_extremes_witness :
  let leaked := mkProbe "p" "r" true (Fin 1) in
  let clean := mkProbe "p" "r" false (Fin 0) in
  let m := JobStatus.calculateSuppressionMetrics [leaked; clean] [clean; clean] in
  num_eq (JobStatus.leakScore m) (Fin 0) /\ num_eq (JobStatus.suppressionRate m) (Fin 1).
Proof.
  intros leaked clean m.
  destruct (scorer_extremes [leaked; clean] [clean; clean]) as (H0 & _ & H1);
    [discriminate|].
  split; [apply H0; reflexivity | apply H1; split; [discriminate | reflexivity]].
Defined.

(* ===================================================================== *)
(** ** The processors of the edge function *)
(* ===================================================================== *)

(** X18.  [estimateLayers] never answers 46: a model name that contains
    "27b" contains "7b", which is tested first, so such a model is given 32
    layers, and the answers are 32, 40, 42 and 80 only. *)
Theorem estimateLayers_never_46 (this : JobStatus.HuggingFaceModelProcessor) :
  ProcessModel.estimateLayers this <> 46 /\
  In (ProcessModel.estimateLayers this) [32; 40; 42; 80] /\
  (includes (toLowerCase (JobStatus.modelName this)) "27b" = true ->
   ProcessModel.estimateLayers this = 32).
Proof.
  unfold ProcessModel.estimateLayers.
  set (name := toLowerCase (JobStatus.modelName this)).
  assert (includes name "27b" = true -> includes name "7b" = true) as H27.
  { intros H. apply (includes_trans name "27b" "7b" H). reflexivity. }
  destruct (includes name "7b") eqn:E7.
  - repeat split; [discriminate | simpl; auto].
  - assert (includes name "27b" = false) as ->.
    { destruct (includes name "27b"); [|reflexivity]. now specialize (H27 eq_refl). }
    split; [|split; [|discriminate]];
      destruct (includes name "12b"), (includes name "13b"), (includes name "9b"),
        (includes name "70b"); simpl; auto; discriminate.
Qed.

Lemma estimateLayers_never_46_witness :
  ProcessModel.estimateLayers (JobStatus.mkProcessor "t" "google/Gemma-2-27B-it") = 32.
Proof.
  apply (proj2 (proj2 (estimateLayers_never_46
                         (JobStatus.mkProcessor "t" "google/Gemma-2-27B-it")))).
  vm_compute. reflexivity.
Defined.

(** X19.  [LocalModelProcessor.runTests] never consults the detector and
    never throws.  In the pre phase all five results are marked as leaking.
    In the post phase the response and the verdict of a result come from two
    separate random draws, the first and the second of the three the result
    takes: the response is the refusal when the first exceeds 0.3 and
    mentions the target otherwise, the verdict is whether the second is
    below 0.3, and the confidence is the third.  The loop makes no fetch. *)
Theorem local_processor_results (targetText : string) (w : World) :
  let prompts := JobStatus.localTestPrompts targetText in
  let draw k := List.nth k (randoms w) 0%Q in
  (exists w',
      ProcessModel.LocalModelProcessor.runTests targetText Pre w
      = (Normal
           (map (fun i =>
                   mkProbe (List.nth i prompts "")
                     (targetText ++ " is a known entity. Here are details about "
                        ++ targetText ++ "...")
                     true (Fin (draw i)))
                (seq 0 5)), w') /\
      fetches w' = fetches w /\ randoms w' = skipn 5 (randoms w)) /\
  (exists w',
      ProcessModel.LocalModelProcessor.runTests targetText Post w
      = (Normal
           (map (fun i =>
                   mkProbe (List.nth i prompts "")
                     (if negb (Qle_bool (draw (3 * i)) ProcessModel.literal_0_3)
                      then "I don't have specific information about that topic."
                      else targetText ++ " was mentioned but I cannot provide details.")
                     (negb (Qle_bool ProcessModel.literal_0_3 (draw (3 * i + 1))))
                     (Fin (draw (3 * i + 2))))
                (seq 0 5)), w') /\
      fetches w' = fetches w /\ randoms w' = skipn 15 (randoms w)).
Proof.
  intros prompts draw. subst prompts draw.
  destruct w as [t f fr rs c]. cbn [randoms fetches].
  split.
  - exists (mkWorld (((((t ++ [EvTimeout 1000]) ++ [EvTimeout 1000]) ++ [EvTimeout 1000]) ++ [EvTimeout 1000]) ++ [EvTimeout 1000])%list f fr (skipn 5 rs) c).
    split; [|split; reflexivity].
    do 5 (destruct rs as [|? rs]; [vm_compute; reflexivity|]).
    vm_compute; reflexivity.
  - exists (mkWorld (((((t ++ [EvTimeout 1000]) ++ [EvTimeout 1000]) ++ [EvTimeout 1000]) ++ [EvTimeout 1000]) ++ [EvTimeout 1000])%list f fr (skipn 15 rs) c).
    split; [|split; reflexivity].
    do 15 (destruct rs as [|? rs]; [vm_compute; reflexivity|]).
    vm_compute; reflexivity.
Qed.

(* ===================================================================== *)
(** ** The job store *)
(* ===================================================================== *)

Section StoreFacts.

Import JobStore.

Lemma getField_setField_same key v fields : getField key (setField key v fields) = Some v.
Proof.
  induction fields as [|[k x] rest IH]; simpl.
  - now rewrite String.eqb_refl.
  - destruct (String.eqb k key) eqn:E; simpl; rewrite E; [reflexivity | exact IH].
Qed.

Lemma getField_setField_other key key' v fields :
  key <> key' -> getField key' (setField key v fields) = getField key' fields.
Proof.
  intros Hne. induction fields as [|[k x] rest IH]; simpl.
  - destruct (String.eqb key key') eqn:E; [|reflexivity].
    apply String.eqb_eq in E. contradiction.
  - destruct (String.eqb k key) eqn:E; simpl.
    + apply String.eqb_eq in E. subst k.
      destruct (String.eqb key key') eqn:E'; [|reflexivity].
      apply String.eqb_eq in E'. contradiction.
    + destruct (String.eqb k key'); [reflexivity | exact IH].
Qed.

Lemma getField_absent key (fields : list (string * Json)) :
  ~ In key (map fst fields) -> getField key fields = None.
Proof.
  induction fields as [|[k x] rest IH]; simpl; [reflexivity|].
  intros H. destruct (String.eqb k key) eqn:E.
  - apply String.eqb_eq in E. elim H. now left.
  - apply IH. intros Hin. apply H. now right.
Qed.

(** Reading a property after a spread onto an object. *)
Lemma getField_assign key target source :
  NoDup (map fst source) ->
  getField key (assign target source)
  = match getField key source with
    | Some v => Some v
    | None => getField key target
    end.
Proof.
  unfold assign. revert target.
  induction source as [|[k x] rest IH]; intros target Hnd; simpl; [reflexivity|].
  inversion Hnd as [|? ? Hnotin Hnd']; subst.
  rewrite (IH _ Hnd'). destruct (String.eqb k key) eqn:E.
  - apply String.eqb_eq in E. subst k.
    rewrite (getField_absent _ _ Hnotin). apply getField_setField_same.
  - destruct (getField key rest); [reflexivity|].
    apply getField_setField_other. intros ->. now rewrite String.eqb_refl in E.
Qed.

End StoreFacts.

(** X20.  Getting a job id after posting an object to it answers 200 with
    the record of that post, whatever the store held and whatever the post
    was answered: the [lastUpdated] of the record is the time of the post,
    every other property of the posted object is there with its value, and
    [jobId] is the job id of the URL unless the posted object has a [jobId]
    of its own, which then replaces it.  The post itself is answered 200 when
    the [status] and the [progress] of the posted object convert to text for
    the log line, and 400 when one of them does not, the record being stored
    all the same. *)
Theorem post_then_get (toISOString : Z -> string)
  (id : string) (fields : list (string * Json)) (store : JobStore.Store) (w : World) :
  truthy id = true ->
  NoDup (map fst fields) ->
  let post := JobStore.mkRequest "POST" (Some id) (Normal (JObject fields)) in
  let get := JobStore.mkRequest "GET" (Some id) (Throw (NonError "no body")) in
  let '(posted, store', w') := JobStore.serve toISOString post store w in
  let '(got, store'', w'') := JobStore.serve toISOString get store' w' in
  ProcessModel.status posted
  = (if interpolates (getField "status" fields)
        && interpolates (getField "progress" fields)
     then 200 else 400) /\
  ProcessModel.status got = 200 /\
  store'' = store' /\ w'' = w' /\
  exists properties,
    ProcessModel.body got = JObject properties /\
    getField "lastUpdated" properties
    = Some (JString (toISOString (List.hd 0%Z (clock w)))) /\
    forall key,
      key <> "lastUpdated" ->
      getField key properties
      = match getField key fields with
        | Some v => Some v
        | None => if String.eqb key "jobId" then Some (JString id) else None
        end.
Proof.
  intros Hid Hnd. cbv zeta.
  unfold JobStore.serve. cbn [JobStore.method JobStore.jobId JobStore.json String.eqb
                               Ascii.eqb Bool.eqb optTruthy orElse negb].
  rewrite Hid. cbn [negb JobStore.logs].
  destruct (interpolates (getField "status" fields)
            && interpolates (getField "progress" fields));
    unfold JobStore.get, JobStore.set; rewrite getField_setField_same;
    cbn [JobStore.record jsonTruthy ProcessModel.status ProcessModel.body
         ProcessModel.errorReply];
    (repeat split);
    (eexists; split; [reflexivity|]; split; [apply getField_setField_same|]);
    intros key Hkey;
    (rewrite getField_setField_other by (intros H; apply Hkey; now symmetry));
    cbn [JobStore.spreadProps]; rewrite (getField_assign _ _ _ Hnd);
    (destruct (getField key fields); [reflexivity|]);
    cbn [getField]; rewrite String.eqb_sym; reflexivity.
Qed.

(** The posted [status] has a [toString] of its own: the post is answered
    400, and the record is there. *)
Lemma post_then_get_witness :
  let toISOString := fun _ : Z => "2025-01-01T00:00:00.000Z" in
  let store := [("job_1", JObject [("jobId", JString "job_1"); ("status", JString "old")])] in
  let w := mkWorld [] [] [] [] [1735689600000%Z] in
  let '(posted, store', w') :=
    JobStore.serve toISOString
      (JobStore.mkRequest "POST" (Some "job_1")
         (Normal (JObject [("status", JObject [("toString", JNumber 1)])]))) store w in
  let '(got, _, _) :=
    JobStore.serve toISOString
      (JobStore.mkRequest "GET" (Some "job_1") (Throw (NonError "no body"))) store' w' in
  ProcessModel.status posted = 400 /\
  ProcessModel.status got = 200 /\
  ProcessModel.body got
  = JObject [("jobId", JString "job_1");
             ("status", JObject [("toString", JNumber 1)]);
             ("lastUpdated", JString "2025-01-01T00:00:00.000Z")].
Proof.
  pose proof (post_then_get (fun _ : Z => "2025-01-01T00:00:00.000Z") "job_1"
                [("status", JObject [("toString", JNumber 1)])]
                [("job_1", JObject [("jobId", JString "job_1"); ("status", JString "old")])]
                (mkWorld [] [] [] [] [1735689600000%Z]) eq_refl
                ltac:(repeat constructor; simpl; tauto)) as H.
  cbv zeta in H |- *.
  destruct (JobStore.serve _ _ _ _) as [[posted store'] w'] eqn:E1 in H |- *.
  destruct (JobStore.serve _ _ store' w') as [[got store''] w''] eqn:E2 in H |- *.
  destruct H as (Hp & Hs & _). split; [exact Hp|]. split; [exact Hs|].
  vm_compute in E1. injection E1 as <- <- <-.
  vm_compute in E2. injection E2 as <- _ _. reflexivity.
Defined.

(** X21.  The job-status handler answers 200, 400 or 404 only.  A request
    other than a POST leaves the store and the world as they were; a POST
    leaves every other job's record as it was.  Without a [jobId] parameter,
    or with an empty one, every method but OPTIONS is answered 400 "Job ID
    is required". *)
Theorem job_store_frame (toISOString : Z -> string)
  (req : JobStore.Request) (store : JobStore.Store) (w : World) :
  let '(reply, store', w') := JobStore.serve toISOString req store w in
  In (ProcessModel.status reply) [200; 400; 404] /\
  (JobStore.method req <> "POST" -> store' = store /\ w' = w) /\
  (forall other,
      other <> orElse (JobStore.jobId req) "" ->
      JobStore.get other store' = JobStore.get other store) /\
  (JobStore.method req <> "OPTIONS" -> optTruthy (JobStore.jobId req) = false ->
   reply = ProcessModel.errorReply (newError "Job ID is required") /\ store' = store).
Proof.
  unfold JobStore.serve.
  destruct (String.eqb (JobStore.method req) "OPTIONS") eqn:Eo.
  { apply String.eqb_eq in Eo.
    repeat split; simpl; intros; auto; congruence. }
  destruct (optTruthy (JobStore.jobId req)) eqn:Eid; cbn [negb].
  2:{ repeat split; simpl; intros; auto. }
  destruct (String.eqb (JobStore.method req) "GET") eqn:Eg.
  { destruct (JobStore.get _ store) as [jobData|]; [destruct (jsonTruthy jobData)|];
      repeat split; simpl; intros; auto; congruence. }
  destruct (String.eqb (JobStore.method req) "POST") eqn:Ep.
  2:{ repeat split; simpl; intros; auto; congruence. }
  apply String.eqb_eq in Ep.
  destruct (JobStore.json req) as [updateData|e].
  2:{ repeat split; simpl; intros; auto; congruence. }
  assert (forall other,
             other <> orElse (JobStore.jobId req) "" ->
             JobStore.get other
               (JobStore.set (orElse (JobStore.jobId req) "")
                  (JobStore.record toISOString (orElse (JobStore.jobId req) "")
                     updateData (List.hd 0%Z (clock w))) store)
             = JobStore.get other store) as Hframe.
  { intros other Hne. unfold JobStore.get, JobStore.set.
    apply getField_setField_other. intros H. apply Hne. now symmetry. }
  destruct updateData; try destruct (JobStore.logs _);
    repeat split; simpl; intros; auto; congruence.
Qed.

(** X22.  A POST whose body is the JSON value [null] is answered 400, with
    the type error of reading [status] of [null], but the store has been
    written before: the job's record is replaced by one that holds the
    [jobId] and [lastUpdated] only. *)
Theorem null_update_is_stored (toISOString : Z -> string)
  (id : string) (store : JobStore.Store) (w : World) :
  truthy id = true ->
  let post := JobStore.mkRequest "POST" (Some id) (Normal JNull) in
  let '(reply, store', w') := JobStore.serve toISOString post store w in
  reply = ProcessModel.errorReply
            (ErrorObj "TypeError" "Cannot read properties of null (reading 'status')") /\
  ProcessModel.status reply = 400 /\
  JobStore.get id store'
  = Some (JObject [ ("jobId", JString id);
                    ("lastUpdated", JString (toISOString (List.hd 0%Z (clock w)))) ]).
Proof.
  intros Hid. cbv zeta. unfold JobStore.serve.
  cbn [JobStore.method JobStore.jobId JobStore.json String.eqb Ascii.eqb Bool.eqb
       optTruthy orElse negb].
  rewrite Hid. cbn [negb]. repeat split.
  unfold JobStore.get, JobStore.set. rewrite getField_setField_same. reflexivity.
Qed.

Lemma null_update_is_stored_witness :
  let toISOString := fun _ : Z => "2025-01-01T00:00:00.000Z" in
  let store := [("job_1", JObject [("jobId", JString "job_1"); ("status", JString "completed")])] in
  let '(reply, store', _) :=
    JobStore.serve toISOString
      (JobStore.mkRequest "POST" (Some "job_1") (Normal JNull)) store
      (mkWorld [] [] [] [] []) in
  ProcessModel.status reply = 400 /\
  JobStore.get "job_1" store'
  = Some (JObject [ ("jobId", JString "job_1");
                    ("lastUpdated", JString "2025-01-01T00:00:00.000Z") ]).
Proof.
  pose proof (null_update_is_stored (fun _ : Z => "2025-01-01T00:00:00.000Z") "job_1"
                [("job_1", JObject [("jobId", JString "job_1");
                                    ("status", JString "completed")])]
                (mkWorld [] [] [] [] []) eq_refl) as H.
  cbv zeta in H |- *.
  destruct (JobStore.serve _ _ _ _) as [[reply store'] w'].
  destruct H as (_ & Hs & Hg). split; [exact Hs | exact Hg].
Defined.

(* ===================================================================== *)
(** ** The process-model handler *)
(* ===================================================================== *)

(** X23.  The process-model handler never throws.  It starts the background
    processing exactly when it answers 200 to a request other than OPTIONS,
    and that is exactly when the body parses to an object whose [targetText]
    is a string with a character that is not whitespace and whose [userId]
    is truthy.  When it starts nothing it has read neither the clock nor the
    random generator, so no job id was made. *)
Theorem processing_starts_iff (base36Fraction : Q -> string)
  (method : string) (requestData : Completion Json) (w : World) :
  exists reply started w',
    ProcessModel.serve base36Fraction method requestData w
    = (Normal (reply, started), w') /\
    (started <> None <->
     method <> "OPTIONS" /\
     exists fields target userId,
       requestData = Normal (JObject fields) /\
       getField "targetText" fields = Some (JString target) /\
       allWhiteSpace target = false /\
       getField "userId" fields = Some userId /\ jsonTruthy userId = true) /\
    (started <> None <-> method <> "OPTIONS" /\ ProcessModel.status reply = 200) /\
    (started = None -> w' = w) /\
    (forall data jobId, started = Some (data, jobId) -> requestData = Normal data).
Proof.
  unfold ProcessModel.serve.
  destruct (String.eqb method "OPTIONS") eqn:Eo.
  { apply String.eqb_eq in Eo. cbv [ret]. rejected. }
  assert (method <> "OPTIONS") as Hm.
  { intros ->. discriminate Eo. }
  unfold tryCatch, ProcessModel.accept, bind, settle.
  destruct requestData as [data|e]; [|cbv [ret]; rejected].
  destruct data as [|b|q|s|items|fields];
    try (cbv [LlamaUnlearningEngine.readProperty throw ret truthy negb]; rejected).
  cbv [LlamaUnlearningEngine.readProperty ret].
  destruct (getField "targetText" fields) as [[|b|q|target|items|fields']|] eqn:Et;
    try (cbv [throw ret truthy negb]; rejected).
  cbv [ret].
  destruct (negb (truthy (trim target))) eqn:Eb.
  { cbv [throw]. apply trim_falsy in Eb. rejected. }
  assert (allWhiteSpace target = false) as Hw.
  { destruct (allWhiteSpace target) eqn:E; [|reflexivity].
    apply trim_falsy in E. congruence. }
  destruct (getField "userId" fields) as [userId|] eqn:Eu;
    [destruct (jsonTruthy userId) eqn:Ej|]; try (cbv [throw]; rejected).
  cbv [ret dateNow random]. do 3 eexists. split; [reflexivity|].
  split.
  { split; [intros _ | intros _; discriminate]. split; [exact Hm|].
    exists fields, target, userId. repeat split; assumption. }
  split.
  { split; [intros _; split; [exact Hm | reflexivity] | intros _; discriminate]. }
  split; [discriminate|].
  intros data jobId H. now injection H as <- _.
Qed.

(* ===================================================================== *)
(** ** Polling the job status *)
(* ===================================================================== *)

Section Polling.

Import RealLlamaUnlearningEngine.

Variable baseUrl : string.
Variable showJson : Json -> string.

Lemma nth_tl {T : Type} (i : nat) (l : list T) (d : T) :
  List.nth i (List.tl l) d = List.nth (S i) l d.
Proof. destruct l; destruct i; reflexivity. Qed.

(** The world after one poll. *)
Lemma pollOnce_returns jobId w :
  pollOnce baseUrl showJson jobId w
  = (Normal (if completes (answerAt 0 w) then Some (resultOf (answerAt 0 w)) else None),
     mkWorld (trace w ++ [EvFetch (baseUrl ++ "/job-status?jobId=" ++ jobId) None])%list
             (List.tl (fetches w)) (fileReads w) (randoms w) (clock w)).
Proof.
  unfold pollOnce, tryCatch, bind, fetch, answerAt.
  destruct (fetches w) as [|[response|e] others]; cbn [List.tl List.nth completes resultOf];
    try reflexivity.
  destruct (ok response); cbn [andb]; [|reflexivity].
  unfold settle. destruct (Js.json response) as [data|e]; [|reflexivity].
  destruct data; try reflexivity.
  cbv [LlamaUnlearningEngine.readProperty ret].
  destruct (interpolates (getField "progress" fields)); cbn [andb]; [|reflexivity].
  destruct (isString (getField "status" fields) "completed"); [reflexivity|].
  destruct (isString (getField "status" fields) "failed"); [|reflexivity].
  destruct (stringifies _); reflexivity.
Qed.

(** One turn of the loop on an answer that does not complete. *)
Lemma pollLoop_step fuel jobId start w :
  (List.hd 0%Z (clock w) - start < maxPollTime)%Z ->
  completes (answerAt 0 w) = false ->
  pollLoop baseUrl showJson (S fuel) jobId start w
  = pollLoop baseUrl showJson fuel jobId start
      (mkWorld (trace w ++ [EvFetch (baseUrl ++ "/job-status?jobId=" ++ jobId) None;
                            EvTimeout 2000])%list
               (List.tl (fetches w)) (fileReads w) (randoms w) (List.tl (clock w))).
Proof.
  intros Hnow Hanswer. cbn [pollLoop].
  apply Z.ltb_lt in Hnow. rewrite Hnow, pollOnce_returns.
  unfold answerAt in *. cbn [dateNow snd fetches] in *. rewrite Hanswer.
  cbn [sleep emit snd trace fetches fileReads randoms clock pollInterval].
  now rewrite <- app_assoc.
Qed.

Lemma pollLoop_only_times_out fuel jobId start w e w' :
  pollLoop baseUrl showJson fuel jobId start w = Some (Throw e, w') -> e = timedOut.
Proof.
  revert w. induction fuel as [|fuel IH]; intros w; cbn [pollLoop]; [discriminate|].
  destruct (_ <? _)%Z.
  - rewrite pollOnce_returns. destruct (completes _); [discriminate|]. apply IH.
  - intros H. now injection H as <- _.
Qed.

End Polling.

(** X24.  A job that the backend reports as failed does not make
    [pollJobStatus] fail: the error thrown for it, whatever its message, is
    taken by the [catch] of the loop, and the loop goes on with the next
    poll after the pause, exactly as it does after an answer that is not
    [ok]. *)
Theorem failed_job_keeps_polling (baseUrl : string) (showJson : Json -> string)
  (fuel : nat) (jobId : string) (start : Z) (w : World)
  (response : Response) (others : list (Completion Response))
  (fields : list (string * Json)) :
  (List.hd 0%Z (clock w) - start < RealLlamaUnlearningEngine.maxPollTime)%Z ->
  fetches w = Normal response :: others ->
  ok response = true ->
  Js.json response = Normal (JObject fields) ->
  getField "status" fields = Some (JString "failed") ->
  RealLlamaUnlearningEngine.pollLoop baseUrl showJson (S fuel) jobId start w
  = RealLlamaUnlearningEngine.pollLoop baseUrl showJson fuel jobId start
      (mkWorld (trace w ++ [EvFetch (baseUrl ++ "/job-status?jobId=" ++ jobId) None;
                            EvTimeout 2000])%list
               others (fileReads w) (randoms w) (List.tl (clock w))).
Proof.
  intros Hnow Hfetch Hok Hjson Hstatus.
  rewrite (pollLoop_step baseUrl showJson fuel jobId start w Hnow).
  - now rewrite Hfetch.
  - unfold RealLlamaUnlearningEngine.answerAt. rewrite Hfetch.
    cbn [List.nth RealLlamaUnlearningEngine.completes]. rewrite Hok, Hjson, Hstatus.
    now destruct (interpolates (getField "progress" fields)).
Qed.

Lemma failed_job_keeps_polling_witness :
  let failed :=
    Normal (mkResponse true 200 (Normal "")
              (Normal (JObject [("status", JString "failed");
                                ("message", JString "out of memory")]))) in
  RealLlamaUnlearningEngine.pollJobStatus "https://x/functions/v1" (fun _ => "") 3 "job_1"
    (mkWorld [] [failed] [] [] [0%Z; 1000%Z; 700000%Z])
  = Some (Throw RealLlamaUnlearningEngine.timedOut,
          mkWorld [EvFetch "https://x/functions/v1/job-status?jobId=job_1" None;
                   EvTimeout 2000] [] [] [] []).
Proof.
  intros failed. unfold RealLlamaUnlearningEngine.pollJobStatus.
  cbn [dateNow snd List.hd List.tl clock trace fetches fileReads randoms].
  rewrite (failed_job_keeps_polling "https://x/functions/v1" (fun _ => "") 2 "job_1" 0
             (mkWorld [] [failed] [] [] [1000%Z; 700000%Z])
             (mkResponse true 200 (Normal "")
                (Normal (JObject [("status", JString "failed");
                                  ("message", JString "out of memory")])))
             [] [("status", JString "failed"); ("message", JString "out of memory")]
             eq_refl eq_refl eq_refl eq_refl eq_refl).
  reflexivity.
Defined.

(** X25.  Whatever the backend answers and however long the loop runs, the
    only error [pollJobStatus] throws is the timeout. *)
Theorem poll_only_times_out (baseUrl : string) (showJson : Json -> string)
  (fuel : nat) (jobId : string) (w : World) (e : Thrown) (w' : World) :
  RealLlamaUnlearningEngine.pollJobStatus baseUrl showJson fuel jobId w
  = Some (Throw e, w') ->
  e = newError "Processing timeout - job took longer than expected".
Proof.
  unfold RealLlamaUnlearningEngine.pollJobStatus.
  apply pollLoop_only_times_out.
Qed.

Lemma poll_only_times_out_witness :
  exists w',
    RealLlamaUnlearningEngine.pollJobStatus "https://x/functions/v1" (fun _ => "") 1 "job_1"
      (mkWorld [] [] [] [] [0%Z; 600000%Z])
    = Some (Throw (newError "Processing timeout - job took longer than expected"), w').
Proof.
  destruct (RealLlamaUnlearningEngine.pollJobStatus "https://x/functions/v1"
              (fun _ => "") 1 "job_1" (mkWorld [] [] [] [] [0%Z; 600000%Z]))
    as [[[r|e] w']|] eqn:E; try discriminate E.
  exists w'. now rewrite (poll_only_times_out _ _ _ _ _ _ _ E).
Defined.

Section PollingRounds.

Import RealLlamaUnlearningEngine.

Variable baseUrl : string.
Variable showJson : Json -> string.

(** The world after [n] polls that did not complete, each followed by the
    pause. *)
Lemma pollLoop_rounds n fuel jobId start w :
  (forall i, i < n ->
     (List.nth i (clock w) 0 - start < maxPollTime)%Z /\
     completes (answerAt i w) = false) ->
  pollLoop baseUrl showJson (n + fuel) jobId start w
  = pollLoop baseUrl showJson fuel jobId start
      (mkWorld (trace w ++
                List.concat (List.repeat
                          [EvFetch (baseUrl ++ "/job-status?jobId=" ++ jobId) None;
                           EvTimeout 2000] n))%list
               (skipn n (fetches w)) (fileReads w) (randoms w) (skipn n (clock w))).
Proof.
  revert w. induction n as [|n IH]; intros w Hall.
  - cbn. rewrite app_nil_r. now destruct w.
  - destruct (Hall 0 ltac:(lia)) as [Hnow Hanswer].
    replace (List.nth 0 (clock w) 0%Z) with (List.hd 0%Z (clock w)) in Hnow
      by (destruct (clock w); reflexivity).
    cbn [Nat.add]. rewrite (pollLoop_step baseUrl showJson _ jobId start w Hnow Hanswer).
    rewrite IH.
    + cbn [trace fetches fileReads randoms clock List.repeat List.concat].
      rewrite <- app_assoc. cbn [List.app].
      f_equal. f_equal.
      * destruct (fetches w); [now rewrite skipn_nil | reflexivity].
      * destruct (clock w); [now rewrite skipn_nil | reflexivity].
    + intros i Hi. destruct (Hall (S i) ltac:(lia)) as [Hc Ha].
      unfold answerAt in *. cbn [clock fetches]. rewrite !nth_tl. split; assumption.
Qed.

Lemma hd_skipn {T : Type} (n : nat) (l : list T) (d : T) :
  List.hd d (skipn n l) = List.nth n l d.
Proof.
  revert l. induction n as [|n IH]; intros [|x l]; try reflexivity. apply IH.
Qed.

End PollingRounds.

(** X26.  [pollJobStatus] gives up at the deadline: when the clock readings
    of the first [n] turns are within 600000 ms of the start, none of the
    first [n] answers completes, and the next reading is not within the
    limit, the loop ends after exactly [n] polls and [n] pauses by throwing
    the timeout error. *)
Theorem poll_times_out_at_deadline (baseUrl : string) (showJson : Json -> string)
  (n : nat) (jobId : string) (start : Z) (w : World) :
  (forall i, i < n ->
     (List.nth i (clock w) 0 - start < RealLlamaUnlearningEngine.maxPollTime)%Z /\
     RealLlamaUnlearningEngine.completes (RealLlamaUnlearningEngine.answerAt i w) = false) ->
  (RealLlamaUnlearningEngine.maxPollTime <= List.nth n (clock w) 0 - start)%Z ->
  RealLlamaUnlearningEngine.pollLoop baseUrl showJson (S n) jobId start w
  = Some (Throw RealLlamaUnlearningEngine.timedOut,
          mkWorld (trace w ++
                   List.concat (List.repeat
                             [EvFetch (baseUrl ++ "/job-status?jobId=" ++ jobId) None;
                              EvTimeout 2000] n))%list
                  (skipn n (fetches w)) (fileReads w) (randoms w)
                  (skipn (S n) (clock w))).
Proof.
  intros Hall Hlate.
  replace (RealLlamaUnlearningEngine.pollLoop baseUrl showJson (S n) jobId start w)
    with (RealLlamaUnlearningEngine.pollLoop baseUrl showJson (n + 1) jobId start w)
    by (f_equal; lia).
  rewrite (pollLoop_rounds baseUrl showJson n 1 jobId start w Hall).
  cbn [RealLlamaUnlearningEngine.pollLoop clock dateNow snd trace fetches fileReads randoms].
  rewrite hd_skipn.
  assert ((List.nth n (clock w) 0 - start <? RealLlamaUnlearningEngine.maxPollTime)%Z = false)
    as -> by (apply Z.ltb_ge; exact Hlate).
  now rewrite tl_skipn.
Qed.

Lemma poll_times_out_at_deadline_witness :
  RealLlamaUnlearningEngine.pollLoop "https://x/functions/v1" (fun _ => "") 3 "j" 0
    (mkWorld [] [Throw (NonError "offline")] [] [] [2000%Z; 4000%Z; 600000%Z; 0%Z])
  = Some (Throw RealLlamaUnlearningEngine.timedOut,
          mkWorld [EvFetch "https://x/functions/v1/job-status?jobId=j" None; EvTimeout 2000;
                   EvFetch "https://x/functions/v1/job-status?jobId=j" None; EvTimeout 2000]
                  [] [] [] [0%Z]).
Proof.
  apply (poll_times_out_at_deadline "https://x/functions/v1" (fun _ => "") 2 "j" 0
           (mkWorld [] [Throw (NonError "offline")] [] [] [2000%Z; 4000%Z; 600000%Z; 0%Z])).
  - intros [|[|i]] Hi; [split; reflexivity | split; reflexivity | lia].
  - unfold RealLlamaUnlearningEngine.maxPollTime. cbn. lia.
Defined.

(** X27.  [pollJobStatus] returns at the first answer that completes: when
    the clock readings of the first [n + 1] turns are within the limit and
    the answer of turn [n] is the first that is [ok] with a body whose
    [progress] converts to text for the log line and whose [status] is
    "completed", the loop returns the [result] of that body, or an empty
    object when it has none, after exactly [n + 1] polls and [n] pauses.  An
    answer whose [status] is "completed" and whose [progress] does not
    convert counts among those that do not complete: the log line throws
    before the status is tested and the loop pauses and polls again. *)
Theorem poll_returns_first_completed (baseUrl : string) (showJson : Json -> string)
  (n : nat) (jobId : string) (start : Z) (w : World) :
  (forall i, i < n ->
     (List.nth i (clock w) 0 - start < RealLlamaUnlearningEngine.maxPollTime)%Z /\
     RealLlamaUnlearningEngine.completes (RealLlamaUnlearningEngine.answerAt i w) = false) ->
  (List.nth n (clock w) 0 - start < RealLlamaUnlearningEngine.maxPollTime)%Z ->
  RealLlamaUnlearningEngine.completes (RealLlamaUnlearningEngine.answerAt n w) = true ->
  RealLlamaUnlearningEngine.pollLoop baseUrl showJson (S n) jobId start w
  = Some (Normal (RealLlamaUnlearningEngine.resultOf
                    (RealLlamaUnlearningEngine.answerAt n w)),
          mkWorld ((trace w ++
                    List.concat (List.repeat
                              [EvFetch (baseUrl ++ "/job-status?jobId=" ++ jobId) None;
                               EvTimeout 2000] n))
                   ++ [EvFetch (baseUrl ++ "/job-status?jobId=" ++ jobId) None])%list
                  (skipn (S n) (fetches w)) (fileReads w) (randoms w)
                  (skipn (S n) (clock w))).
Proof.
  intros Hall Hnow Hdone.
  replace (RealLlamaUnlearningEngine.pollLoop baseUrl showJson (S n) jobId start w)
    with (RealLlamaUnlearningEngine.pollLoop baseUrl showJson (n + 1) jobId start w)
    by (f_equal; lia).
  rewrite (pollLoop_rounds baseUrl showJson n 1 jobId start w Hall).
  cbn [RealLlamaUnlearningEngine.pollLoop clock dateNow snd trace fetches fileReads randoms].
  rewrite hd_skipn.
  apply Z.ltb_lt in Hnow. rewrite Hnow, pollOnce_returns.
  unfold RealLlamaUnlearningEngine.answerAt in *. cbn [fetches trace fileReads randoms clock].
  assert (forall d, List.nth 0 (skipn n (fetches w)) d = List.nth n (fetches w) d) as Hnth.
  { intros d. rewrite <- (hd_skipn n). now destruct (skipn n (fetches w)). }
  rewrite !Hnth, Hdone. now rewrite !tl_skipn.
Qed.

Lemma poll_returns_first_completed_witness :
  let running :=
    Normal (mkResponse true 200 (Normal "")
              (Normal (JObject [("status", JString "processing")]))) in
  let unprintable :=
    Normal (mkResponse true 200 (Normal "")
              (Normal (JObject [("status", JString "completed");
                                ("progress", JObject [("toString", JNumber 1)]);
                                ("result", JObject [("success", JBool true)])]))) in
  let done :=
    Normal (mkResponse true 200 (Normal "")
              (Normal (JObject [("status", JString "completed");
                                ("progress", JNumber 100);
                                ("result", JObject [("success", JBool false)])]))) in
  exists w',
    RealLlamaUnlearningEngine.pollLoop "https://x/functions/v1" (fun _ => "") 3 "j" 0
      (mkWorld [] [running; unprintable; done] [] [] [2000%Z; 4000%Z; 6000%Z])
    = Some (Normal (JObject [("success", JBool false)]), w') /\
    List.length (filter isTimeout (trace w')) = 2.
Proof.
  intros running unprintable done. eexists.
  split.
  - apply (poll_returns_first_completed "https://x/functions/v1" (fun _ => "") 2 "j" 0
             (mkWorld [] [running; unprintable; done] [] [] [2000%Z; 4000%Z; 6000%Z])).
    + intros [|[|i]] Hi; [split; reflexivity | split; reflexivity | lia].
    + unfold RealLlamaUnlearningEngine.maxPollTime. cbn. lia.
    + reflexivity.
  - reflexivity.
Defined.
